(** * Clixon controller: device state machine and backend RPCs

    A shallow embedding of [controller_device_state.c] and
    [controller_rpc.c].  Functions of the C sources become Rocq functions of
    the same name over an explicit device handle and clixon handle.  Return
    codes stay what they are in C: integers, [-1] for a fatal error, [0] and
    [1] as each function documents them.  Calls into the clixon library and
    the operating system whose outcome the controller cannot determine
    (writing to a socket, YANG parsing, datastore commit, ...) are fields
    of an environment record, [clixon_env]. *)

From Stdlib Require Import ZArith List String Ascii Bool Lia.
Import ListNotations.
Local Open Scope string_scope.
Local Open Scope Z_scope.



(** ** XML objects (cxobj), as far as the controller inspects them *)

#[warnings="-register-all"] Inductive cxobj : Type :=
| Cx (name : string) (prefix : option string)
     (nsctx : list (option string * string))
     (body : option string) (children : list cxobj).

Definition xml_name (x : cxobj) : string :=
  match x with Cx n _ _ _ _ => n end.
Definition xml_prefix (x : cxobj) : option string :=
  match x with Cx _ p _ _ _ => p end.
Definition xml_nsctx_node (x : cxobj) : list (option string * string) :=
  match x with Cx _ _ ns _ _ => ns end.
Definition xml_body (x : cxobj) : option string :=
  match x with Cx _ _ _ b _ => b end.
Definition xml_children (x : cxobj) : list cxobj :=
  match x with Cx _ _ _ _ c => c end.

Definition option_string_eqb (a b : option string) : bool :=
  match a, b with
  | None, None => true
  | Some x, Some y => String.eqb x y
  | _, _ => false
  end.

(** Namespace bound to a prefix in a namespace context ([None] is the
    default namespace). *)
Fixpoint xml_nsctx_get (nsc : list (option string * string))
         (prefix : option string) : option string :=
  match nsc with
  | [] => None
  | (p, ns) :: rest =>
      if option_string_eqb p prefix then Some ns else xml_nsctx_get rest prefix
  end.

Definition xml2ns (x : cxobj) (prefix : option string) : option string :=
  xml_nsctx_get (xml_nsctx_node x) prefix.

(** First child element with a given name. *)
Definition xml_find_type (x : cxobj) (name : string) : option cxobj :=
  find (fun c => String.eqb (xml_name c) name) (xml_children x).

(** Body of the first child with a given name. *)
Definition xml_find_body (x : cxobj) (name : string) : option string :=
  match xml_find_type x name with
  | Some c => xml_body c
  | None => None
  end.

(** Bodies of all children: the capability URIs of a <capabilities> node. *)
Fixpoint xml_bodies (l : list cxobj) : list string :=
  match l with
  | [] => []
  | c :: rest =>
      match xml_body c with
      | Some b => b :: xml_bodies rest
      | None => xml_bodies rest
      end
  end.

(** C's printf renders a NULL string argument of a percent-s directive as
    the text (null) (glibc). *)
Definition fmt_s (o : option string) : string :=
  match o with Some s => s | None => "(null)" end.

(** ** Constants *)

Definition NETCONF_BASE_NAMESPACE : string :=
  "urn:ietf:params:xml:ns:netconf:base:1.0".
Definition NETCONF_MONITORING_NAMESPACE : string :=
  "urn:ietf:params:xml:ns:yang:ietf-netconf-monitoring".
Definition NETCONF_BASE_CAPABILITY_1_0 : string :=
  "urn:ietf:params:netconf:base:1.0".
Definition NETCONF_BASE_CAPABILITY_1_1 : string :=
  "urn:ietf:params:netconf:base:1.1".

(** Framing types of the clixon library: end-of-message sentinel and
    chunked framing. *)
Definition NETCONF_SSH_EOM : Z := 0.
Definition NETCONF_SSH_CHUNKED : Z := 1.

(** ** Connection and configuration states *)

(** Modelled from the spec: enum conn_state of controller_device_state.h,
    which is not part of the sources; these are the states section 4.3 lists
    (CS_PUSH_EDIT and CS_WRESP are also named in the C files). *)
Inductive conn_state : Type :=
| CS_CLOSED | CS_CONNECTING | CS_SCHEMA_LIST | CS_SCHEMA_ONE
| CS_DEVICE_SYNC | CS_OPEN | CS_PUSH_EDIT | CS_PUSH_VALIDATE
| CS_PUSH_COMMIT | CS_WRESP.

(** Modelled from the spec: enum config_state, {CLOSED, YANG-only,
    VALIDATE}. *)
Inductive config_state : Type := CF_CLOSED | CF_YANG | CF_VALIDATE.

Definition conn_state_eqb (a b : conn_state) : bool :=
  match a, b with
  | CS_CLOSED, CS_CLOSED | CS_CONNECTING, CS_CONNECTING
  | CS_SCHEMA_LIST, CS_SCHEMA_LIST | CS_SCHEMA_ONE, CS_SCHEMA_ONE
  | CS_DEVICE_SYNC, CS_DEVICE_SYNC | CS_OPEN, CS_OPEN
  | CS_PUSH_EDIT, CS_PUSH_EDIT | CS_PUSH_VALIDATE, CS_PUSH_VALIDATE
  | CS_PUSH_COMMIT, CS_PUSH_COMMIT | CS_WRESP, CS_WRESP => true
  | _, _ => false
  end.

(** The table [csmap]: the states that have a YANG connection-state name. *)
Definition csmap : list (string * conn_state) :=
  [ ("CLOSED", CS_CLOSED); ("CONNECTING", CS_CONNECTING);
    ("SCHEMA_LIST", CS_SCHEMA_LIST); ("SCHEMA_ONE", CS_SCHEMA_ONE);
    ("DEVICE-SYNC", CS_DEVICE_SYNC); ("OPEN", CS_OPEN);
    ("WRESP", CS_WRESP) ].

(** clicon_int2str: first name mapped to the value, NULL when there is
    none. *)
Fixpoint clicon_int2str (m : list (string * conn_state)) (st : conn_state)
  : option string :=
  match m with
  | [] => None
  | (s, v) :: rest => if conn_state_eqb v st then Some s else clicon_int2str rest st
  end.

Definition device_state_int2str (st : conn_state) : option string :=
  clicon_int2str csmap st.

(** A state is transient when it is neither CLOSED nor OPEN. *)
Definition transient (st : conn_state) : bool :=
  match st with CS_CLOSED | CS_OPEN => false | _ => true end.

(** ** What the controller writes to a device *)

Inductive netconf_out : Type :=
| OutHello (version : Z)
| OutGetSchemaList (message_id : Z)
| OutGetSchema (message_id : Z) (identifier version : string)
| OutGetConfig (message_id : Z)
| OutEditConfig (message_id : Z) (dels adds : list cxobj)
                (changes : list (cxobj * cxobj)).

(** A frame on the wire: the framing type used to encapsulate it and the
    message. *)
Record frame : Type := mkFrame { fr_encap : Z; fr_msg : netconf_out }.

(** ** YANG specs and module sets *)

Record module_ref : Type := mkModule {
  m_name : string; m_revision : string; m_namespace : string }.

(** A yang spec: the modules parsed into it, by name and revision. *)
Definition yang_stmt : Type := list (string * string).

Definition yspec_new : yang_stmt := [].

Definition yang_find_module_by_name_revision
           (yspec : yang_stmt) (name revision : string) : bool :=
  existsb (fun m => String.eqb (fst m) name && String.eqb (snd m) revision) yspec.

(** ** Datastores *)

(** A datastore holds the entries of devices/device. *)
Definition datastore : Type := list cxobj.

Inductive validate_level : Type := VL_NONE | VL_FULL.

(** ** The device handle *)

(** Modelled from the spec: the device handle of controller_device_handle.c,
    which is not part of the sources: a container with one accessor per
    field (section 4.2).  The registrations the event loop keeps for a
    handle are kept with it: [dh_fd_events] are the descriptors registered
    with [device_input_cb] and this handle as argument, [dh_timers] the
    deadlines registered with [device_state_timeout] and this handle, in the
    order of the event list.  [dh_sent] records the frames written to the
    device. *)
Record device : Type := mkDevice {
  dh_name : string;
  dh_conn_state : conn_state;
  dh_config_state : config_state;
  dh_logmsg : option string;
  dh_socket : option Z;
  dh_fd_events : list Z;
  dh_timers : list Z;
  dh_frame_state : Z;
  dh_frame_size : Z;
  dh_frame_buf : string;
  dh_msg_id : Z;
  dh_capabilities : option (list string);
  dh_yang_lib : option (list module_ref);
  dh_yspec : option yang_stmt;
  dh_nr_schemas : Z;
  dh_schema_name : option string;
  dh_schema_rev : option string;
  dh_sync_xml : option cxobj;
  dh_sync_time : option Z;
  dh_yang_config : option string;
  dh_sent : list frame }.

Definition device_handle_conn_state_set (dh : device) (v : conn_state) : device :=
  {| dh_name := dh_name dh;
     dh_conn_state := v;
     dh_config_state := dh_config_state dh;
     dh_logmsg := dh_logmsg dh;
     dh_socket := dh_socket dh;
     dh_fd_events := dh_fd_events dh;
     dh_timers := dh_timers dh;
     dh_frame_state := dh_frame_state dh;
     dh_frame_size := dh_frame_size dh;
     dh_frame_buf := dh_frame_buf dh;
     dh_msg_id := dh_msg_id dh;
     dh_capabilities := dh_capabilities dh;
     dh_yang_lib := dh_yang_lib dh;
     dh_yspec := dh_yspec dh;
     dh_nr_schemas := dh_nr_schemas dh;
     dh_schema_name := dh_schema_name dh;
     dh_schema_rev := dh_schema_rev dh;
     dh_sync_xml := dh_sync_xml dh;
     dh_sync_time := dh_sync_time dh;
     dh_yang_config := dh_yang_config dh;
     dh_sent := dh_sent dh |}.

Definition device_handle_logmsg_set (dh : device) (v : option string) : device :=
  {| dh_name := dh_name dh;
     dh_conn_state := dh_conn_state dh;
     dh_config_state := dh_config_state dh;
     dh_logmsg := v;
     dh_socket := dh_socket dh;
     dh_fd_events := dh_fd_events dh;
     dh_timers := dh_timers dh;
     dh_frame_state := dh_frame_state dh;
     dh_frame_size := dh_frame_size dh;
     dh_frame_buf := dh_frame_buf dh;
     dh_msg_id := dh_msg_id dh;
     dh_capabilities := dh_capabilities dh;
     dh_yang_lib := dh_yang_lib dh;
     dh_yspec := dh_yspec dh;
     dh_nr_schemas := dh_nr_schemas dh;
     dh_schema_name := dh_schema_name dh;
     dh_schema_rev := dh_schema_rev dh;
     dh_sync_xml := dh_sync_xml dh;
     dh_sync_time := dh_sync_time dh;
     dh_yang_config := dh_yang_config dh;
     dh_sent := dh_sent dh |}.

Definition device_handle_socket_set (dh : device) (v : option Z) : device :=
  {| dh_name := dh_name dh;
     dh_conn_state := dh_conn_state dh;
     dh_config_state := dh_config_state dh;
     dh_logmsg := dh_logmsg dh;
     dh_socket := v;
     dh_fd_events := dh_fd_events dh;
     dh_timers := dh_timers dh;
     dh_frame_state := dh_frame_state dh;
     dh_frame_size := dh_frame_size dh;
     dh_frame_buf := dh_frame_buf dh;
     dh_msg_id := dh_msg_id dh;
     dh_capabilities := dh_capabilities dh;
     dh_yang_lib := dh_yang_lib dh;
     dh_yspec := dh_yspec dh;
     dh_nr_schemas := dh_nr_schemas dh;
     dh_schema_name := dh_schema_name dh;
     dh_schema_rev := dh_schema_rev dh;
     dh_sync_xml := dh_sync_xml dh;
     dh_sync_time := dh_sync_time dh;
     dh_yang_config := dh_yang_config dh;
     dh_sent := dh_sent dh |}.

Definition device_handle_fd_events_set (dh : device) (v : list Z) : device :=
  {| dh_name := dh_name dh;
     dh_conn_state := dh_conn_state dh;
     dh_config_state := dh_config_state dh;
     dh_logmsg := dh_logmsg dh;
     dh_socket := dh_socket dh;
     dh_fd_events := v;
     dh_timers := dh_timers dh;
     dh_frame_state := dh_frame_state dh;
     dh_frame_size := dh_frame_size dh;
     dh_frame_buf := dh_frame_buf dh;
     dh_msg_id := dh_msg_id dh;
     dh_capabilities := dh_capabilities dh;
     dh_yang_lib := dh_yang_lib dh;
     dh_yspec := dh_yspec dh;
     dh_nr_schemas := dh_nr_schemas dh;
     dh_schema_name := dh_schema_name dh;
     dh_schema_rev := dh_schema_rev dh;
     dh_sync_xml := dh_sync_xml dh;
     dh_sync_time := dh_sync_time dh;
     dh_yang_config := dh_yang_config dh;
     dh_sent := dh_sent dh |}.

Definition device_handle_timers_set (dh : device) (v : list Z) : device :=
  {| dh_name := dh_name dh;
     dh_conn_state := dh_conn_state dh;
     dh_config_state := dh_config_state dh;
     dh_logmsg := dh_logmsg dh;
     dh_socket := dh_socket dh;
     dh_fd_events := dh_fd_events dh;
     dh_timers := v;
     dh_frame_state := dh_frame_state dh;
     dh_frame_size := dh_frame_size dh;
     dh_frame_buf := dh_frame_buf dh;
     dh_msg_id := dh_msg_id dh;
     dh_capabilities := dh_capabilities dh;
     dh_yang_lib := dh_yang_lib dh;
     dh_yspec := dh_yspec dh;
     dh_nr_schemas := dh_nr_schemas dh;
     dh_schema_name := dh_schema_name dh;
     dh_schema_rev := dh_schema_rev dh;
     dh_sync_xml := dh_sync_xml dh;
     dh_sync_time := dh_sync_time dh;
     dh_yang_config := dh_yang_config dh;
     dh_sent := dh_sent dh |}.

Definition device_handle_frame_state_set (dh : device) (v : Z) : device :=
  {| dh_name := dh_name dh;
     dh_conn_state := dh_conn_state dh;
     dh_config_state := dh_config_state dh;
     dh_logmsg := dh_logmsg dh;
     dh_socket := dh_socket dh;
     dh_fd_events := dh_fd_events dh;
     dh_timers := dh_timers dh;
     dh_frame_state := v;
     dh_frame_size := dh_frame_size dh;
     dh_frame_buf := dh_frame_buf dh;
     dh_msg_id := dh_msg_id dh;
     dh_capabilities := dh_capabilities dh;
     dh_yang_lib := dh_yang_lib dh;
     dh_yspec := dh_yspec dh;
     dh_nr_schemas := dh_nr_schemas dh;
     dh_schema_name := dh_schema_name dh;
     dh_schema_rev := dh_schema_rev dh;
     dh_sync_xml := dh_sync_xml dh;
     dh_sync_time := dh_sync_time dh;
     dh_yang_config := dh_yang_config dh;
     dh_sent := dh_sent dh |}.

Definition device_handle_frame_size_set (dh : device) (v : Z) : device :=
  {| dh_name := dh_name dh;
     dh_conn_state := dh_conn_state dh;
     dh_config_state := dh_config_state dh;
     dh_logmsg := dh_logmsg dh;
     dh_socket := dh_socket dh;
     dh_fd_events := dh_fd_events dh;
     dh_timers := dh_timers dh;
     dh_frame_state := dh_frame_state dh;
     dh_frame_size := v;
     dh_frame_buf := dh_frame_buf dh;
     dh_msg_id := dh_msg_id dh;
     dh_capabilities := dh_capabilities dh;
     dh_yang_lib := dh_yang_lib dh;
     dh_yspec := dh_yspec dh;
     dh_nr_schemas := dh_nr_schemas dh;
     dh_schema_name := dh_schema_name dh;
     dh_schema_rev := dh_schema_rev dh;
     dh_sync_xml := dh_sync_xml dh;
     dh_sync_time := dh_sync_time dh;
     dh_yang_config := dh_yang_config dh;
     dh_sent := dh_sent dh |}.

Definition device_handle_frame_buf_set (dh : device) (v : string) : device :=
  {| dh_name := dh_name dh;
     dh_conn_state := dh_conn_state dh;
     dh_config_state := dh_config_state dh;
     dh_logmsg := dh_logmsg dh;
     dh_socket := dh_socket dh;
     dh_fd_events := dh_fd_events dh;
     dh_timers := dh_timers dh;
     dh_frame_state := dh_frame_state dh;
     dh_frame_size := dh_frame_size dh;
     dh_frame_buf := v;
     dh_msg_id := dh_msg_id dh;
     dh_capabilities := dh_capabilities dh;
     dh_yang_lib := dh_yang_lib dh;
     dh_yspec := dh_yspec dh;
     dh_nr_schemas := dh_nr_schemas dh;
     dh_schema_name := dh_schema_name dh;
     dh_schema_rev := dh_schema_rev dh;
     dh_sync_xml := dh_sync_xml dh;
     dh_sync_time := dh_sync_time dh;
     dh_yang_config := dh_yang_config dh;
     dh_sent := dh_sent dh |}.

Definition device_handle_msg_id_set (dh : device) (v : Z) : device :=
  {| dh_name := dh_name dh;
     dh_conn_state := dh_conn_state dh;
     dh_config_state := dh_config_state dh;
     dh_logmsg := dh_logmsg dh;
     dh_socket := dh_socket dh;
     dh_fd_events := dh_fd_events dh;
     dh_timers := dh_timers dh;
     dh_frame_state := dh_frame_state dh;
     dh_frame_size := dh_frame_size dh;
     dh_frame_buf := dh_frame_buf dh;
     dh_msg_id := v;
     dh_capabilities := dh_capabilities dh;
     dh_yang_lib := dh_yang_lib dh;
     dh_yspec := dh_yspec dh;
     dh_nr_schemas := dh_nr_schemas dh;
     dh_schema_name := dh_schema_name dh;
     dh_schema_rev := dh_schema_rev dh;
     dh_sync_xml := dh_sync_xml dh;
     dh_sync_time := dh_sync_time dh;
     dh_yang_config := dh_yang_config dh;
     dh_sent := dh_sent dh |}.

Definition device_handle_capabilities_set (dh : device) (v : option (list string)) : device :=
  {| dh_name := dh_name dh;
     dh_conn_state := dh_conn_state dh;
     dh_config_state := dh_config_state dh;
     dh_logmsg := dh_logmsg dh;
     dh_socket := dh_socket dh;
     dh_fd_events := dh_fd_events dh;
     dh_timers := dh_timers dh;
     dh_frame_state := dh_frame_state dh;
     dh_frame_size := dh_frame_size dh;
     dh_frame_buf := dh_frame_buf dh;
     dh_msg_id := dh_msg_id dh;
     dh_capabilities := v;
     dh_yang_lib := dh_yang_lib dh;
     dh_yspec := dh_yspec dh;
     dh_nr_schemas := dh_nr_schemas dh;
     dh_schema_name := dh_schema_name dh;
     dh_schema_rev := dh_schema_rev dh;
     dh_sync_xml := dh_sync_xml dh;
     dh_sync_time := dh_sync_time dh;
     dh_yang_config := dh_yang_config dh;
     dh_sent := dh_sent dh |}.

Definition device_handle_yang_lib_set (dh : device) (v : option (list module_ref)) : device :=
  {| dh_name := dh_name dh;
     dh_conn_state := dh_conn_state dh;
     dh_config_state := dh_config_state dh;
     dh_logmsg := dh_logmsg dh;
     dh_socket := dh_socket dh;
     dh_fd_events := dh_fd_events dh;
     dh_timers := dh_timers dh;
     dh_frame_state := dh_frame_state dh;
     dh_frame_size := dh_frame_size dh;
     dh_frame_buf := dh_frame_buf dh;
     dh_msg_id := dh_msg_id dh;
     dh_capabilities := dh_capabilities dh;
     dh_yang_lib := v;
     dh_yspec := dh_yspec dh;
     dh_nr_schemas := dh_nr_schemas dh;
     dh_schema_name := dh_schema_name dh;
     dh_schema_rev := dh_schema_rev dh;
     dh_sync_xml := dh_sync_xml dh;
     dh_sync_time := dh_sync_time dh;
     dh_yang_config := dh_yang_config dh;
     dh_sent := dh_sent dh |}.

Definition device_handle_yspec_set (dh : device) (v : option yang_stmt) : device :=
  {| dh_name := dh_name dh;
     dh_conn_state := dh_conn_state dh;
     dh_config_state := dh_config_state dh;
     dh_logmsg := dh_logmsg dh;
     dh_socket := dh_socket dh;
     dh_fd_events := dh_fd_events dh;
     dh_timers := dh_timers dh;
     dh_frame_state := dh_frame_state dh;
     dh_frame_size := dh_frame_size dh;
     dh_frame_buf := dh_frame_buf dh;
     dh_msg_id := dh_msg_id dh;
     dh_capabilities := dh_capabilities dh;
     dh_yang_lib := dh_yang_lib dh;
     dh_yspec := v;
     dh_nr_schemas := dh_nr_schemas dh;
     dh_schema_name := dh_schema_name dh;
     dh_schema_rev := dh_schema_rev dh;
     dh_sync_xml := dh_sync_xml dh;
     dh_sync_time := dh_sync_time dh;
     dh_yang_config := dh_yang_config dh;
     dh_sent := dh_sent dh |}.

Definition device_handle_nr_schemas_set (dh : device) (v : Z) : device :=
  {| dh_name := dh_name dh;
     dh_conn_state := dh_conn_state dh;
     dh_config_state := dh_config_state dh;
     dh_logmsg := dh_logmsg dh;
     dh_socket := dh_socket dh;
     dh_fd_events := dh_fd_events dh;
     dh_timers := dh_timers dh;
     dh_frame_state := dh_frame_state dh;
     dh_frame_size := dh_frame_size dh;
     dh_frame_buf := dh_frame_buf dh;
     dh_msg_id := dh_msg_id dh;
     dh_capabilities := dh_capabilities dh;
     dh_yang_lib := dh_yang_lib dh;
     dh_yspec := dh_yspec dh;
     dh_nr_schemas := v;
     dh_schema_name := dh_schema_name dh;
     dh_schema_rev := dh_schema_rev dh;
     dh_sync_xml := dh_sync_xml dh;
     dh_sync_time := dh_sync_time dh;
     dh_yang_config := dh_yang_config dh;
     dh_sent := dh_sent dh |}.

Definition device_handle_schema_name_set (dh : device) (v : option string) : device :=
  {| dh_name := dh_name dh;
     dh_conn_state := dh_conn_state dh;
     dh_config_state := dh_config_state dh;
     dh_logmsg := dh_logmsg dh;
     dh_socket := dh_socket dh;
     dh_fd_events := dh_fd_events dh;
     dh_timers := dh_timers dh;
     dh_frame_state := dh_frame_state dh;
     dh_frame_size := dh_frame_size dh;
     dh_frame_buf := dh_frame_buf dh;
     dh_msg_id := dh_msg_id dh;
     dh_capabilities := dh_capabilities dh;
     dh_yang_lib := dh_yang_lib dh;
     dh_yspec := dh_yspec dh;
     dh_nr_schemas := dh_nr_schemas dh;
     dh_schema_name := v;
     dh_schema_rev := dh_schema_rev dh;
     dh_sync_xml := dh_sync_xml dh;
     dh_sync_time := dh_sync_time dh;
     dh_yang_config := dh_yang_config dh;
     dh_sent := dh_sent dh |}.

Definition device_handle_schema_rev_set (dh : device) (v : option string) : device :=
  {| dh_name := dh_name dh;
     dh_conn_state := dh_conn_state dh;
     dh_config_state := dh_config_state dh;
     dh_logmsg := dh_logmsg dh;
     dh_socket := dh_socket dh;
     dh_fd_events := dh_fd_events dh;
     dh_timers := dh_timers dh;
     dh_frame_state := dh_frame_state dh;
     dh_frame_size := dh_frame_size dh;
     dh_frame_buf := dh_frame_buf dh;
     dh_msg_id := dh_msg_id dh;
     dh_capabilities := dh_capabilities dh;
     dh_yang_lib := dh_yang_lib dh;
     dh_yspec := dh_yspec dh;
     dh_nr_schemas := dh_nr_schemas dh;
     dh_schema_name := dh_schema_name dh;
     dh_schema_rev := v;
     dh_sync_xml := dh_sync_xml dh;
     dh_sync_time := dh_sync_time dh;
     dh_yang_config := dh_yang_config dh;
     dh_sent := dh_sent dh |}.

Definition device_handle_sync_time_set (dh : device) (v : option Z) : device :=
  {| dh_name := dh_name dh;
     dh_conn_state := dh_conn_state dh;
     dh_config_state := dh_config_state dh;
     dh_logmsg := dh_logmsg dh;
     dh_socket := dh_socket dh;
     dh_fd_events := dh_fd_events dh;
     dh_timers := dh_timers dh;
     dh_frame_state := dh_frame_state dh;
     dh_frame_size := dh_frame_size dh;
     dh_frame_buf := dh_frame_buf dh;
     dh_msg_id := dh_msg_id dh;
     dh_capabilities := dh_capabilities dh;
     dh_yang_lib := dh_yang_lib dh;
     dh_yspec := dh_yspec dh;
     dh_nr_schemas := dh_nr_schemas dh;
     dh_schema_name := dh_schema_name dh;
     dh_schema_rev := dh_schema_rev dh;
     dh_sync_xml := dh_sync_xml dh;
     dh_sync_time := v;
     dh_yang_config := dh_yang_config dh;
     dh_sent := dh_sent dh |}.

Definition device_handle_yang_config_set (dh : device) (v : option string) : device :=
  {| dh_name := dh_name dh;
     dh_conn_state := dh_conn_state dh;
     dh_config_state := dh_config_state dh;
     dh_logmsg := dh_logmsg dh;
     dh_socket := dh_socket dh;
     dh_fd_events := dh_fd_events dh;
     dh_timers := dh_timers dh;
     dh_frame_state := dh_frame_state dh;
     dh_frame_size := dh_frame_size dh;
     dh_frame_buf := dh_frame_buf dh;
     dh_msg_id := dh_msg_id dh;
     dh_capabilities := dh_capabilities dh;
     dh_yang_lib := dh_yang_lib dh;
     dh_yspec := dh_yspec dh;
     dh_nr_schemas := dh_nr_schemas dh;
     dh_schema_name := dh_schema_name dh;
     dh_schema_rev := dh_schema_rev dh;
     dh_sync_xml := dh_sync_xml dh;
     dh_sync_time := dh_sync_time dh;
     dh_yang_config := v;
     dh_sent := dh_sent dh |}.

Definition device_handle_sent_set (dh : device) (v : list frame) : device :=
  {| dh_name := dh_name dh;
     dh_conn_state := dh_conn_state dh;
     dh_config_state := dh_config_state dh;
     dh_logmsg := dh_logmsg dh;
     dh_socket := dh_socket dh;
     dh_fd_events := dh_fd_events dh;
     dh_timers := dh_timers dh;
     dh_frame_state := dh_frame_state dh;
     dh_frame_size := dh_frame_size dh;
     dh_frame_buf := dh_frame_buf dh;
     dh_msg_id := dh_msg_id dh;
     dh_capabilities := dh_capabilities dh;
     dh_yang_lib := dh_yang_lib dh;
     dh_yspec := dh_yspec dh;
     dh_nr_schemas := dh_nr_schemas dh;
     dh_schema_name := dh_schema_name dh;
     dh_schema_rev := dh_schema_rev dh;
     dh_sync_xml := dh_sync_xml dh;
     dh_sync_time := dh_sync_time dh;
     dh_yang_config := dh_yang_config dh;
     dh_sent := v |}.

Definition device_handle_socket_get (dh : device) : Z :=
  match dh_socket dh with Some s => s | None => -1 end.

(** The message-id of the next request: returns the counter and steps it
    (an unsigned 64-bit integer). *)
Definition device_handle_msg_id_getinc (dh : device) : Z * device :=
  (dh_msg_id dh, device_handle_msg_id_set dh ((dh_msg_id dh + 1) mod 2 ^ 64)).

Definition device_handle_capabilities_find (dh : device) (name : string) : bool :=
  match dh_capabilities dh with
  | Some caps => existsb (String.eqb name) caps
  | None => false
  end.

(** Modelled from the spec: device_handle_disconnect of
    controller_device_handle.c, which is not part of the sources.  Its call
    in device_close_connection documents it as: close socket, reap
    sub-processes (the close of the framed transport, section 4.1).  The
    frame buffer lives in the handle and device_close_connection does not
    touch it, so the disconnect is where section 3 has it emptied
    (conn_state CLOSED implies frame_buf empty). *)
Definition device_handle_disconnect (dh : device) : device :=
  device_handle_frame_buf_set (device_handle_socket_set dh None) "".

(** Modelled from the spec: device_handle_new of
    controller_device_handle.c: a fresh handle, in the initial state CLOSED
    of section 4.3, message-id 1, nothing registered. *)
Definition device_handle_new (name : string) : device :=
  {| dh_name := name; dh_conn_state := CS_CLOSED; dh_config_state := CF_CLOSED;
     dh_logmsg := None; dh_socket := None; dh_fd_events := []; dh_timers := [];
     dh_frame_state := 0; dh_frame_size := 0; dh_frame_buf := "";
     dh_msg_id := 1; dh_capabilities := None; dh_yang_lib := None;
     dh_yspec := None; dh_nr_schemas := 0; dh_schema_name := None;
     dh_schema_rev := None; dh_sync_xml := None; dh_sync_time := None;
     dh_yang_config := None; dh_sent := [] |}.

(** ** Transactions *)

(** Modelled from the spec: enum and struct of controller_transaction.h,
    which is not part of the sources (section 3, Transaction). *)
Inductive transaction_state : Type :=
| TS_INIT | TS_RUNNING | TS_SUCCESS | TS_FAILED | TS_ERROR.

Record controller_transaction : Type := mkTransaction {
  ct_id : Z;
  ct_origin : option string;
  ct_state : transaction_state;
  ct_participants : list string }.

(** ** The clixon handle *)

(** The parts of the clixon handle the controller reads and writes: the two
    options it uses, the running and candidate datastores with the dirty
    bit of candidate, the YANG files written to the mount directory, and
    the transactions. *)
Record clixon_handle : Type := mkHandle {
  h_netconf_framing : Z;
  h_controller_device_timeout : Z;
  h_running : datastore;
  h_candidate : datastore;
  h_candidate_modified : bool;
  h_yang_files : list (string * string);
  h_transactions : list controller_transaction }.

Definition clicon_option_netconf_framing_set (h : clixon_handle) (v : Z)
  : clixon_handle :=
  {| h_netconf_framing := v;
     h_controller_device_timeout := h_controller_device_timeout h;
     h_running := h_running h; h_candidate := h_candidate h;
     h_candidate_modified := h_candidate_modified h;
     h_yang_files := h_yang_files h;
     h_transactions := h_transactions h |}.

Definition xmldb_candidate_set (h : clixon_handle) (db : datastore)
  : clixon_handle :=
  {| h_netconf_framing := h_netconf_framing h;
     h_controller_device_timeout := h_controller_device_timeout h;
     h_running := h_running h; h_candidate := db;
     h_candidate_modified := h_candidate_modified h;
     h_yang_files := h_yang_files h;
     h_transactions := h_transactions h |}.

Definition xmldb_running_set (h : clixon_handle) (db : datastore)
  : clixon_handle :=
  {| h_netconf_framing := h_netconf_framing h;
     h_controller_device_timeout := h_controller_device_timeout h;
     h_running := db; h_candidate := h_candidate h;
     h_candidate_modified := h_candidate_modified h;
     h_yang_files := h_yang_files h;
     h_transactions := h_transactions h |}.

Definition xmldb_modified_set (h : clixon_handle) (v : bool) : clixon_handle :=
  {| h_netconf_framing := h_netconf_framing h;
     h_controller_device_timeout := h_controller_device_timeout h;
     h_running := h_running h; h_candidate := h_candidate h;
     h_candidate_modified := v;
     h_yang_files := h_yang_files h;
     h_transactions := h_transactions h |}.

Definition yang_files_set (h : clixon_handle) (v : list (string * string))
  : clixon_handle :=
  {| h_netconf_framing := h_netconf_framing h;
     h_controller_device_timeout := h_controller_device_timeout h;
     h_running := h_running h; h_candidate := h_candidate h;
     h_candidate_modified := h_candidate_modified h;
     h_yang_files := v;
     h_transactions := h_transactions h |}.

Definition transactions_set (h : clixon_handle)
           (v : list controller_transaction) : clixon_handle :=
  {| h_netconf_framing := h_netconf_framing h;
     h_controller_device_timeout := h_controller_device_timeout h;
     h_running := h_running h; h_candidate := h_candidate h;
     h_candidate_modified := h_candidate_modified h;
     h_yang_files := h_yang_files h;
     h_transactions := v |}.

(** xmldb_copy of running to candidate. *)
Definition xmldb_copy_running_candidate (h : clixon_handle) : clixon_handle :=
  xmldb_candidate_set h (h_running h).

(** ** The environment: clixon library and operating system *)

Record clixon_env : Type := mkEnv {
  (** clicon_msg_send1 on an open socket: [0] or [-1]. *)
  env_msg_send1 : Z -> frame -> Z;
  (** device_handle_connect: the socket of the new ssh sub-process, or
      [-1]. *)
  env_connect : string -> Z;
  (** YANG_SCHEMA_MOUNT_DIR of controller_custom.h. *)
  env_yang_schema_mount_dir : string;
  (** yang_file_find_match: [1] when name@revision is a local file. *)
  env_yang_file_find_match : string -> string -> Z;
  env_xml_chardata_decode : string -> string;
  (** fopen and fwrite of a YANG file: [0] or [-1]. *)
  env_yang_file_write : string -> string -> Z;
  (** yang_lib2yspec: [1] parsed, [0] parse error, [-1] error. *)
  env_yang_lib2yspec : option (list module_ref) -> yang_stmt -> Z;
  (** Parsing the mount-point tree of a device: [0] or [-1]. *)
  env_mount_point_parse : string -> Z;
  (** yang_schema_mount_point of the root node of a device. *)
  env_yang_schema_mount_point : string -> Z;
  (** xml_bind_yang, with the error-message of the error tree. *)
  env_xml_bind_yang : yang_stmt -> cxobj -> Z * option string;
  (** xmldb_put of the mount-point tree of a device into a datastore. *)
  env_xmldb_put : datastore -> string -> list cxobj -> Z * datastore;
  (** candidate_commit: [1] committed, [0] failed, [-1] error. *)
  env_candidate_commit : datastore -> validate_level -> Z;
  (** xml_diff: return code and the delete, add and change vectors. *)
  env_xml_diff : yang_stmt -> cxobj -> cxobj ->
                 Z * (list cxobj * list cxobj * list (cxobj * cxobj)) }.

(** ** The event library, for one device handle *)

(** clixon_event_reg_timeout keeps the timers sorted by time: the new one
    goes before the first that is strictly later. *)
Fixpoint clixon_event_reg_timeout (t : Z) (timers : list Z) : list Z :=
  match timers with
  | [] => [t]
  | t1 :: rest =>
      if t <? t1 then t :: timers else t1 :: clixon_event_reg_timeout t rest
  end.

(** clixon_event_unreg_timeout removes the first timer of the callback
    and argument; [-1] when there is none. *)
Definition clixon_event_unreg_timeout (timers : list Z) : Z * list Z :=
  match timers with
  | [] => (-1, [])
  | _ :: rest => (0, rest)
  end.

Definition clixon_event_reg_fd (s : Z) (fds : list Z) : list Z := s :: fds.

(** clixon_event_unreg_fd removes the first registration of the
    descriptor. *)
Fixpoint clixon_event_unreg_fd (s : Z) (fds : list Z) : list Z :=
  match fds with
  | [] => []
  | s1 :: rest => if s1 =? s then rest else s1 :: clixon_event_unreg_fd s rest
  end.

(** ** Timeouts of transient states *)

(** The seconds device_state_timeout_register adds to the time of day: the
    option read into a uint32_t, 60 when that is zero. *)
Definition device_timeout_secs (h : clixon_handle) : Z :=
  let d := (h_controller_device_timeout h) mod 2 ^ 32 in
  if d =? 0 then 60 else d.

Definition device_state_timeout_register (h : clixon_handle) (now : Z)
           (dh : device) : Z * device :=
  let t := now + device_timeout_secs h in
  (0, device_handle_timers_set dh (clixon_event_reg_timeout t (dh_timers dh))).

Definition device_state_timeout_unregister (dh : device) : Z * device :=
  let '(r, timers) := clixon_event_unreg_timeout (dh_timers dh) in
  if r <? 0 then (-1, dh) else (0, device_handle_timers_set dh timers).

Definition device_state_timeout_restart (h : clixon_handle) (now : Z)
           (dh : device) : Z * device :=
  let '(r, dh1) := device_state_timeout_unregister dh in
  if r <? 0 then (-1, dh1)
  else
    let '(r2, dh2) := device_state_timeout_register h now dh1 in
    if r2 <? 0 then (-1, dh2) else (0, dh2).

(** ** Closing a connection *)

(** device_close_connection: deregister the descriptor, cancel the timer,
    disconnect, drop the yang library, enter CLOSED, set the log message
    (the formatted string, or NULL without a format). *)
Definition device_close_connection (dh : device) (msg : option string)
  : Z * device :=
  let s := device_handle_socket_get dh in
  let dh := device_handle_fd_events_set dh (clixon_event_unreg_fd s (dh_fd_events dh)) in
  let dh := snd (device_state_timeout_unregister dh) in
  let dh := device_handle_disconnect dh in
  let dh := device_handle_yang_lib_set dh None in
  let dh := device_handle_conn_state_set dh CS_CLOSED in
  let dh := device_handle_logmsg_set dh msg in
  (0, dh).

Definition unexpected_msg (rpcname : string) (st : conn_state) : string :=
  "Unexpected msg " ++ rpcname ++ " in state " ++ fmt_s (device_state_int2str st).

(** Timeout callback of transient states. *)
Definition device_state_timeout (dh : device) : Z * device :=
  let '(_, dh) := device_close_connection dh (Some "Timeout waiting for remote peer") in
  (0, dh).

(** ** Input from a device *)

(** What one call of the event loop into device_input_cb reads:
    netconf_input_msg gives a return code, the bytes it appends to the
    frame buffer, the new frame state and size, and the flags eom and eof;
    netconf_input_frame, called on a complete frame, gives a return code
    and the first element of the parsed tree. *)
Record netconf_input : Type := mkInput {
  in_ret : Z;
  in_data : string;
  in_frame_state : Z;
  in_frame_size : Z;
  in_eom : bool;
  in_eof : bool;
  in_frame_ret : Z;
  in_frame_msg : option cxobj }.

(** ** Replies of the backend to its client *)

Inductive rpc_reply : Type :=
| ReplyOk
| ReplyOperationFailed (type message : string)
| ReplySyncConfig (config : option cxobj).

Definition netconf_operation_failed (cbret : list rpc_reply)
           (type message : string) : list rpc_reply :=
  (cbret ++ [ReplyOperationFailed type message])%list.

Section Device.

Variable E : clixon_env.

(** clicon_msg_send1: writing to a descriptor that is not the open socket
    of the device fails; on an open socket the environment decides. *)
Definition clicon_msg_send1 (dh : device) (s : Z) (f : frame) : Z * device :=
  match dh_socket dh with
  | Some s1 =>
      if s1 =? s then
        if env_msg_send1 E s f <? 0 then (-1, dh)
        else (0, device_handle_sent_set dh (dh_sent dh ++ [f])%list)
      else (-1, dh)
  | None => (-1, dh)
  end.

(** Send a get-config of running to a device. *)
Definition device_send_sync (h : clixon_handle) (dh : device) (s : Z)
  : Z * device :=
  let '(id, dh) := device_handle_msg_id_getinc dh in
  let encap := h_netconf_framing h in
  let s := device_handle_socket_get dh in
  let '(r, dh) := clicon_msg_send1 dh s (mkFrame encap (OutGetConfig id)) in
  if r <? 0 then (-1, dh) else (0, dh).

(** Send a single get-schema request. *)
Definition device_get_schema_sendit (h : clixon_handle) (dh : device) (s : Z)
           (identifier version : string) : Z * device :=
  let '(seq, dh) := device_handle_msg_id_getinc dh in
  let encap := h_netconf_framing h in
  let '(r, dh) :=
    clicon_msg_send1 dh s (mkFrame encap (OutGetSchema seq identifier version)) in
  if r <? 0 then (-1, dh) else (0, dh).

(** The loop of device_send_get_schema_next over module-set/module, from
    index [i] on. *)
Fixpoint device_send_get_schema_next_loop (h : clixon_handle) (yspec : yang_stmt)
         (s : Z) (vec : list module_ref) (i nr : Z) (dh : device)
  : Z * Z * device :=
  match vec with
  | [] => (0, nr, dh)
  | x :: rest =>
      if negb (i =? nr) then
        device_send_get_schema_next_loop h yspec s rest (i + 1) nr dh
      else
        let name := m_name x in
        let revision := m_revision x in
        let nr := nr + 1 in
        if yang_find_module_by_name_revision yspec name revision then
          device_send_get_schema_next_loop h yspec s rest (i + 1) nr dh
        else
          let ret := env_yang_file_find_match E name revision in
          if ret <? 0 then (-1, nr, dh)
          else if ret =? 1 then
            device_send_get_schema_next_loop h yspec s rest (i + 1) nr dh
          else
            let '(ret, dh) := device_get_schema_sendit h dh s name revision in
            if ret <? 0 then (-1, nr, dh)
            else
              let dh := device_handle_schema_name_set dh (Some name) in
              let dh := device_handle_schema_rev_set dh (Some revision) in
              (1, nr, dh)
  end.

(** Send the next get-schema request: [1] sent, [0] none left, [-1]
    error; the second component is the updated index.  Without a yang
    library the module vector is empty. *)
Definition device_send_get_schema_next (h : clixon_handle) (dh : device)
           (s : Z) (nr : Z) : Z * Z * device :=
  match dh_yspec dh with
  | None => (-1, nr, dh)
  | Some yspec =>
      let vec := match dh_yang_lib dh with Some l => l | None => [] end in
      device_send_get_schema_next_loop h yspec s vec 0 nr dh
  end.

(** Send the get request for netconf-state/schemas. *)
Definition device_send_get_schema_list (h : clixon_handle) (dh : device)
           (s : Z) : Z * device :=
  let '(id, dh) := device_handle_msg_id_getinc dh in
  let encap := h_netconf_framing h in
  let '(r, dh) := clicon_msg_send1 dh s (mkFrame encap (OutGetSchemaList id)) in
  if r <? 0 then (-1, dh) else (0, dh).

(** clixon_client_hello: the hello of the controller, always with
    end-of-message framing. *)
Definition clixon_client_hello (dh : device) (s : Z) (version : Z)
  : Z * device :=
  clicon_msg_send1 dh s (mkFrame NETCONF_SSH_EOM (OutHello version)).

Definition namespace_is_base (namespace : option string) : bool :=
  match namespace with
  | Some ns => String.eqb ns NETCONF_BASE_NAMESPACE
  | None => false
  end.

(** Receive hello from device, send hello: [1] OK, [0] closed, [-1]
    error. *)
Definition device_state_recv_hello (h : clixon_handle) (dh : device) (s : Z)
           (xmsg : cxobj) (rpcname : string) (conn_state : conn_state)
  : Z * clixon_handle * device :=
  let rpcprefix := xml_prefix xmsg in
  let namespace := xml2ns xmsg rpcprefix in
  if negb (String.eqb rpcname "hello") then
    let '(_, dh) := device_close_connection dh
                      (Some (unexpected_msg rpcname conn_state)) in
    (0, h, dh)
  else if negb (namespace_is_base namespace) then
    let '(_, dh) := device_close_connection dh
      (Some ("No appropriate namespace associated with " ++ fmt_s namespace)) in
    (0, h, dh)
  else
    match xml_find_type xmsg "capabilities" with
    | None => (-1, h, dh)
    | Some xcaps =>
        let dh := device_handle_capabilities_set dh
                    (Some (xml_bodies (xml_children xcaps))) in
        let version :=
          if device_handle_capabilities_find dh NETCONF_BASE_CAPABILITY_1_1
          then Some 1
          else if device_handle_capabilities_find dh NETCONF_BASE_CAPABILITY_1_0
               then Some 0
               else None in
        match version with
        | None =>
            let '(_, dh) := device_close_connection dh
                              (Some "No base netconf capability found") in
            (0, h, dh)
        | Some version =>
            let version := 0 in (* XXX hardcoded to 0 *)
            let h := clicon_option_netconf_framing_set h version in
            let '(r, dh) := clixon_client_hello dh s version in
            if r <? 0 then (-1, h, dh) else (1, h, dh)
        end
    end.

(** Create the tree and mount-point of a device: [0] or [-1]. *)
Definition device_state_mount_point_get (devicename : string) : Z :=
  if env_mount_point_parse E devicename <? 0 then -1 else 0.

(** The data element of a reply; what the library makes of a reply
    without one is left to the environment, which then sees an empty data
    element. *)
Definition reply_data (xmsg : cxobj) : cxobj :=
  match xml_find_type xmsg "data" with
  | Some x => x
  | None => Cx "data" None (xml_nsctx_node xmsg) None []
  end.

(** The validate level of the commit, chosen by the config-state. *)
Definition commit_validate_level (dh : device) : validate_level :=
  match dh_config_state dh with
  | CF_VALIDATE => VL_FULL
  | _ => VL_NONE
  end.

(** Receive config data from device and add config to mount-point: [1]
    OK, [0] closed, [-1] error.  [now] is the time of day.  The two
    closes before the mount-point is made (a name other than rpc-reply, a
    namespace other than base) reach the xml_free of the C function with
    its tree pointer not yet set; what the C program does there is not
    defined, and the return 0 given here is what the code asks for. *)
Definition device_state_recv_config (h : clixon_handle) (now : Z) (dh : device)
           (xmsg : cxobj) (rpcname : string) (conn_state : conn_state)
  : Z * clixon_handle * device :=
  if negb (String.eqb rpcname "rpc-reply") then
    let '(_, dh) := device_close_connection dh
                      (Some (unexpected_msg rpcname conn_state)) in
    (0, h, dh)
  else
    let name := dh_name dh in
    let nsc := xml_nsctx_node xmsg in
    let rpcprefix := xml_prefix xmsg in
    let namespace := xml_nsctx_get nsc rpcprefix in
    if negb (namespace_is_base namespace) then
      let '(_, dh) := device_close_connection dh
        (Some ("No appropriate namespace associated with:" ++ fmt_s namespace)) in
      (0, h, dh)
    else
      let xdata := reply_data xmsg in
      if device_state_mount_point_get name <? 0 then (-1, h, dh)
      else
        let ret := env_yang_schema_mount_point E name in
        if ret <? 0 then (-1, h, dh)
        else if ret =? 0 then (-1, h, dh)
        else
          match dh_yspec dh with
          | None =>
              let '(_, dh) := device_close_connection dh
                                (Some "No YANGs available") in
              (0, h, dh)
          | Some yspec1 =>
              let '(ret, errmsg) := env_xml_bind_yang E yspec1 xdata in
              if ret <? 0 then (-1, h, dh)
              else if ret =? 0 then
                let cberr := "YANG binding failed at mountpoint:"
                             ++ match errmsg with Some m => m | None => "" end in
                let '(r, dh) := device_close_connection dh (Some cberr) in
                if r <? 0 then (-1, h, dh) else (0, h, dh)
              else
                let '(ret, db) :=
                  env_xmldb_put E (h_candidate h) name (xml_children xdata) in
                let h := xmldb_candidate_set h db in
                if ret <? 0 then (-1, h, dh)
                else
                  let vl := commit_validate_level dh in
                  let ret := if ret =? 0 then ret
                             else env_candidate_commit E (h_candidate h) vl in
                  if ret <? 0 then (-1, h, dh)
                  else if ret =? 0 then (* discard *)
                    let h := xmldb_copy_running_candidate h in
                    let h := xmldb_modified_set h false in
                    let '(r, dh) := device_close_connection dh
                                      (Some "Failed to commit") in
                    if r <? 0 then (-1, h, dh) else (0, h, dh)
                  else
                    (* effect of the successful candidate_commit *)
                    let h := xmldb_running_set h (h_candidate h) in
                    let dh := device_handle_sync_time_set dh (Some now) in
                    (1, h, dh)
          end.

(** Check if there is a location NETCONF in a schema entry. *)
Definition schema_check_location_netconf (xd : cxobj) : Z :=
  if existsb (fun x => String.eqb "location" (xml_name x)
                       && option_string_eqb (xml_body x) (Some "NETCONF"))
             (xml_children xd)
  then 1 else 0.

(** Translate the RFC 6022 schema list to the modules of a yang library:
    the schema entries with identifier, version, namespace and format,
    of format yang, with a NETCONF location. *)
Fixpoint schema_list2yang_library (xschemas : list cxobj) : list module_ref :=
  match xschemas with
  | [] => []
  | x :: rest =>
      if negb (String.eqb (xml_name x) "schema") then
        schema_list2yang_library rest
      else
        match xml_find_body x "identifier", xml_find_body x "version",
              xml_find_body x "namespace", xml_find_body x "format" with
        | Some identifier, Some version, Some namespace, Some format =>
            if negb (String.eqb format "yang") then
              schema_list2yang_library rest
            else if schema_check_location_netconf x =? 0 then
              schema_list2yang_library rest
            else
              mkModule identifier version namespace
                :: schema_list2yang_library rest
        | _, _, _, _ => schema_list2yang_library rest
        end
  end.

(** Receive the netconf-state schema list: [1] OK, [0] closed. *)
Definition device_state_recv_schema_list (dh : device) (xmsg : cxobj)
           (rpcname : string) (conn_state : conn_state) : Z * device :=
  if negb (String.eqb rpcname "rpc-reply") then
    let '(_, dh) := device_close_connection dh
                      (Some (unexpected_msg rpcname conn_state)) in
    (0, dh)
  else
    let nsc := xml_nsctx_node xmsg in
    let rpcprefix := xml_prefix xmsg in
    let namespace := xml_nsctx_get nsc rpcprefix in
    if negb (namespace_is_base namespace) then
      let '(_, dh) := device_close_connection dh
        (Some ("No appropriate namespace associated with:" ++ fmt_s namespace)) in
      (0, dh)
    else
      let xschemas :=
        match xml_find_type xmsg "data" with
        | Some x =>
            match xml_find_type x "netconf-state" with
            | Some x1 => xml_find_type x1 "schemas"
            | None => None
            end
        | None => None
        end in
      match xschemas with
      | None =>
          let '(_, dh) := device_close_connection dh
                            (Some "No schemas returned") in
          (0, dh)
      | Some xschemas =>
          (* prune what is not a schema entry *)
          let entries := filter (fun x => String.eqb (xml_name x) "schema")
                                (xml_children xschemas) in
          let xyanglib := schema_list2yang_library entries in
          let dh := device_handle_yang_lib_set dh (Some xyanglib) in
          (1, dh)
      end.

(** Name of the file a received module is written to. *)
Definition yang_file_name (modname revision : option string) : string :=
  env_yang_schema_mount_dir E ++ "/" ++ fmt_s modname
  ++ match revision with Some r => "@" ++ r | None => "" end
  ++ ".yang".

(** Receive a get-schema reply and write it to a local yang file: [1]
    OK, [0] closed, [-1] error. *)
Definition device_state_recv_get_schema (h : clixon_handle) (dh : device)
           (xmsg : cxobj) (rpcname : string) (conn_state : conn_state)
  : Z * clixon_handle * device :=
  if negb (String.eqb rpcname "rpc-reply") then
    let '(_, dh) := device_close_connection dh
                      (Some (unexpected_msg rpcname conn_state)) in
    (0, h, dh)
  else
    let nsc := xml_nsctx_node xmsg in
    let rpcprefix := xml_prefix xmsg in
    let namespace := xml_nsctx_get nsc rpcprefix in
    if negb (namespace_is_base namespace) then
      let '(_, dh) := device_close_connection dh
        (Some ("No appropriate namespace associated with:" ++ fmt_s namespace)) in
      (0, h, dh)
    else
      match xml_find_body xmsg "data" with
      | None =>
          let '(_, dh) := device_close_connection dh
                            (Some "Invalid get-schema, no YANG body") in
          (0, h, dh)
      | Some ystr =>
          let ydec := env_xml_chardata_decode E ystr in
          (* sz = strlen(ydec) + 1: the terminating NUL is written too *)
          let ybytes := ydec ++ String Ascii.zero "" in
          let revision := dh_schema_rev dh in
          let modname := dh_schema_name dh in
          let file := yang_file_name modname revision in
          if env_yang_file_write E file ybytes <? 0 then (-1, h, dh)
          else (1, yang_files_set h ((file, ybytes) :: h_yang_files h), dh)
      end.

(** All schemas ready from one device, parse them locally: [1] OK, [0]
    YANG parse error, [-1] error.  On success the modules of the yang
    library are part of the yang spec of the device. *)
Definition device_state_schemas_ready (h : clixon_handle) (dh : device)
  : Z * device :=
  match dh_yspec dh with
  | None => (-1, dh)
  | Some yspec1 =>
      let yanglib := dh_yang_lib dh in
      let ret := env_yang_lib2yspec E yanglib yspec1 in
      if ret <? 0 then (-1, dh)
      else if ret =? 0 then (0, dh)
      else
        let devname := dh_name dh in
        if device_state_mount_point_get devname <? 0 then (-1, dh)
        else
          let mods := match yanglib with Some l => l | None => [] end in
          let yspec1 := (yspec1 ++ map (fun m => (m_name m, m_revision m)) mods)%list in
          (1, device_handle_yspec_set dh (Some yspec1))
  end.

(** ** The device state machine *)

Definition device_state_handler (h : clixon_handle) (now : Z) (dh : device)
           (s : Z) (xmsg : cxobj) : Z * clixon_handle * device :=
  let rpcname := xml_name xmsg in
  let conn_state := dh_conn_state dh in
  match conn_state with
  | CS_CONNECTING =>
      (* Receive hello from device, send hello *)
      let '(ret, h, dh) := device_state_recv_hello h dh s xmsg rpcname conn_state in
      if ret <? 0 then (-1, h, dh)
      else if ret =? 0 then (0, h, dh) (* closed *)
      else
        (* Reset YANGs *)
        let dh := device_handle_yspec_set dh (Some yspec_new) in
        if negb (device_handle_capabilities_find dh NETCONF_MONITORING_NAMESPACE) then
          let '(_, dh) := device_close_connection dh
                            (Some "No method to get schemas") in
          (0, h, dh)
        else
          let '(ret, dh) := device_send_get_schema_list h dh s in
          if ret <? 0 then (-1, h, dh)
          else
            let dh := device_handle_conn_state_set dh CS_SCHEMA_LIST in
            let '(_, dh) := device_state_timeout_restart h now dh in
            (0, h, dh)
  | CS_SCHEMA_LIST =>
      (* Receive netconf-state schema list from device *)
      let '(ret, dh) := device_state_recv_schema_list dh xmsg rpcname conn_state in
      if ret <? 0 then (-1, h, dh)
      else
        let nr := 0 in
        let '(ret, nr, dh) := device_send_get_schema_next h dh s nr in
        if ret <? 0 then (-1, h, dh)
        else if ret =? 0 then (* None found *)
          (* All schemas ready, parse them *)
          let '(ret, dh) := device_state_schemas_ready h dh in
          if ret <? 0 then (-1, h, dh)
          else if ret =? 0 then
            let '(_, dh) := device_close_connection dh (Some "YANG parse error") in
            (0, h, dh)
          else
            (* Unconditionally sync *)
            let '(ret, dh) := device_send_sync h dh s in
            if ret <? 0 then (-1, h, dh)
            else
              let dh := device_handle_conn_state_set dh CS_DEVICE_SYNC in
              let '(_, dh) := device_state_timeout_restart h now dh in
              (0, h, dh)
        else
          let dh := device_handle_nr_schemas_set dh nr in
          let dh := device_handle_conn_state_set dh CS_SCHEMA_ONE in
          let '(_, dh) := device_state_timeout_restart h now dh in
          (0, h, dh)
  | CS_SCHEMA_ONE =>
      (* Receive get-schema and write to local yang file *)
      let '(ret, h, dh) := device_state_recv_get_schema h dh xmsg rpcname conn_state in
      if ret <? 0 then (-1, h, dh)
      else if ret =? 0 then (0, h, dh) (* closed *)
      else
        (* Check if all schemas are received *)
        let nr := dh_nr_schemas dh in
        let '(ret, nr, dh) := device_send_get_schema_next h dh s nr in
        if ret <? 0 then (-1, h, dh)
        else if ret =? 0 then (* None sent, done *)
          let '(ret, dh) := device_state_schemas_ready h dh in
          if ret <? 0 then (-1, h, dh)
          else if ret =? 0 then
            let '(_, dh) := device_close_connection dh (Some "YANG parse error") in
            (0, h, dh)
          else
            let '(ret, dh) := device_send_sync h dh s in
            if ret <? 0 then (-1, h, dh)
            else
              let dh := device_handle_conn_state_set dh CS_DEVICE_SYNC in
              let '(_, dh) := device_state_timeout_restart h now dh in
              (0, h, dh)
        else
          let dh := device_handle_nr_schemas_set dh nr in
          let '(_, dh) := device_state_timeout_restart h now dh in
          (0, h, dh)
  | CS_DEVICE_SYNC =>
      (* Receive config data from device and add config to mount-point *)
      let '(ret, h, dh) := device_state_recv_config h now dh xmsg rpcname conn_state in
      if ret <? 0 then (-1, h, dh)
      else if ret =? 0 then (0, h, dh) (* closed *)
      else
        let dh := device_handle_conn_state_set dh CS_OPEN in
        let '(_, dh) := device_state_timeout_unregister dh in
        (0, h, dh)
  | _ => (* CS_CLOSED, CS_OPEN, default *)
      let '(_, dh) := device_close_connection dh
                        (Some (unexpected_msg rpcname conn_state)) in
      (0, h, dh)
  end.

(** Handle input data from device, whole or part of a frame; called by
    the event loop with the descriptor [s] and the handle. *)
Definition device_input_cb (h : clixon_handle) (now : Z) (dh : device)
           (s : Z) (inp : netconf_input) : Z * clixon_handle * device :=
  let dh := device_handle_frame_buf_set dh (dh_frame_buf dh ++ in_data inp) in
  if in_ret inp <? 0 then (-1, h, dh)
  else if in_eof inp then
    let '(_, dh) := device_close_connection dh
                      (Some "Remote socket endpoint closed") in
    (0, h, dh)
  else
    let dh := device_handle_frame_state_set dh (in_frame_state inp) in
    let dh := device_handle_frame_size_set dh (in_frame_size inp) in
    if negb (in_eom inp) then (0, h, dh) (* frame not complete *)
    else
      let ret := in_frame_ret inp in
      if ret <? 0 then (-1, h, dh)
      else
        let dh := device_handle_frame_buf_set dh "" in (* cbuf_reset *)
        if ret =? 0 then
          let '(_, dh) := device_close_connection dh (Some "Invalid frame") in
          (0, h, dh)
        else
          match in_frame_msg inp with
          | Some xmsg =>
              let '(r, h, dh) := device_state_handler h now dh s xmsg in
              if r <? 0 then (-1, h, dh) else (0, h, dh)
          | None => (0, h, dh)
          end.

(** ** Backend RPC callbacks (controller_rpc.c) *)

(** Connect to device via Netconf SSH; [dh] is a handle in closed state.
    Modelled from the spec: device_handle_connect of
    controller_device_handle.c opens the transport and resets the
    message-id (section 4.3, the transition from CLOSED). *)
Definition connect_netconf_ssh (h : clixon_handle) (now : Z) (dh : device)
           (user addr : option string) : Z * clixon_handle * device :=
  match addr with
  | None => (-1, h, dh)
  | Some addr =>
      if negb (conn_state_eqb (dh_conn_state dh) CS_CLOSED) then (-1, h, dh)
      else
        let cb := match user with Some u => u ++ "@" | None => "" end ++ addr in
        let s := env_connect E cb in
        if s <? 0 then (-1, h, dh)
        else
          let dh := device_handle_socket_set dh (Some s) in
          let dh := device_handle_msg_id_set dh 1 in
          let '(_, dh) := device_state_timeout_register h now dh in
          let dh := device_handle_conn_state_set dh CS_CONNECTING in
          let s := device_handle_socket_get dh in
          (* Always start with EOM *)
          let h := clicon_option_netconf_framing_set h NETCONF_SSH_EOM in
          let dh := device_handle_fd_events_set dh
                      (clixon_event_reg_fd s (dh_fd_events dh)) in
          (0, h, dh)
  end.

(** Modelled from the spec: device_send_edit_config_diff of
    controller_device_send.c, which is not part of the sources: assemble
    the edit-config of the three lists and send it (section 4.5). *)
Definition device_send_edit_config_diff (h : clixon_handle) (dh : device)
           (dvec avec : list cxobj) (chvec : list (cxobj * cxobj))
  : Z * device :=
  let '(id, dh) := device_handle_msg_id_getinc dh in
  let encap := h_netconf_framing h in
  let s := device_handle_socket_get dh in
  let '(r, dh) :=
    clicon_msg_send1 dh s (mkFrame encap (OutEditConfig id dvec avec chvec)) in
  if r <? 0 then (-1, dh) else (0, dh).

(** The root of a device in running:
    devices/device[name='...']/root. *)
Definition running_device_root (h : clixon_handle) (name : string)
  : option cxobj :=
  match find (fun xn => option_string_eqb (xml_find_body xn "name") (Some name))
             (h_running h) with
  | Some xn => xml_find_type xn "root"
  | None => None
  end.

Definition vec_nonempty {A : Type} (l : list A) : bool :=
  match l with [] => false | _ => true end.

(** Push the difference between the synced tree and running to a device:
    [1] OK, [0] fail with cbret set, [-1] error. *)
Definition push_device (h : clixon_handle) (now : Z) (dh : device)
           (cbret : list rpc_reply) : Z * device * list rpc_reply :=
  (* 1) get previous device synced xml *)
  match dh_sync_xml dh with
  | None =>
      (0, dh, netconf_operation_failed cbret "application" "No synced device tree")
  | Some x0 =>
      (* 2) get current and compute diff with previous *)
      let name := dh_name dh in
      match running_device_root h name with
      | None =>
          (0, dh, netconf_operation_failed cbret "application" "Device not configured")
      | Some x1 =>
          match dh_yspec dh with
          | None =>
              (0, dh, netconf_operation_failed cbret "application" "No YANGs in device")
          | Some yspec =>
              let '(r, (dvec, avec, chvec)) := env_xml_diff E yspec x0 x1 in
              if r <? 0 then (-1, dh, cbret)
              else
                (* 3) construct an edit-config, send it and validate it *)
                if vec_nonempty dvec || vec_nonempty avec || vec_nonempty chvec then
                  let '(r, dh) := device_send_edit_config_diff h dh dvec avec chvec in
                  if r <? 0 then (-1, dh, cbret)
                  else
                    let dh := device_handle_conn_state_set dh CS_PUSH_EDIT in
                    let '(r, dh) := device_state_timeout_register h now dh in
                    if r <? 0 then (-1, dh, cbret) else (1, dh, cbret)
                else (1, dh, cbret)
          end
      end
  end.

(** Pull the configuration of a device: [1] OK, [-1] error. *)
Definition pull_device (h : clixon_handle) (now : Z) (dh : device)
           (cbret : list rpc_reply) : Z * device * list rpc_reply :=
  let s := device_handle_socket_get dh in
  let '(r, dh) := device_send_sync h dh s in
  if r <? 0 then (-1, dh, cbret)
  else
    let '(_, dh) := device_state_timeout_register h now dh in
    let dh := device_handle_conn_state_set dh CS_DEVICE_SYNC in
    (1, dh, cbret).

End Device.

(** ** The device handles of the controller *)

(** The handles are kept in a queue; find returns the first of a name. *)
Definition device_handle_find (devs : list device) (name : string)
  : option device :=
  find (fun dh => String.eqb (dh_name dh) name) devs.

(** Write back a handle that was found by name: the first of that name. *)
Fixpoint device_handle_store (devs : list device) (dh : device) : list device :=
  match devs with
  | [] => []
  | d :: rest =>
      if String.eqb (dh_name d) (dh_name dh) then dh :: rest
      else d :: device_handle_store rest dh
  end.

(** fnmatch of the C library with flags 0, for patterns of ordinary
    characters and the wildcards [*] and [?]: [0] on a match, [1]
    (FNM_NOMATCH) otherwise. *)
Fixpoint fnmatch_b (pattern : string) : string -> bool :=
  match pattern with
  | EmptyString => fun s => match s with EmptyString => true | _ => false end
  | String c p =>
      if Ascii.eqb c "*"%char then
        fix star (s : string) : bool :=
          fnmatch_b p s
          || match s with
             | EmptyString => false
             | String _ s1 => star s1
             end
      else if Ascii.eqb c "?"%char then
        fun s => match s with
                 | EmptyString => false
                 | String _ s1 => fnmatch_b p s1
                 end
      else
        fun s => match s with
                 | EmptyString => false
                 | String d s1 => Ascii.eqb c d && fnmatch_b p s1
                 end
  end.

Definition fnmatch (pattern name : string) : Z :=
  if fnmatch_b pattern name then 0 else 1.

(** How the device loop of an RPC ends: with an error (goto done), at a
    failed device (goto ok) or after the last entry. *)
Inductive loop_exit : Type := LoopError | LoopFail | LoopEnd.

Section Rpc.

Variable E : clixon_env.

(** Connect to a device, given the XML of its configuration. *)
Definition controller_connect (h : clixon_handle) (now : Z)
           (devs : list device) (xn : cxobj)
  : Z * clixon_handle * list device :=
  match xml_find_body xn "name" with
  | None => (0, h, devs)
  | Some name =>
      match xml_find_body xn "enabled" with
      | None => (0, h, devs)
      | Some enablestr =>
          let dh := device_handle_find devs name in (* can be NULL *)
          if String.eqb enablestr "false" then
            let dh := device_handle_new name in
            let dh := device_handle_logmsg_set dh (Some "Configured down") in
            (0, h, (devs ++ [dh])%list)
          else if match dh with
                  | Some d => negb (conn_state_eqb (dh_conn_state d) CS_CLOSED)
                  | None => false
                  end then (0, h, devs)
          else
            (* Only handle netconf/ssh *)
            if negb (option_string_eqb (xml_find_body xn "conn-type")
                                       (Some "NETCONF_SSH")) then (0, h, devs)
            else
              match xml_find_body xn "addr" with
              | None => (0, h, devs)
              | Some addr =>
                  let user := xml_find_body xn "user" in
                  (* Now dh is either NULL or in closed state *)
                  let '(dh, devs) :=
                    match dh with
                    | Some d => (d, devs)
                    | None => (device_handle_new name,
                               (devs ++ [device_handle_new name])%list)
                    end in
                  let dh := match xml_find_body xn "yang-config" with
                            | Some yfstr => device_handle_yang_config_set dh (Some yfstr)
                            | None => dh
                            end in
                  let '(r, h, dh) := connect_netconf_ssh E h now dh user (Some addr) in
                  let devs := device_handle_store devs dh in
                  if r <? 0 then (-1, h, devs) else (0, h, devs)
              end
      end
  end.

(** The loop of rpc_sync over the device entries of running. *)
Fixpoint rpc_sync_loop (h : clixon_handle) (now : Z) (pattern : option string)
         (push : Z) (vec : list cxobj) (devs : list device)
         (cbret : list rpc_reply) : loop_exit * list device * list rpc_reply :=
  match vec with
  | [] => (LoopEnd, devs, cbret)
  | xn :: rest =>
      match xml_find_body xn "devname" with
      | None => rpc_sync_loop h now pattern push rest devs cbret
      | Some devname =>
          match device_handle_find devs devname with
          | None => rpc_sync_loop h now pattern push rest devs cbret
          | Some dh =>
              if negb (conn_state_eqb (dh_conn_state dh) CS_OPEN) then
                rpc_sync_loop h now pattern push rest devs cbret
              else if match pattern with
                      | Some p => negb (fnmatch p devname =? 0)
                      | None => false
                      end then
                rpc_sync_loop h now pattern push rest devs cbret
              else
                let '(ret, dh, cbret) :=
                  if push =? 1 then push_device E h now dh cbret
                  else pull_device E h now dh cbret in
                let devs := device_handle_store devs dh in
                if ret <? 0 then (LoopError, devs, cbret)
                else if ret =? 0 then (LoopFail, devs, cbret)
                else rpc_sync_loop h now pattern push rest devs cbret
          end
      end
  end.

(** Incoming rpc handler to sync from or to one or several devices;
    [push] is 0 for pull and 1 for push.  [xe] is the request. *)
Definition rpc_sync (h : clixon_handle) (now : Z) (devs : list device)
           (xe : cxobj) (cbret : list rpc_reply) (push : Z)
  : Z * list device * list rpc_reply :=
  let pattern : option string := None in
  let vec := h_running h in
  let '(ex, devs, cbret) := rpc_sync_loop h now pattern push vec devs cbret in
  match ex with
  | LoopError => (-1, devs, cbret)
  | LoopFail => (0, devs, cbret)
  | LoopEnd => (0, devs, (cbret ++ [ReplyOk])%list)
  end.

Definition rpc_sync_pull (h : clixon_handle) (now : Z) (devs : list device)
           (xe : cxobj) (cbret : list rpc_reply) :=
  rpc_sync h now devs xe cbret 0.


(** Get last synced configuration of a single device. *)
Definition rpc_get_device_sync_config (devs : list device) (xe : cxobj)
           (cbret : list rpc_reply) : Z * list rpc_reply :=
  let xc :=
    match xml_find_body xe "devname" with
    | Some devname =>
        match device_handle_find devs devname with
        | Some dh => dh_sync_xml dh
        | None => None
        end
    | None => None
    end in
  (0, (cbret ++ [ReplySyncConfig xc])%list).

(** The loop of rpc_reconnect over the device entries of running. *)
Fixpoint rpc_reconnect_loop (h : clixon_handle) (now : Z)
         (pattern : option string) (vec : list cxobj) (devs : list device)
  : Z * clixon_handle * list device :=
  match vec with
  | [] => (0, h, devs)
  | xn :: rest =>
      match xml_find_body xn "devname" with
      | None => rpc_reconnect_loop h now pattern rest devs
      | Some devname =>
          match device_handle_find devs devname with
          | None => rpc_reconnect_loop h now pattern rest devs
          | Some dh =>
              if negb (conn_state_eqb (dh_conn_state dh) CS_CLOSED) then
                rpc_reconnect_loop h now pattern rest devs
              else if match pattern with
                      | Some p => negb (fnmatch p devname =? 0)
                      | None => false
                      end then
                rpc_reconnect_loop h now pattern rest devs
              else
                let '(r, h, devs) := controller_connect h now devs xn in
                if r <? 0 then (-1, h, devs)
                else rpc_reconnect_loop h now pattern rest devs
          end
      end
  end.

(** (Re)connect try an enabled device in CLOSED state. *)
Definition rpc_reconnect (h : clixon_handle) (now : Z) (devs : list device)
           (xe : cxobj) (cbret : list rpc_reply)
  : Z * clixon_handle * list device * list rpc_reply :=
  let pattern : option string := None in
  let vec := h_running h in
  let '(r, h1, devs) := rpc_reconnect_loop h now pattern vec devs in
  if r <? 0 then (-1, h1, devs, cbret)
  else (0, h1, devs, (cbret ++ [ReplyOk])%list).

(** Terminate an ongoing transaction with an error condition. *)
Definition rpc_transaction_error (h : clixon_handle) (devs : list device)
           (xe : cxobj) (cbret : list rpc_reply)
  : Z * clixon_handle * list device * list rpc_reply :=
  let retval := 0 in
  (retval, h, devs, cbret).

End Rpc.

(** ** Events of one device *)

(** What can happen to a device handle: a connect (from controller_connect,
    which may cache a yang-config first), input on a registered
    descriptor, the expiry of its first timer, and a pull or a push from
    rpc_sync, which drives devices in state OPEN only. *)
Inductive device_event : Type :=
| EvConnect (yfstr user addr : option string)
| EvInput (s : Z) (inp : netconf_input)
| EvTimeout
| EvPull (cbret : list rpc_reply)
| EvPush (cbret : list rpc_reply).

(** One turn of the event loop or one RPC on a device, at time [now] with
    the clixon handle [h]; [None] when the event cannot occur.  The event
    loop calls a timeout callback when the time of the first timer has
    come, after removing the timer. *)
Definition device_step (E : clixon_env) (h : clixon_handle) (now : Z)
           (ev : device_event) (dh : device) : option device :=
  match ev with
  | EvConnect yfstr user addr =>
      let dh := match yfstr with
                | Some y => device_handle_yang_config_set dh (Some y)
                | None => dh
                end in
      Some (snd (connect_netconf_ssh E h now dh user addr))
  | EvInput s inp =>
      if existsb (Z.eqb s) (dh_fd_events dh)
      then Some (snd (device_input_cb E h now dh s inp))
      else None
  | EvTimeout =>
      match dh_timers dh with
      | t :: rest =>
          if t <=? now
          then Some (snd (device_state_timeout (device_handle_timers_set dh rest)))
          else None
      | [] => None
      end
  | EvPull cbret =>
      if conn_state_eqb (dh_conn_state dh) CS_OPEN
      then Some (snd (fst (pull_device E h now dh cbret)))
      else None
  | EvPush cbret =>
      if conn_state_eqb (dh_conn_state dh) CS_OPEN
      then Some (snd (fst (push_device E h now dh cbret)))
      else None
  end.

(** The states a device handle can be in: a new handle (also the one
    controller_connect makes for a device that is configured down), and
    what events make of it. *)
Inductive reachable (E : clixon_env) : device -> Prop :=
| reach_new : forall name, reachable E (device_handle_new name)
| reach_down : forall name,
    reachable E (device_handle_logmsg_set (device_handle_new name)
                                          (Some "Configured down"))
| reach_step : forall h now ev dh dh1,
    reachable E dh -> device_step E h now ev dh = Some dh1 -> reachable E dh1.

(** What the event loop holds for a device, by connection state: nothing
    when CLOSED; the descriptor of the open socket otherwise, and exactly
    one timer in a transient state. *)
Definition device_inv (dh : device) : Prop :=
  match dh_conn_state dh with
  | CS_CLOSED =>
      dh_timers dh = [] /\ dh_fd_events dh = [] /\ dh_socket dh = None
  | CS_OPEN =>
      dh_timers dh = []
      /\ exists s, dh_socket dh = Some s /\ dh_fd_events dh = [s]
  | _ =>
      (exists t, dh_timers dh = [t])
      /\ exists s, dh_socket dh = Some s /\ dh_fd_events dh = [s]
  end.

(** Two handles agree on what the event loop, the frame buffer, the
    log and the snapshot hold. *)
Definition same_conn (dh dh1 : device) : Prop :=
  dh_name dh1 = dh_name dh
  /\ dh_conn_state dh1 = dh_conn_state dh
  /\ dh_timers dh1 = dh_timers dh
  /\ dh_fd_events dh1 = dh_fd_events dh
  /\ dh_socket dh1 = dh_socket dh
  /\ dh_frame_buf dh1 = dh_frame_buf dh
  /\ dh_sync_xml dh1 = dh_sync_xml dh
  /\ dh_logmsg dh1 = dh_logmsg dh.

(** [dh1] is [dh] after device_close_connection with the log message
    [msg], up to fields a close does not read. *)
Definition closed_from (dh dh1 : device) (msg : option string) : Prop :=
  exists dh0, same_conn dh dh0 /\ dh1 = snd (device_close_connection dh0 msg).

(** What every handle satisfies whatever its state: at most one timer,
    and a registered descriptor exactly when the socket is open. *)
Definition device_inv_weak (dh : device) : Prop :=
  (List.length (dh_timers dh) <= 1)%nat
  /\ ((dh_fd_events dh = [] /\ dh_socket dh = None)
      \/ exists s, dh_socket dh = Some s /\ dh_fd_events dh = [s]).

(** What a receive function makes of a handle: a close (return 0), or no
    change to the connection. *)
Definition recv_outcome (dh : device) (r : Z) (dh1 : device) : Prop :=
  (r = 0 /\ exists msg, closed_from dh dh1 (Some msg))
  \/ ((r = 1 \/ r = -1) /\ same_conn dh dh1).

(** Two handles agree on what the event loop holds. *)
Definition same_loop (dh dh1 : device) : Prop :=
  dh_conn_state dh1 = dh_conn_state dh
  /\ dh_timers dh1 = dh_timers dh
  /\ dh_fd_events dh1 = dh_fd_events dh
  /\ dh_socket dh1 = dh_socket dh.

(** What an event makes of a handle, as the event loop sees it: nothing;
    a close; the entry to a transient state with a fresh timer; or the
    entry to OPEN. *)
Definition step_outcome (h : clixon_handle) (now : Z) (dh dh1 : device) : Prop :=
  same_loop dh dh1
  \/ (dh_conn_state dh1 = CS_CLOSED /\ device_inv dh1)
  \/ (transient (dh_conn_state dh1) = true
      /\ dh_timers dh1 = [now + device_timeout_secs h]
      /\ device_inv dh1)
  \/ (dh_conn_state dh1 = CS_OPEN /\ device_inv dh1).

(** What the handling of a complete message returns: an error, or 0
    with the device CLOSED, OPEN, or in a transient state with a fresh
    timer. *)
Definition entry_outcome (h : clixon_handle) (now : Z)
           (res : Z * clixon_handle * device) : Prop :=
  fst (fst res) = -1
  \/ (fst (fst res) = 0
      /\ (dh_conn_state (snd res) = CS_CLOSED
          \/ dh_conn_state (snd res) = CS_OPEN
          \/ dh_timers (snd res) = [now + device_timeout_secs h])).


(** ** Example environments, handles and messages *)

Definition xml_leaf (name body : string) : cxobj :=
  Cx name None [] (Some body) [].

(** A device entry of the configuration: the key is [name]; [extra] are
    further leaves. *)
Definition device_entry (name : string) (extra root : list cxobj) : cxobj :=
  Cx "device" None []
     None (xml_leaf "name" name :: extra ++ [Cx "root" None [] None root])%list.

(** An environment in which the library calls succeed; [commit] and
    [parse] are the results of candidate_commit and yang_lib2yspec.  Two
    trees differ when their first children have different bodies. *)
Definition example_env (commit parse : Z) : clixon_env :=
  {| env_msg_send1 := fun _ _ => 0;
     env_connect := fun _ => 5;
     env_yang_schema_mount_dir := "/usr/local/share/clixon/mounts";
     env_yang_file_find_match := fun _ _ => 0;
     env_xml_chardata_decode := fun s => s;
     env_yang_file_write := fun _ _ => 0;
     env_yang_lib2yspec := fun _ _ => parse;
     env_mount_point_parse := fun _ => 0;
     env_yang_schema_mount_point := fun _ => 1;
     env_xml_bind_yang := fun _ _ => (1, None);
     env_xmldb_put := fun db name children =>
                        (1, device_entry name [] children :: db);
     env_candidate_commit := fun _ _ => commit;
     env_xml_diff := fun _ x0 x1 =>
       if option_string_eqb (xml_body (hd x0 (xml_children x0)))
                            (xml_body (hd x1 (xml_children x1)))
       then (0, ([], [], []))
       else (0, ([], [], [(x0, x1)])) |}.

Definition env_ok : clixon_env := example_env 1 1.
Definition env_commit_fails : clixon_env := example_env 0 1.
Definition env_commit_error : clixon_env := example_env (-1) 1.
Definition env_parse_fails : clixon_env := example_env 1 0.

Definition h0 : clixon_handle :=
  {| h_netconf_framing := NETCONF_SSH_EOM;
     h_controller_device_timeout := 0;
     h_running := []; h_candidate := [];
     h_candidate_modified := false;
     h_yang_files := []; h_transactions := [] |}.

(** A handle in which the option controller_device_timeout is not set:
    clicon_option_int gives -1 for an option that does not exist. *)
Definition h_timeout_unset : clixon_handle :=
  {| h_netconf_framing := NETCONF_SSH_EOM;
     h_controller_device_timeout := -1;
     h_running := []; h_candidate := [];
     h_candidate_modified := false;
     h_yang_files := []; h_transactions := [] |}.

Definition base_nsctx : list (option string * string) :=
  [(None, NETCONF_BASE_NAMESPACE)].

Definition hello_msg (caps : list string) : cxobj :=
  Cx "hello" None base_nsctx None
     [Cx "capabilities" None [] None (map (xml_leaf "capability") caps)].

Definition rpc_reply_data (children : list cxobj) : cxobj :=
  Cx "rpc-reply" None base_nsctx None [Cx "data" None [] None children].

Definition rpc_request (name devname : string) : cxobj :=
  Cx name None [] None [xml_leaf "devname" devname].

(** A device that was connected at time 100 and waits for the hello. *)
Definition dev_connecting (name : string) : device :=
  snd (connect_netconf_ssh env_ok h0 100 (device_handle_new name)
                           None (Some "10.0.0.1")).

(** A device in a given state with an open socket, its descriptor
    registered, a timer when the state is transient, and a yang spec. *)
Definition dev_in_state (name : string) (st : conn_state)
           (sync : option cxobj) : device :=
  {| dh_name := name; dh_conn_state := st; dh_config_state := CF_VALIDATE;
     dh_logmsg := None; dh_socket := Some 5; dh_fd_events := [5];
     dh_timers := if transient st then [160] else [];
     dh_frame_state := 0; dh_frame_size := 0; dh_frame_buf := "";
     dh_msg_id := 3;
     dh_capabilities := Some [NETCONF_BASE_CAPABILITY_1_0;
                              NETCONF_MONITORING_NAMESPACE];
     dh_yang_lib := Some []; dh_yspec := Some yspec_new; dh_nr_schemas := 0;
     dh_schema_name := None; dh_schema_rev := None;
     dh_sync_xml := sync; dh_sync_time := None;
     dh_yang_config := None; dh_sent := [] |}.

(** A handle whose running and candidate hold one device, and a pulled
    configuration for it. *)
Definition h_one_device : clixon_handle :=
  {| h_netconf_framing := NETCONF_SSH_EOM;
     h_controller_device_timeout := 0;
     h_running := [device_entry "d1" [] [xml_leaf "mtu" "1500"]];
     h_candidate := [device_entry "d1" [] [xml_leaf "mtu" "1500"]];
     h_candidate_modified := false;
     h_yang_files := []; h_transactions := [] |}.

Definition pulled_config : cxobj := rpc_reply_data [xml_leaf "mtu" "9999999"].

Definition synced_tree : cxobj := Cx "root" None [] None [xml_leaf "mtu" "1500"].

(** A transaction that is running, with two participants. *)
Definition h_running_transaction : clixon_handle :=
  transactions_set h_one_device
    [mkTransaction 42 (Some "cli") TS_RUNNING ["d1"; "d2"]].

Definition transaction_error_request (tid : string) : cxobj :=
  Cx "transaction-error" None [] None
     [xml_leaf "tid" tid; xml_leaf "origin" "cli";
      xml_leaf "reason" "Aborted by user"].

(** The push or pull of rpc_sync on one device. *)
Definition device_sync_op (E : clixon_env) (h : clixon_handle) (now : Z)
           (push : Z) (dh : device) (cbret : list rpc_reply)
  : Z * device * list rpc_reply :=
  if push =? 1 then push_device E h now dh cbret
  else pull_device E h now dh cbret.

(** An entry of the configuration that rpc_sync passes over: it has no
    devname, or no device handle of that name, or the device is not
    OPEN. *)
Definition rpc_sync_skips (devs : list device) (xn : cxobj) : bool :=
  match xml_find_body xn "devname" with
  | None => true
  | Some devname =>
      match device_handle_find devs devname with
      | None => true
      | Some dh => negb (conn_state_eqb (dh_conn_state dh) CS_OPEN)
      end
  end.

(** Two devices and their configuration, as rpc_sync and push_device
    read it: each entry carries the devname rpc_sync looks for and the
    name push_device looks for.  d1 has no synced tree; the tree of d2
    differs from running. *)
Definition sync_entry (name mtu : string) : cxobj :=
  device_entry name [xml_leaf "devname" name] [xml_leaf "mtu" mtu].

Definition h_two_devices : clixon_handle :=
  {| h_netconf_framing := NETCONF_SSH_EOM;
     h_controller_device_timeout := 0;
     h_running := [sync_entry "d1" "1400"; sync_entry "d2" "1400"];
     h_candidate := [sync_entry "d1" "1400"; sync_entry "d2" "1400"];
     h_candidate_modified := false;
     h_yang_files := []; h_transactions := [] |}.

Definition dev_no_sync : device := dev_in_state "d1" CS_OPEN None.
Definition dev_with_diff : device :=
  dev_in_state "d2" CS_OPEN (Some synced_tree).




(** Two open devices a1 and b1, configured with devname leaves. *)
Definition h_glob : clixon_handle :=
  {| h_netconf_framing := NETCONF_SSH_EOM;
     h_controller_device_timeout := 0;
     h_running := [sync_entry "a1" "1500"; sync_entry "b1" "1500"];
     h_candidate := [sync_entry "a1" "1500"; sync_entry "b1" "1500"];
     h_candidate_modified := false;
     h_yang_files := []; h_transactions := [] |}.

Definition devs_glob : list device :=
  [dev_in_state "a1" CS_OPEN (Some synced_tree);
   dev_in_state "b1" CS_OPEN (Some synced_tree)].

(** The same device a1 configured by its key [name] only, as
    controller_connect and push_device read the configuration. *)
Definition h_by_name : clixon_handle :=
  {| h_netconf_framing := NETCONF_SSH_EOM;
     h_controller_device_timeout := 0;
     h_running := [device_entry "a1" [] [xml_leaf "mtu" "1500"]];
     h_candidate := [device_entry "a1" [] [xml_leaf "mtu" "1500"]];
     h_candidate_modified := false;
     h_yang_files := []; h_transactions := [] |}.

(** A closed device b1 with everything a reconnect reads. *)
Definition h_reconnect : clixon_handle :=
  {| h_netconf_framing := NETCONF_SSH_EOM;
     h_controller_device_timeout := 0;
     h_running := [device_entry "b1"
                     [xml_leaf "devname" "b1"; xml_leaf "enabled" "true";
                      xml_leaf "conn-type" "NETCONF_SSH";
                      xml_leaf "addr" "10.0.0.2"] []];
     h_candidate := [];
     h_candidate_modified := false;
     h_yang_files := []; h_transactions := [] |}.

(** Part of a frame arrives on the socket. *)
Definition partial_input (data : string) : netconf_input :=
  {| in_ret := 0; in_data := data; in_frame_state := 0; in_frame_size := 0;
     in_eom := false; in_eof := false; in_frame_ret := 0;
     in_frame_msg := None |}.

(** A device that got part of a hello and then ran into its timeout. *)
Definition dev_partial_hello : device :=
  snd (device_input_cb env_ok h0 110 (dev_connecting "d1") 5
                       (partial_input "<hello")).

Definition dev_timed_out : device :=
  snd (device_state_timeout (device_handle_timers_set dev_partial_hello [])).

(** d1 is configured but closed, d2 is configured but has no handle. *)
Definition devs_closed : list device := [device_handle_new "d1"].

(** d1 is configured but closed, d2 is configured and open. *)
Definition devs_closed_open : list device :=
  [device_handle_new "d1"; dev_in_state "d2" CS_OPEN None].

(** ** Further definitions *)

(** clicon_str2int: the value of the first entry with the name, nothing
    (the -1 of the library) when there is none. *)
Fixpoint clicon_str2int (m : list (string * conn_state)) (str : string)
  : option conn_state :=
  match m with
  | [] => None
  | (s, v) :: rest => if String.eqb s str then Some v else clicon_str2int rest str
  end.

Definition device_state_str2int (str : string) : option conn_state :=
  clicon_str2int csmap str.

(** A module for which device_send_get_schema_next sends no request: it
    is parsed already, or it is there as a local file. *)
Definition schema_is_local (E : clixon_env) (yspec : yang_stmt)
           (m : module_ref) : bool :=
  yang_find_module_by_name_revision yspec (m_name m) (m_revision m)
  || (env_yang_file_find_match E (m_name m) (m_revision m) =? 1).

(** Fields that no event of the state machine writes; the frame buffer
    is left alone or, by a close, emptied. *)
Definition keeps (dh dh1 : device) : Prop :=
  dh_name dh1 = dh_name dh
  /\ dh_sync_xml dh1 = dh_sync_xml dh
  /\ (dh_frame_buf dh1 = dh_frame_buf dh \/ dh_frame_buf dh1 = "").

(** The event loop calls device_input_cb once for each read. *)
Fixpoint device_input_seq (E : clixon_env) (h : clixon_handle) (now : Z)
         (dh : device) (s : Z) (inps : list netconf_input) : device :=
  match inps with
  | [] => dh
  | inp :: rest =>
      let '(_, h1, dh1) := device_input_cb E h now dh s inp in
      device_input_seq E h1 now dh1 s rest
  end.

(** A read that brings bytes but neither the end of a frame nor the end of
    the stream. *)
Definition input_is_partial (inp : netconf_input) : bool :=
  (0 <=? in_ret inp) && negb (in_eof inp) && negb (in_eom inp).

(** A schema entry of the RFC 6022 schema list. *)
Definition schema_entry (identifier version format location : string) : cxobj :=
  Cx "schema" None [] None
     [xml_leaf "identifier" identifier; xml_leaf "version" version;
      xml_leaf "format" format; xml_leaf "namespace" ("urn:" ++ identifier);
      xml_leaf "location" location].

(** What a request function makes of a handle: the message-id is used up;
    on success (return 0) the frame [f] went to the open socket [s], on
    failure (return -1) nothing was written. *)
Definition request_sent (dh : device) (s : Z) (f : frame) (r : Z)
           (dh1 : device) : Prop :=
  dh_msg_id dh1 = (dh_msg_id dh + 1) mod 2 ^ 64
  /\ ((r = 0 /\ dh_socket dh = Some s
       /\ dh_sent dh1 = (dh_sent dh ++ [f])%list)
      \/ (r = -1 /\ dh_sent dh1 = dh_sent dh)).

(** A yang library of three modules, of which the second is a local
    file. *)
Definition example_modules : list module_ref :=
  [mkModule "acme-if" "2024-01-01" "urn:acme-if";
   mkModule "ietf-inet-types" "2013-07-15" "urn:ietf-inet-types";
   mkModule "acme-sys" "2024-02-02" "urn:acme-sys"].

Definition env_one_local : clixon_env :=
  {| env_msg_send1 := fun _ _ => 0;
     env_connect := fun _ => 5;
     env_yang_schema_mount_dir := "/usr/local/share/clixon/mounts";
     env_yang_file_find_match :=
       fun name _ => if String.eqb name "ietf-inet-types" then 1 else 0;
     env_xml_chardata_decode := fun s => s;
     env_yang_file_write := fun _ _ => 0;
     env_yang_lib2yspec := fun _ _ => 1;
     env_mount_point_parse := fun _ => 0;
     env_yang_schema_mount_point := fun _ => 1;
     env_xml_bind_yang := fun _ _ => (1, None);
     env_xmldb_put := fun db name children =>
                        (1, device_entry name [] children :: db);
     env_candidate_commit := fun _ _ => 1;
     env_xml_diff := fun _ _ _ => (0, ([], [], [])) |}.

Definition dev_schema_one : device :=
  device_handle_yang_lib_set (dev_in_state "d1" CS_SCHEMA_ONE None)
                             (Some example_modules).

Definition hello_full : cxobj :=
  hello_msg [NETCONF_BASE_CAPABILITY_1_0; NETCONF_BASE_CAPABILITY_1_1;
             NETCONF_MONITORING_NAMESPACE].

Definition hello_no_base : cxobj := hello_msg [NETCONF_MONITORING_NAMESPACE].

Definition hello_no_monitoring : cxobj := hello_msg [NETCONF_BASE_CAPABILITY_1_0].

Definition capabilities_of (caps : list string) : cxobj :=
  Cx "capabilities" None [] None (map (xml_leaf "capability") caps).

(** The last read of a frame: the end of message is seen and the frame
    parses to [xmsg]. *)
Definition complete_input (data : string) (xmsg : cxobj) : netconf_input :=
  {| in_ret := 0; in_data := data; in_frame_state := 0; in_frame_size := 0;
     in_eom := true; in_eof := false; in_frame_ret := 1;
     in_frame_msg := Some xmsg |}.

(** The peer closes the stream. *)
Definition eof_input : netconf_input :=
  {| in_ret := 0; in_data := ""; in_frame_state := 0; in_frame_size := 0;
     in_eom := false; in_eof := true; in_frame_ret := 0;
     in_frame_msg := None |}.

(** An enabled device b1 that is open, and a reconnect entry for it. *)
Definition reconnect_entry (name conn_type : string) : cxobj :=
  device_entry name
    [xml_leaf "devname" name; xml_leaf "enabled" "true";
     xml_leaf "conn-type" conn_type; xml_leaf "addr" "10.0.0.2"] [].

(** A device that waits for its configuration, with an old log
      message. *)
Definition dev_syncing : device :=
  device_handle_logmsg_set (dev_in_state "d1" CS_DEVICE_SYNC None)
                           (Some "Timeout waiting for remote peer").

(** * Properties *)

(** ** Fields that sending, receiving and closing leave alone *)

Lemma same_conn_refl dh : same_conn dh dh.
Proof. unfold same_conn; repeat split. Qed.

Lemma same_conn_trans dh1 dh2 dh3 :
  same_conn dh1 dh2 -> same_conn dh2 dh3 -> same_conn dh1 dh3.
Proof.
  unfold same_conn; intros (a1 & a2 & a3 & a4 & a5 & a6 & a7 & a8)
                           (b1 & b2 & b3 & b4 & b5 & b6 & b7 & b8).
  repeat split; congruence.
Qed.

Lemma device_inv_same_conn dh dh1 :
  same_conn dh dh1 -> device_inv dh -> device_inv dh1.
Proof.
  unfold same_conn, device_inv.
  intros (_ & -> & -> & -> & -> & _). auto.
Qed.

Ltac same_conn_cbn := unfold same_conn; cbn; repeat split; try reflexivity.

Section SendLemmas.

Variable E : clixon_env.

Lemma clicon_msg_send1_same dh s f :
  same_conn dh (snd (clicon_msg_send1 E dh s f)).
Proof.
  unfold clicon_msg_send1.
  destruct (dh_socket dh) as [s1|]; [|apply same_conn_refl].
  destruct (s1 =? s); [|apply same_conn_refl].
  destruct (env_msg_send1 E s f <? 0); [apply same_conn_refl|same_conn_cbn].
Qed.

(** A successful write went to the open socket of the device. *)
Lemma clicon_msg_send1_ok dh s f :
  fst (clicon_msg_send1 E dh s f) = 0 -> dh_socket dh = Some s.
Proof.
  unfold clicon_msg_send1.
  destruct (dh_socket dh) as [s1|]; cbn; [|discriminate].
  destruct (Z.eqb_spec s1 s); cbn; [|discriminate]. congruence.
Qed.

Lemma clicon_msg_send1_ret dh s f :
  fst (clicon_msg_send1 E dh s f) = 0 \/ fst (clicon_msg_send1 E dh s f) = -1.
Proof.
  unfold clicon_msg_send1.
  destruct (dh_socket dh) as [s1|]; cbn; auto.
  destruct (s1 =? s); cbn; auto.
  destruct (env_msg_send1 E s f <? 0); cbn; auto.
Qed.

Lemma clicon_msg_send1_closed dh s f :
  dh_socket dh = None -> clicon_msg_send1 E dh s f = (-1, dh).
Proof. unfold clicon_msg_send1. intros ->. reflexivity. Qed.

Lemma device_send_sync_same h dh s :
  same_conn dh (snd (device_send_sync E h dh s)).
Proof.
  unfold device_send_sync, device_handle_msg_id_getinc.
  match goal with |- context [clicon_msg_send1 E ?d ?s ?f] =>
    pose proof (clicon_msg_send1_same d s f) as H;
    destruct (clicon_msg_send1 E d s f) as [r d1] end.
  cbn in H. destruct (r <? 0); cbn; eapply same_conn_trans; eauto; same_conn_cbn.
Qed.

Lemma device_send_sync_closed h dh s :
  dh_socket dh = None -> fst (device_send_sync E h dh s) = -1.
Proof.
  intros Hs. unfold device_send_sync, device_handle_msg_id_getinc.
  rewrite clicon_msg_send1_closed by (cbn; exact Hs). reflexivity.
Qed.

End SendLemmas.

(** ** Closing *)

Lemma device_close_connection_fields dh msg :
  let dh1 := snd (device_close_connection dh msg) in
  dh_conn_state dh1 = CS_CLOSED
  /\ dh_logmsg dh1 = msg
  /\ dh_socket dh1 = None
  /\ dh_timers dh1 = tl (dh_timers dh)
  /\ dh_fd_events dh1
     = clixon_event_unreg_fd (device_handle_socket_get dh) (dh_fd_events dh)
  /\ dh_frame_buf dh1 = ""
  /\ dh_sync_xml dh1 = dh_sync_xml dh
  /\ dh_name dh1 = dh_name dh.
Proof.
  unfold device_close_connection, device_state_timeout_unregister,
    clixon_event_unreg_timeout.
  destruct (dh_timers dh) as [|t rest] eqn:Ht; cbn; rewrite ?Ht; cbn;
    repeat split; try reflexivity; exact Ht.
Qed.

Lemma device_close_connection_ret dh msg :
  fst (device_close_connection dh msg) = 0.
Proof. reflexivity. Qed.

Lemma device_inv_is_weak dh : device_inv dh -> device_inv_weak dh.
Proof.
  unfold device_inv, device_inv_weak.
  destruct (dh_conn_state dh);
    intros H; try (destruct H as ((t & ->) & s & Hs & Hf); cbn; split; [lia|eauto]).
  - destruct H as (-> & Hf & Hs); cbn; split; [lia|auto].
  - destruct H as (-> & s & Hs & Hf); cbn; split; [lia|eauto].
Qed.

Lemma device_inv_weak_same_conn dh dh1 :
  same_conn dh dh1 -> device_inv_weak dh -> device_inv_weak dh1.
Proof.
  unfold same_conn, device_inv_weak.
  intros (_ & _ & -> & -> & -> & _). auto.
Qed.

Lemma device_close_connection_inv dh msg :
  device_inv_weak dh -> device_inv (snd (device_close_connection dh msg)).
Proof.
  intros (Ht & Hf).
  destruct (device_close_connection_fields dh msg)
    as (Hc & _ & Hs & Htm & Hfd & _).
  unfold device_inv. rewrite Hc, Hs, Htm, Hfd. repeat split.
  - destruct (dh_timers dh) as [|t [|t1 rest]]; cbn in *; try reflexivity; lia.
  - unfold device_handle_socket_get.
    destruct Hf as [(-> & ->)|(s & -> & ->)]; cbn; [reflexivity|].
    now rewrite Z.eqb_refl.
Qed.

Lemma closed_from_facts dh dh1 msg :
  closed_from dh dh1 msg ->
  dh_conn_state dh1 = CS_CLOSED /\ dh_logmsg dh1 = msg
  /\ dh_frame_buf dh1 = "" /\ dh_sync_xml dh1 = dh_sync_xml dh
  /\ dh_socket dh1 = None /\ dh_name dh1 = dh_name dh
  /\ (device_inv_weak dh -> device_inv dh1).
Proof.
  intros (dh0 & Hsame & ->).
  destruct (device_close_connection_fields dh0 msg)
    as (Hc & Hl & Hs & _ & _ & Hb & Hx & Hn).
  pose proof Hsame as (En & _ & _ & _ & _ & Eb & Ex & _).
  do 6 (split; [congruence|]).
  intros Hw. apply device_close_connection_inv.
  eapply device_inv_weak_same_conn; eauto.
Qed.

Lemma closed_from_close dh msg :
  closed_from dh (snd (device_close_connection dh msg)) msg.
Proof. exists dh. split; [apply same_conn_refl|reflexivity]. Qed.

Lemma closed_from_same dh dh0 dh1 msg :
  same_conn dh dh0 -> closed_from dh0 dh1 msg -> closed_from dh dh1 msg.
Proof.
  intros H (d & Hd & ->). exists d. split; [|reflexivity].
  eapply same_conn_trans; eauto.
Qed.

(** ** Timers *)

Lemma device_state_timeout_register_fields h now dh :
  let dh1 := snd (device_state_timeout_register h now dh) in
  fst (device_state_timeout_register h now dh) = 0
  /\ dh_timers dh1
     = clixon_event_reg_timeout (now + device_timeout_secs h) (dh_timers dh)
  /\ dh_conn_state dh1 = dh_conn_state dh
  /\ dh_fd_events dh1 = dh_fd_events dh
  /\ dh_socket dh1 = dh_socket dh
  /\ dh_frame_buf dh1 = dh_frame_buf dh
  /\ dh_sync_xml dh1 = dh_sync_xml dh.
Proof. cbn. repeat split. Qed.

(** With one timer pending, a restart cancels it and registers a fresh
    one. *)
Lemma device_state_timeout_restart_one h now dh t :
  dh_timers dh = [t] ->
  device_state_timeout_restart h now dh
  = (0, device_handle_timers_set dh [now + device_timeout_secs h]).
Proof.
  intros Ht. unfold device_state_timeout_restart,
    device_state_timeout_unregister, device_state_timeout_register.
  rewrite Ht. cbn. reflexivity.
Qed.

(** Without a pending timer, a restart registers nothing. *)
Lemma device_state_timeout_restart_none h now dh :
  dh_timers dh = [] -> device_state_timeout_restart h now dh = (-1, dh).
Proof.
  intros Ht. unfold device_state_timeout_restart,
    device_state_timeout_unregister. rewrite Ht. reflexivity.
Qed.

Lemma device_timeout_secs_default h :
  h_controller_device_timeout h = 0 -> device_timeout_secs h = 60.
Proof. unfold device_timeout_secs. intros ->. reflexivity. Qed.

Lemma device_timeout_secs_configured h :
  0 < h_controller_device_timeout h < 2 ^ 32 ->
  device_timeout_secs h = h_controller_device_timeout h.
Proof.
  intros H. unfold device_timeout_secs.
  rewrite Z.mod_small by lia.
  destruct (Z.eqb_spec (h_controller_device_timeout h) 0); [lia|reflexivity].
Qed.

Lemma device_timeout_secs_framing h v :
  device_timeout_secs (clicon_option_netconf_framing_set h v)
  = device_timeout_secs h.
Proof. reflexivity. Qed.

(** ** Receiving *)

Lemma device_close_connection_eq dh msg :
  device_close_connection dh msg = (0, snd (device_close_connection dh msg)).
Proof. reflexivity. Qed.

Ltac destr_close :=
  match goal with
  | |- context [device_close_connection ?d ?m] =>
      let dc := fresh "dc" in let Hc := fresh "Hc" in
      pose proof (closed_from_close d m) as Hc;
      rewrite (device_close_connection_eq d m);
      set (dc := snd (device_close_connection d m)) in *;
      clearbody dc;
      cbv beta iota; change (0 <? 0) with false; cbv beta iota
  end.

Section RecvLemmas.

Variable E : clixon_env.

Lemma device_send_get_schema_list_same h dh s :
  same_conn dh (snd (device_send_get_schema_list E h dh s)).
Proof.
  unfold device_send_get_schema_list, device_handle_msg_id_getinc.
  match goal with |- context [clicon_msg_send1 E ?d ?s ?f] =>
    pose proof (clicon_msg_send1_same E d s f) as H;
    destruct (clicon_msg_send1 E d s f) as [r d1] end.
  cbn in H. destruct (r <? 0); cbn; eapply same_conn_trans; eauto; same_conn_cbn.
Qed.

Lemma device_get_schema_sendit_same h dh s i v :
  same_conn dh (snd (device_get_schema_sendit E h dh s i v)).
Proof.
  unfold device_get_schema_sendit, device_handle_msg_id_getinc.
  match goal with |- context [clicon_msg_send1 E ?d ?s ?f] =>
    pose proof (clicon_msg_send1_same E d s f) as H;
    destruct (clicon_msg_send1 E d s f) as [r d1] end.
  cbn in H. destruct (r <? 0); cbn; eapply same_conn_trans; eauto; same_conn_cbn.
Qed.

Lemma device_send_get_schema_next_loop_same h yspec s vec :
  forall i nr dh,
    same_conn dh (snd (device_send_get_schema_next_loop E h yspec s vec i nr dh)).
Proof.
  induction vec as [|x rest IH]; intros i nr dh;
    cbn [device_send_get_schema_next_loop].
  - apply same_conn_refl.
  - destruct (i =? nr); cbn [negb]; [|apply IH].
    destruct (yang_find_module_by_name_revision _ _ _); [apply IH|].
    destruct (_ <? 0); [apply same_conn_refl|].
    destruct (_ =? 1); [apply IH|].
    pose proof (device_get_schema_sendit_same h dh s (m_name x) (m_revision x)) as H.
    destruct (device_get_schema_sendit E h dh s (m_name x) (m_revision x)) as [r d1].
    cbn [snd] in H. destruct (r <? 0); cbn [snd]; [exact H|].
    eapply same_conn_trans; [exact H|same_conn_cbn].
Qed.

Lemma device_send_get_schema_next_same h dh s nr :
  same_conn dh (snd (device_send_get_schema_next E h dh s nr)).
Proof.
  unfold device_send_get_schema_next.
  destruct (dh_yspec dh); [|apply same_conn_refl].
  apply device_send_get_schema_next_loop_same.
Qed.

(** Without a yang library nothing is requested. *)
Lemma device_send_get_schema_next_no_lib h dh s nr :
  dh_yang_lib dh = None ->
  device_send_get_schema_next E h dh s nr = (-1, nr, dh)
  \/ device_send_get_schema_next E h dh s nr = (0, nr, dh).
Proof.
  intros Hl. unfold device_send_get_schema_next. rewrite Hl.
  destruct (dh_yspec dh); cbn; auto.
Qed.

Lemma device_state_schemas_ready_same h dh :
  same_conn dh (snd (device_state_schemas_ready E h dh)).
Proof.
  unfold device_state_schemas_ready.
  destruct (dh_yspec dh); [|apply same_conn_refl].
  destruct (_ <? 0); [apply same_conn_refl|].
  destruct (_ =? 0); [apply same_conn_refl|].
  destruct (_ <? 0); [apply same_conn_refl|same_conn_cbn].
Qed.

Lemma device_state_recv_hello_outcome h dh s xmsg rpcname cs :
  let '(r, h1, dh1) := device_state_recv_hello E h dh s xmsg rpcname cs in
  recv_outcome dh r dh1
  /\ device_timeout_secs h1 = device_timeout_secs h.
Proof.
  unfold device_state_recv_hello, recv_outcome.
  destruct (negb (rpcname =? "hello")%string).
  { destr_close. split; [left; eauto|reflexivity]. }
  destruct (negb (namespace_is_base _)).
  { destr_close. split; [left; eauto|reflexivity]. }
  destruct (xml_find_type xmsg "capabilities") as [xcaps|].
  2:{ split; [right; split; [auto|apply same_conn_refl]|reflexivity]. }
  set (dh0 := device_handle_capabilities_set dh _).
  assert (Hs0 : same_conn dh dh0) by (subst dh0; same_conn_cbn).
  destruct (device_handle_capabilities_find dh0 NETCONF_BASE_CAPABILITY_1_1);
    [|destruct (device_handle_capabilities_find dh0 NETCONF_BASE_CAPABILITY_1_0)].
  3:{ destr_close. split; [left; split; [reflexivity|]|reflexivity].
      eexists. eapply closed_from_same; eauto. }
  all: unfold clixon_client_hello;
    pose proof (clicon_msg_send1_same E dh0 s (mkFrame NETCONF_SSH_EOM (OutHello 0))) as H;
    destruct (clicon_msg_send1 E dh0 s _) as [r d1]; cbn in H;
    destruct (r <? 0);
    (split; [right; split; [auto|exact H]|reflexivity]).
Qed.

Lemma device_state_recv_schema_list_outcome dh xmsg rpcname cs :
  let '(r, dh1) := device_state_recv_schema_list dh xmsg rpcname cs in
  (r = 0 /\ (exists msg, closed_from dh dh1 (Some msg)) /\ dh_yang_lib dh1 = None)
  \/ (r = 1 /\ same_conn dh dh1).
Proof.
  unfold device_state_recv_schema_list.
  destruct (negb (rpcname =? "rpc-reply")%string).
  { destr_close. left. repeat split; eauto.
    destruct Hc as (d0 & _ & ->). reflexivity. }
  destruct (negb (namespace_is_base _)).
  { destr_close. left. repeat split; eauto.
    destruct Hc as (d0 & _ & ->). reflexivity. }
  match goal with |- context [match ?x with Some _ => _ | None => _ end] =>
    destruct x as [xschemas|] end.
  - right. split; [reflexivity|same_conn_cbn].
  - destr_close. left. repeat split; eauto.
    destruct Hc as (d0 & _ & ->). reflexivity.
Qed.

Lemma device_state_recv_get_schema_outcome h dh xmsg rpcname cs :
  let '(r, h1, dh1) := device_state_recv_get_schema E h dh xmsg rpcname cs in
  recv_outcome dh r dh1
  /\ device_timeout_secs h1 = device_timeout_secs h.
Proof.
  unfold device_state_recv_get_schema, recv_outcome.
  destruct (negb (rpcname =? "rpc-reply")%string).
  { destr_close. split; [left; eauto|reflexivity]. }
  destruct (negb (namespace_is_base _)).
  { destr_close. split; [left; eauto|reflexivity]. }
  destruct (xml_find_body xmsg "data") as [ystr|].
  - destruct (_ <? 0); (split; [right; split; [auto|apply same_conn_refl]|reflexivity]).
  - destr_close. split; [left; eauto|reflexivity].
Qed.

Lemma device_state_recv_config_outcome h now dh xmsg rpcname cs :
  let '(r, h1, dh1) := device_state_recv_config E h now dh xmsg rpcname cs in
  recv_outcome dh r dh1
  /\ device_timeout_secs h1 = device_timeout_secs h.
Proof.
  unfold device_state_recv_config, recv_outcome.
  destruct (negb (rpcname =? "rpc-reply")%string).
  { destr_close. split; [left; eauto|reflexivity]. }
  destruct (negb (namespace_is_base _)).
  { destr_close. split; [left; eauto|reflexivity]. }
  destruct (device_state_mount_point_get E (dh_name dh) <? 0).
  { split; [right; split; [auto|apply same_conn_refl]|reflexivity]. }
  destruct (env_yang_schema_mount_point E (dh_name dh) <? 0).
  { split; [right; split; [auto|apply same_conn_refl]|reflexivity]. }
  destruct (env_yang_schema_mount_point E (dh_name dh) =? 0).
  { split; [right; split; [auto|apply same_conn_refl]|reflexivity]. }
  destruct (dh_yspec dh) as [yspec1|].
  2:{ destr_close. split; [left; eauto|reflexivity]. }
  destruct (env_xml_bind_yang E yspec1 _) as [ret errmsg].
  destruct (ret <? 0).
  { split; [right; split; [auto|apply same_conn_refl]|reflexivity]. }
  destruct (ret =? 0).
  { destr_close. split; [left; eauto|reflexivity]. }
  destruct (env_xmldb_put E _ _ _) as [ret1 db].
  destruct (ret1 <? 0).
  { split; [right; split; [auto|apply same_conn_refl]|reflexivity]. }
  match goal with |- context [if ?c <? 0 then _ else _] => set (ret2 := c) end.
  destruct (ret2 <? 0).
  { split; [right; split; [auto|apply same_conn_refl]|reflexivity]. }
  destruct (ret2 =? 0).
  { destr_close. split; [left; eauto|reflexivity]. }
  split; [right; split; [auto|same_conn_cbn]|reflexivity].
Qed.

(** ** The state machine keeps the event registrations in step *)

Lemma enter_with_restart h now dh st t :
  dh_timers dh = [t] ->
  device_state_timeout_restart h now (device_handle_conn_state_set dh st)
  = (0, device_handle_timers_set (device_handle_conn_state_set dh st)
          [now + device_timeout_secs h]).
Proof. intros Ht. erewrite device_state_timeout_restart_one; eauto. Qed.

Lemma device_inv_transient_timer dh :
  device_inv dh -> transient (dh_conn_state dh) = true ->
  exists t, dh_timers dh = [t].
Proof.
  unfold device_inv. destruct (dh_conn_state dh); cbn; try discriminate;
    intros (Ht & _) _; exact Ht.
Qed.

Lemma device_inv_open_socket dh :
  device_inv dh -> dh_conn_state dh <> CS_CLOSED ->
  exists s, dh_socket dh = Some s /\ dh_fd_events dh = [s].
Proof.
  unfold device_inv. destruct (dh_conn_state dh); try congruence;
    intros (_ & Hs) _; exact Hs.
Qed.

(** Entering a transient state from a state with one timer and an open
    socket. *)
Lemma device_inv_enter h now dh st t s :
  transient st = true ->
  dh_timers dh = [t] -> dh_socket dh = Some s -> dh_fd_events dh = [s] ->
  let dh1 := device_handle_timers_set (device_handle_conn_state_set dh st)
               [now + device_timeout_secs h] in
  device_inv dh1.
Proof.
  intros Hst Ht Hs Hf. unfold device_inv. cbn.
  destruct st; try discriminate; (split; [eauto|eauto]).
Qed.

(** After a device was closed, the rest of the schema exchange cannot
    bring it out of CLOSED: nothing is requested without a yang library,
    and a get-config on the closed socket fails. *)
Lemma schema_exchange_after_close h now dh s nr :
  dh_conn_state dh = CS_CLOSED -> dh_socket dh = None ->
  dh_yang_lib dh = None -> device_inv dh ->
  forall P : Z * clixon_handle * device -> Prop,
    (forall dh1, same_conn dh dh1 -> P (-1, h, dh1)) ->
    (forall dh1, closed_from dh dh1 (Some "YANG parse error") -> P (0, h, dh1)) ->
    P (let '(ret, nr, dh) := device_send_get_schema_next E h dh s nr in
       if ret <? 0 then (-1, h, dh)
       else if ret =? 0 then
         let '(ret, dh) := device_state_schemas_ready E h dh in
         if ret <? 0 then (-1, h, dh)
         else if ret =? 0 then
           let '(_, dh) := device_close_connection dh (Some "YANG parse error") in
           (0, h, dh)
         else
           let '(ret, dh) := device_send_sync E h dh s in
           if ret <? 0 then (-1, h, dh)
           else
             let dh := device_handle_conn_state_set dh CS_DEVICE_SYNC in
             let '(_, dh) := device_state_timeout_restart h now dh in
             (0, h, dh)
       else
         let dh := device_handle_nr_schemas_set dh nr in
         let dh := device_handle_conn_state_set dh CS_SCHEMA_ONE in
         let '(_, dh) := device_state_timeout_restart h now dh in
         (0, h, dh)).
Proof.
  intros Hc Hs Hl Hinv P Perr Pclose.
  destruct (device_send_get_schema_next_no_lib h dh s nr Hl) as [-> | ->];
    cbv beta iota.
  { change (-1 <? 0) with true. cbv iota. apply Perr, same_conn_refl. }
  change (0 <? 0) with false. change (0 =? 0) with true. cbv iota.
  pose proof (device_state_schemas_ready_same h dh) as Hsr.
  destruct (device_state_schemas_ready E h dh) as [ret dh1]. cbn [snd] in Hsr.
  destruct (ret <? 0); [apply Perr, Hsr|].
  destruct (ret =? 0).
  { destr_close. apply Pclose. eapply closed_from_same; eauto. }
  assert (Hs1 : dh_socket dh1 = None).
  { destruct Hsr as (_ & _ & _ & _ & -> & _). exact Hs. }
  pose proof (device_send_sync_closed E h dh1 s Hs1) as Hf.
  pose proof (device_send_sync_same E h dh1 s) as Hss.
  destruct (device_send_sync E h dh1 s) as [r dh2]. cbn [fst snd] in *.
  subst r. change (-1 <? 0) with true. cbv iota.
  apply Perr. eapply same_conn_trans; eauto.
Qed.

Lemma same_conn_loop dh dh1 : same_conn dh dh1 -> same_loop dh dh1.
Proof. unfold same_conn, same_loop. intuition. Qed.

Lemma device_inv_same_loop dh dh1 :
  same_loop dh dh1 -> device_inv dh -> device_inv dh1.
Proof.
  unfold same_loop, device_inv. intros (-> & -> & -> & ->). auto.
Qed.

Lemma step_outcome_inv h now dh dh1 :
  device_inv dh -> step_outcome h now dh dh1 ->
  device_inv dh1
  /\ (transient (dh_conn_state dh1) = true ->
      dh_conn_state dh1 <> dh_conn_state dh ->
      dh_timers dh1 = [now + device_timeout_secs h]).
Proof.
  intros Hinv [Hs | [(Hc & Hi) | [(Ht & Htm & Hi) | (Hc & Hi)]]].
  - split; [eapply device_inv_same_loop; eauto|].
    destruct Hs as (-> & _). congruence.
  - split; [exact Hi|]. rewrite Hc. discriminate.
  - split; [exact Hi|auto].
  - split; [exact Hi|]. rewrite Hc. discriminate.
Qed.

Lemma step_outcome_closed h now dh dh1 msg :
  device_inv dh -> closed_from dh dh1 msg -> step_outcome h now dh dh1.
Proof.
  intros Hinv Hc. right; left.
  destruct (closed_from_facts _ _ _ Hc) as (H1 & _ & _ & _ & _ & _ & H2).
  split; [exact H1|]. apply H2, device_inv_is_weak, Hinv.
Qed.

Lemma step_outcome_same h now dh dh1 :
  same_conn dh dh1 -> step_outcome h now dh dh1.
Proof. intros H. left. apply same_conn_loop, H. Qed.

(** Entering a transient state with a restart of the timer. *)
Lemma step_outcome_restart h h1 now dh d0 st :
  device_inv dh -> transient (dh_conn_state dh) = true ->
  same_conn dh d0 -> transient st = true ->
  device_timeout_secs h1 = device_timeout_secs h ->
  step_outcome h now dh
    (snd (device_state_timeout_restart h1 now (device_handle_conn_state_set d0 st))).
Proof.
  intros Hinv Htr Hsame Hst Hsecs.
  destruct (device_inv_transient_timer dh Hinv Htr) as (t & Ht).
  destruct (device_inv_open_socket dh Hinv) as (s & Hs & Hf).
  { intros Hc. rewrite Hc in Htr. discriminate. }
  destruct Hsame as (_ & _ & Et & Ef & Es & _).
  rewrite (@enter_with_restart h1 now d0 st t) by congruence.
  right; right; left. cbn [snd]. rewrite Hsecs.
  split; [exact Hst|]. split; [reflexivity|].
  eapply device_inv_enter with (t := t) (s := s); congruence.
Qed.

(** The same for a step within SCHEMA_ONE, which keeps the state. *)
Lemma step_outcome_restart_same h h1 now dh d0 :
  device_inv dh -> transient (dh_conn_state dh) = true ->
  same_conn dh d0 ->
  device_timeout_secs h1 = device_timeout_secs h ->
  step_outcome h now dh (snd (device_state_timeout_restart h1 now d0)).
Proof.
  intros Hinv Htr Hsame Hsecs.
  destruct (device_inv_transient_timer dh Hinv Htr) as (t & Ht).
  destruct (device_inv_open_socket dh Hinv) as (s & Hs & Hf).
  { intros Hc. rewrite Hc in Htr. discriminate. }
  pose proof Hsame as (_ & Ec & Et & Ef & Es & _).
  rewrite (@device_state_timeout_restart_one h1 now d0 t) by congruence.
  right; right; left. cbn [snd]. rewrite Hsecs.
  cbn. rewrite Ec. split; [exact Htr|]. split; [reflexivity|].
  unfold device_inv. cbn. rewrite Ec, Ef, Es.
  destruct (dh_conn_state dh); try discriminate; split; eauto.
Qed.

(** All schemas are there: parse them and request the configuration. *)
Lemma schemas_ready_sync_outcome h h1 now dh d0 s :
  device_inv dh -> transient (dh_conn_state dh) = true ->
  same_conn dh d0 ->
  device_timeout_secs h1 = device_timeout_secs h ->
  step_outcome h now dh
    (snd (let '(ret, dh) := device_state_schemas_ready E h1 d0 in
          if ret <? 0 then (-1, h1, dh)
          else if ret =? 0 then
            let '(_, dh) := device_close_connection dh (Some "YANG parse error") in
            (0, h1, dh)
          else
            let '(ret, dh) := device_send_sync E h1 dh s in
            if ret <? 0 then (-1, h1, dh)
            else
              let dh := device_handle_conn_state_set dh CS_DEVICE_SYNC in
              let '(_, dh) := device_state_timeout_restart h1 now dh in
              (0, h1, dh))).
Proof.
  intros Hinv Htr Hsame Hsecs.
  pose proof (device_state_schemas_ready_same h1 d0) as Hsr.
  destruct (device_state_schemas_ready E h1 d0) as [ret d1]. cbn [snd] in Hsr.
  assert (H1 : same_conn dh d1) by (eapply same_conn_trans; eauto).
  destruct (ret <? 0); [apply step_outcome_same, H1|].
  destruct (ret =? 0).
  { destr_close. cbn [snd]. eapply step_outcome_closed; eauto.
    eapply closed_from_same; eauto. }
  pose proof (device_send_sync_same E h1 d1 s) as Hss.
  destruct (device_send_sync E h1 d1 s) as [r d2]. cbn [snd] in Hss.
  assert (H2 : same_conn dh d2) by (eapply same_conn_trans; eauto).
  destruct (r <? 0); [apply step_outcome_same, H2|].
  pose proof (@step_outcome_restart h h1 now dh d2 CS_DEVICE_SYNC
                Hinv Htr H2 eq_refl Hsecs) as HR.
  cbv zeta. destruct (device_state_timeout_restart h1 now _) as [r3 d3]. exact HR.
Qed.

Lemma device_state_handler_outcome h now dh s xmsg :
  device_inv dh ->
  step_outcome h now dh (snd (device_state_handler E h now dh s xmsg)).
Proof.
  intros Hinv. unfold device_state_handler.
  destruct (dh_conn_state dh) eqn:Hcs;
    try (destr_close; cbn [snd]; eapply step_outcome_closed; eauto).
  - (* CS_CONNECTING *)
    assert (Htr : transient (dh_conn_state dh) = true) by (rewrite Hcs; reflexivity).
    pose proof (device_state_recv_hello_outcome h dh s xmsg (xml_name xmsg)
                  CS_CONNECTING) as Ho.
    destruct (device_state_recv_hello E h dh s xmsg (xml_name xmsg) CS_CONNECTING)
      as [[r h1] d1].
    destruct Ho as ([(-> & msg & Hc) | ([-> | ->] & Hsame)] & Hsecs);
      cbn [snd].
    + eapply step_outcome_closed; eauto.
    + change (1 <? 0) with false. change (1 =? 0) with false. cbv iota.
      set (d2 := device_handle_yspec_set d1 (Some yspec_new)).
      assert (H2 : same_conn dh d2).
      { eapply same_conn_trans; [exact Hsame|subst d2; same_conn_cbn]. }
      destruct (negb (device_handle_capabilities_find d2 NETCONF_MONITORING_NAMESPACE)).
      { destr_close. cbn [snd]. eapply step_outcome_closed; eauto.
        eapply closed_from_same; eauto. }
      pose proof (device_send_get_schema_list_same h1 d2 s) as Hl.
      destruct (device_send_get_schema_list E h1 d2 s) as [r d3]. cbn [snd] in Hl.
      assert (H3 : same_conn dh d3) by (eapply same_conn_trans; eauto).
      destruct (r <? 0); [apply step_outcome_same, H3|].
      pose proof (@step_outcome_restart h h1 now dh d3 CS_SCHEMA_LIST
                    Hinv Htr H3 eq_refl Hsecs) as HR.
      cbv zeta. destruct (device_state_timeout_restart h1 now _) as [r4 d4]. exact HR.
    + apply step_outcome_same, Hsame.
  - (* CS_SCHEMA_LIST *)
    assert (Htr : transient (dh_conn_state dh) = true) by (rewrite Hcs; reflexivity).
    pose proof (device_state_recv_schema_list_outcome dh xmsg (xml_name xmsg)
                  CS_SCHEMA_LIST) as Ho.
    destruct (device_state_recv_schema_list dh xmsg (xml_name xmsg) CS_SCHEMA_LIST)
      as [r d1].
    destruct Ho as [(-> & (msg & Hc) & Hlib) | (-> & Hsame)].
    + (* closed, and the exchange goes on *)
      change (0 <? 0) with false. cbv iota.
      destruct (closed_from_facts _ _ _ Hc) as (Hc1 & _ & _ & _ & Hs1 & _ & Hi1).
      specialize (Hi1 (device_inv_is_weak dh Hinv)).
      apply (@schema_exchange_after_close h now d1 s 0 Hc1 Hs1 Hlib Hi1
               (fun res => step_outcome h now dh (snd res))).
      * intros d2 H2. cbn [snd]. right; left.
        destruct H2 as (_ & Ec & Et & Ef & Es & _).
        split; [congruence|].
        eapply device_inv_same_loop; [|exact Hi1]. repeat split; assumption.
      * intros d2 H2. cbn [snd]. right; left.
        destruct (closed_from_facts _ _ _ H2) as (Hc2 & _ & _ & _ & _ & _ & Hi2).
        split; [exact Hc2|]. apply Hi2, device_inv_is_weak, Hi1.
    + change (1 <? 0) with false. cbv iota.
      pose proof (device_send_get_schema_next_same h d1 s 0) as Hn.
      destruct (device_send_get_schema_next E h d1 s 0) as [[r nr] d2].
      cbn [snd] in Hn.
      assert (H2 : same_conn dh d2) by (eapply same_conn_trans; eauto).
      destruct (r <? 0); [apply step_outcome_same, H2|].
      destruct (r =? 0).
      { apply schemas_ready_sync_outcome; auto. }
      set (d3 := device_handle_nr_schemas_set d2 nr).
      assert (H3 : same_conn dh d3).
      { eapply same_conn_trans; [exact H2|subst d3; same_conn_cbn]. }
      pose proof (@step_outcome_restart h h now dh d3 CS_SCHEMA_ONE
                    Hinv Htr H3 eq_refl eq_refl) as HR.
      cbv zeta. destruct (device_state_timeout_restart h now _) as [r4 d4]. exact HR.
  - (* CS_SCHEMA_ONE *)
    assert (Htr : transient (dh_conn_state dh) = true) by (rewrite Hcs; reflexivity).
    pose proof (device_state_recv_get_schema_outcome h dh xmsg (xml_name xmsg)
                  CS_SCHEMA_ONE) as Ho.
    destruct (device_state_recv_get_schema E h dh xmsg (xml_name xmsg) CS_SCHEMA_ONE)
      as [[r h1] d1].
    destruct Ho as ([(-> & msg & Hc) | ([-> | ->] & Hsame)] & Hsecs);
      cbn [snd].
    + eapply step_outcome_closed; eauto.
    + change (1 <? 0) with false. change (1 =? 0) with false. cbv iota.
      pose proof (device_send_get_schema_next_same h1 d1 s (dh_nr_schemas d1)) as Hn.
      destruct (device_send_get_schema_next E h1 d1 s (dh_nr_schemas d1))
        as [[r nr] d2].
      cbn [snd] in Hn.
      assert (H2 : same_conn dh d2) by (eapply same_conn_trans; eauto).
      destruct (r <? 0); [apply step_outcome_same, H2|].
      destruct (r =? 0).
      { apply schemas_ready_sync_outcome; auto. }
      set (d3 := device_handle_nr_schemas_set d2 nr).
      assert (H3 : same_conn dh d3).
      { eapply same_conn_trans; [exact H2|subst d3; same_conn_cbn]. }
      pose proof (@step_outcome_restart_same h h1 now dh d3
                    Hinv Htr H3 Hsecs) as HR.
      cbv zeta. destruct (device_state_timeout_restart h1 now _) as [r4 d4]. exact HR.
    + apply step_outcome_same, Hsame.
  - (* CS_DEVICE_SYNC *)
    assert (Htr : transient (dh_conn_state dh) = true) by (rewrite Hcs; reflexivity).
    pose proof (device_state_recv_config_outcome h now dh xmsg (xml_name xmsg)
                  CS_DEVICE_SYNC) as Ho.
    destruct (device_state_recv_config E h now dh xmsg (xml_name xmsg) CS_DEVICE_SYNC)
      as [[r h1] d1].
    destruct Ho as ([(-> & msg & Hc) | ([-> | ->] & Hsame)] & Hsecs);
      cbn [snd].
    + eapply step_outcome_closed; eauto.
    + change (1 <? 0) with false. change (1 =? 0) with false. cbv iota.
      destruct (device_inv_transient_timer dh Hinv Htr) as (t & Ht).
      destruct (device_inv_open_socket dh Hinv) as (s1 & Hs & Hf).
      { rewrite Hcs. discriminate. }
      destruct Hsame as (_ & _ & Et & Ef & Es & _).
      unfold device_state_timeout_unregister. cbn. rewrite Et, Ht. cbn.
      right; right; right. split; [reflexivity|].
      unfold device_inv. cbn. rewrite Ef, Es, Hf, Hs. eauto.
    + apply step_outcome_same, Hsame.
Qed.

Lemma same_loop_trans dh1 dh2 dh3 :
  same_loop dh1 dh2 -> same_loop dh2 dh3 -> same_loop dh1 dh3.
Proof.
  unfold same_loop. intros (a1 & a2 & a3 & a4) (b1 & b2 & b3 & b4).
  repeat split; congruence.
Qed.

Lemma step_outcome_from h now dh d0 dh1 :
  same_loop dh d0 -> step_outcome h now d0 dh1 -> step_outcome h now dh dh1.
Proof.
  intros Hs [H | H]; [left; eapply same_loop_trans; eauto|right; exact H].
Qed.

Lemma device_input_cb_outcome h now dh s inp :
  device_inv dh ->
  step_outcome h now dh (snd (device_input_cb E h now dh s inp)).
Proof.
  intros Hinv. unfold device_input_cb.
  set (d0 := device_handle_frame_buf_set dh _).
  assert (Hl0 : same_loop dh d0) by (subst d0; unfold same_loop; cbn; auto).
  assert (Hi0 : device_inv d0) by (eapply device_inv_same_loop; eauto).
  apply (step_outcome_from _ _ _ _ _ Hl0).
  destruct (in_ret inp <? 0); [left; cbn; unfold same_loop; auto|].
  destruct (in_eof inp).
  { destr_close. cbn [snd]. eapply step_outcome_closed; eauto. }
  set (d1 := device_handle_frame_size_set _ _).
  assert (Hl1 : same_loop d0 d1) by (subst d1; unfold same_loop; cbn; auto).
  destruct (negb (in_eom inp)); [left; exact Hl1|].
  destruct (in_frame_ret inp <? 0); [left; exact Hl1|].
  set (d2 := device_handle_frame_buf_set d1 "").
  assert (Hl2 : same_loop d0 d2) by (subst d2 d1; unfold same_loop; cbn; auto).
  assert (Hi2 : device_inv d2) by (eapply device_inv_same_loop; eauto).
  apply (step_outcome_from _ _ _ _ _ Hl2).
  destruct (in_frame_ret inp =? 0).
  { destr_close. cbn [snd]. eapply step_outcome_closed; eauto. }
  destruct (in_frame_msg inp) as [xmsg|]; [|left; cbn; unfold same_loop; auto].
  pose proof (@device_state_handler_outcome h now d2 s xmsg Hi2) as Ho.
  destruct (device_state_handler E h now d2 s xmsg) as [[r h1] d3].
  cbn [snd] in Ho. destruct (r <? 0); exact Ho.
Qed.

Lemma connect_netconf_ssh_outcome h now dh user addr :
  device_inv dh ->
  step_outcome h now dh (snd (connect_netconf_ssh E h now dh user addr)).
Proof.
  intros Hinv. unfold connect_netconf_ssh.
  destruct addr as [addr|]; [|left; cbn; unfold same_loop; auto].
  destruct (dh_conn_state dh) eqn:Hcs; cbn [conn_state_eqb negb];
    try (left; cbn; unfold same_loop; now auto).
  destruct (_ <? 0); [left; cbn; unfold same_loop; now auto|].
  unfold device_inv in Hinv. rewrite Hcs in Hinv. destruct Hinv as (Ht & Hf & Hs).
  right; right; left. cbn. rewrite Ht, Hf. cbn.
  split; [reflexivity|]. split; [reflexivity|].
  unfold device_inv. cbn. rewrite ?Ht, ?Hf. cbn. split; eauto.
Qed.

Lemma pull_device_outcome h now dh cbret :
  device_inv dh -> dh_conn_state dh = CS_OPEN ->
  step_outcome h now dh (snd (fst (pull_device E h now dh cbret))).
Proof.
  intros Hinv Hcs. unfold pull_device.
  pose proof (device_send_sync_same E h dh (device_handle_socket_get dh)) as Hs.
  destruct (device_send_sync E h dh (device_handle_socket_get dh)) as [r d1].
  cbn [snd] in Hs. destruct (r <? 0); [left; apply same_conn_loop, Hs|].
  unfold device_inv in Hinv. rewrite Hcs in Hinv.
  destruct Hinv as (Ht & s & Hso & Hf).
  destruct Hs as (_ & _ & Et & Ef & Es & _).
  right; right; left. cbn. rewrite Et, Ht. cbn.
  split; [reflexivity|]. split; [reflexivity|].
  unfold device_inv. cbn. rewrite ?Et, ?Ht, ?Ef, ?Es. cbn. split; eauto.
Qed.

Lemma device_send_edit_config_diff_same h dh d a c :
  same_conn dh (snd (device_send_edit_config_diff E h dh d a c)).
Proof.
  unfold device_send_edit_config_diff, device_handle_msg_id_getinc.
  match goal with |- context [clicon_msg_send1 E ?d ?s ?f] =>
    pose proof (clicon_msg_send1_same E d s f) as H;
    destruct (clicon_msg_send1 E d s f) as [r d1] end.
  cbn in H. destruct (r <? 0); cbn; eapply same_conn_trans; eauto; same_conn_cbn.
Qed.

Lemma push_device_outcome h now dh cbret :
  device_inv dh -> dh_conn_state dh = CS_OPEN ->
  step_outcome h now dh (snd (fst (push_device E h now dh cbret))).
Proof.
  intros Hinv Hcs. unfold push_device.
  destruct (dh_sync_xml dh); [|left; cbn; unfold same_loop; now auto].
  destruct (running_device_root h (dh_name dh)); [|left; cbn; unfold same_loop; now auto].
  destruct (dh_yspec dh); [|left; cbn; unfold same_loop; now auto].
  destruct (env_xml_diff E _ _ _) as [r [[dvec avec] chvec]].
  destruct (r <? 0); [left; cbn; unfold same_loop; now auto|].
  destruct (_ || _); [|left; cbn; unfold same_loop; now auto].
  pose proof (device_send_edit_config_diff_same h dh dvec avec chvec) as Hs.
  destruct (device_send_edit_config_diff E h dh dvec avec chvec) as [r1 d1].
  cbn [snd] in Hs. destruct (r1 <? 0); [left; apply same_conn_loop, Hs|].
  unfold device_inv in Hinv. rewrite Hcs in Hinv.
  destruct Hinv as (Ht & s & Hso & Hf).
  destruct Hs as (_ & _ & Et & Ef & Es & _).
  right; right; left. cbn. rewrite Et, Ht. cbn.
  split; [reflexivity|]. split; [reflexivity|].
  unfold device_inv. cbn. rewrite ?Et, ?Ht, ?Ef, ?Es. cbn. split; eauto.
Qed.

Lemma device_state_timeout_outcome h now dh t rest :
  device_inv dh -> dh_timers dh = t :: rest ->
  let dh1 := snd (device_state_timeout (device_handle_timers_set dh rest)) in
  step_outcome h now dh dh1
  /\ dh_conn_state dh1 = CS_CLOSED
  /\ dh_logmsg dh1 = Some "Timeout waiting for remote peer"
  /\ dh_timers dh1 = [] /\ dh_fd_events dh1 = []
  /\ dh_frame_buf dh1 = "".
Proof.
  intros Hinv Ht.
  pose proof (device_inv_is_weak dh Hinv) as (Hlen & Hfd).
  rewrite Ht in Hlen. destruct rest; [|cbn in Hlen; lia].
  assert (Hw : device_inv_weak (device_handle_timers_set dh [])).
  { split; [cbn; lia|exact Hfd]. }
  pose proof (device_close_connection_inv _
                (Some "Timeout waiting for remote peer") Hw) as Hi.
  cbn zeta. unfold device_state_timeout.
  rewrite (device_close_connection_eq (device_handle_timers_set dh []) _) at 1 2 3 4 5 6.
  cbv beta iota. cbn [snd].
  destruct (device_close_connection_fields (device_handle_timers_set dh [])
              (Some "Timeout waiting for remote peer"))
    as (Hc & Hl & Hs & Htm & Hfe & Hb & _).
  repeat split; try assumption.
  - right; left. split; assumption.
  - unfold device_inv in Hi. rewrite Hc in Hi. apply Hi.
Qed.

Theorem device_step_outcome h now ev dh dh1 :
  device_inv dh -> device_step E h now ev dh = Some dh1 ->
  step_outcome h now dh dh1.
Proof.
  intros Hinv Hstep. destruct ev as [yf user addr|s inp| |cbret|cbret];
    cbn [device_step] in Hstep.
  - injection Hstep as <-.
    set (d0 := match yf with Some y => _ | None => dh end).
    assert (Hl : same_loop dh d0).
    { subst d0. destruct yf; unfold same_loop; cbn; auto. }
    apply (step_outcome_from _ _ _ _ _ Hl). apply connect_netconf_ssh_outcome.
    eapply device_inv_same_loop; eauto.
  - destruct (existsb _ _); [|discriminate]. injection Hstep as <-.
    apply device_input_cb_outcome, Hinv.
  - destruct (dh_timers dh) as [|t rest] eqn:Ht; [discriminate|].
    destruct (t <=? now); [|discriminate]. injection Hstep as <-.
    eapply device_state_timeout_outcome; eauto.
  - destruct (dh_conn_state dh) eqn:Hcs; try discriminate.
    injection Hstep as <-. apply pull_device_outcome; auto.
  - destruct (dh_conn_state dh) eqn:Hcs; try discriminate.
    injection Hstep as <-. apply push_device_outcome; auto.
Qed.

(** Every state a handle can be in has its event registrations in
    step with the connection state. *)
Theorem reachable_device_inv dh : reachable E dh -> device_inv dh.
Proof.
  induction 1 as [name|name|h now ev dh dh1 Hr IH Hstep].
  - unfold device_inv; cbn; auto.
  - unfold device_inv; cbn; auto.
  - eapply step_outcome_inv; [exact IH|].
    eapply device_step_outcome; eauto.
Qed.

(** ** A handled message restarts the timer *)

Ltac entry_closed :=
  destr_close; right; split; [reflexivity|left];
  match goal with
  | H : closed_from _ ?d _ |- dh_conn_state (snd (_, _, ?d)) = _ =>
      apply (closed_from_facts _ _ _ H)
  end.

Lemma entry_with_restart h h1 h2 now dh d0 d1 st :
  device_inv dh -> transient (dh_conn_state dh) = true ->
  same_conn dh d0 ->
  (d1 = device_handle_conn_state_set d0 st \/ d1 = d0) ->
  device_timeout_secs h1 = device_timeout_secs h ->
  entry_outcome h now
    (let '(_, d) := device_state_timeout_restart h1 now d1 in (0, h2, d)).
Proof.
  intros Hinv Htr Hsame Hd Hsecs.
  destruct (device_inv_transient_timer dh Hinv Htr) as (t & Ht).
  destruct Hsame as (_ & _ & Et & _).
  assert (Ht1 : dh_timers d1 = [t]) by (destruct Hd; subst d1; cbn; congruence).
  rewrite (device_state_timeout_restart_one h1 now d1 t Ht1).
  right. split; [reflexivity|]. right; right. cbn. rewrite Hsecs. reflexivity.
Qed.

Lemma schemas_ready_sync_entry h h1 now dh d0 s :
  device_inv dh -> transient (dh_conn_state dh) = true ->
  same_conn dh d0 ->
  device_timeout_secs h1 = device_timeout_secs h ->
  entry_outcome h now
    (let '(ret, dh) := device_state_schemas_ready E h1 d0 in
     if ret <? 0 then (-1, h1, dh)
     else if ret =? 0 then
       let '(_, dh) := device_close_connection dh (Some "YANG parse error") in
       (0, h1, dh)
     else
       let '(ret, dh) := device_send_sync E h1 dh s in
       if ret <? 0 then (-1, h1, dh)
       else
         let dh := device_handle_conn_state_set dh CS_DEVICE_SYNC in
         let '(_, dh) := device_state_timeout_restart h1 now dh in
         (0, h1, dh)).
Proof.
  intros Hinv Htr Hsame Hsecs.
  pose proof (device_state_schemas_ready_same h1 d0) as Hsr.
  destruct (device_state_schemas_ready E h1 d0) as [ret d1]. cbn [snd] in Hsr.
  assert (H1 : same_conn dh d1) by (eapply same_conn_trans; eauto).
  destruct (ret <? 0); [left; reflexivity|].
  destruct (ret =? 0); [entry_closed|].
  pose proof (device_send_sync_same E h1 d1 s) as Hss.
  destruct (device_send_sync E h1 d1 s) as [r d2]. cbn [snd] in Hss.
  assert (H2 : same_conn dh d2) by (eapply same_conn_trans; eauto).
  destruct (r <? 0); [left; reflexivity|]. cbv zeta.
  apply (@entry_with_restart h h1 h1 now dh d2 _ CS_DEVICE_SYNC
           Hinv Htr H2 (or_introl eq_refl) Hsecs).
Qed.

(** The handler returns -1, or 0 with the device CLOSED, OPEN, or in a
    transient state whose timer was restarted: also when the state is the
    one the device was in. *)
Lemma device_state_handler_entry h now dh s xmsg :
  device_inv dh ->
  entry_outcome h now (device_state_handler E h now dh s xmsg).
Proof.
  intros Hinv. unfold device_state_handler.
  destruct (dh_conn_state dh) eqn:Hcs; try entry_closed.
  - (* CS_CONNECTING *)
    assert (Htr : transient (dh_conn_state dh) = true) by (rewrite Hcs; reflexivity).
    pose proof (device_state_recv_hello_outcome h dh s xmsg (xml_name xmsg)
                  CS_CONNECTING) as Ho.
    destruct (device_state_recv_hello E h dh s xmsg (xml_name xmsg) CS_CONNECTING)
      as [[r h1] d1].
    destruct Ho as ([(-> & msg & Hc) | ([-> | ->] & Hsame)] & Hsecs).
    + right. split; [reflexivity|left]. apply (closed_from_facts _ _ _ Hc).
    + change (1 <? 0) with false. change (1 =? 0) with false. cbv iota.
      set (d2 := device_handle_yspec_set d1 (Some yspec_new)).
      assert (H2 : same_conn dh d2).
      { eapply same_conn_trans; [exact Hsame|subst d2; same_conn_cbn]. }
      destruct (negb (device_handle_capabilities_find d2 NETCONF_MONITORING_NAMESPACE));
        [entry_closed|].
      pose proof (device_send_get_schema_list_same h1 d2 s) as Hl.
      destruct (device_send_get_schema_list E h1 d2 s) as [r d3]. cbn [snd] in Hl.
      assert (H3 : same_conn dh d3) by (eapply same_conn_trans; eauto).
      destruct (r <? 0); [left; reflexivity|]. cbv zeta.
      apply (@entry_with_restart h h1 h1 now dh d3 _ CS_SCHEMA_LIST
               Hinv Htr H3 (or_introl eq_refl) Hsecs).
    + left. reflexivity.
  - (* CS_SCHEMA_LIST *)
    assert (Htr : transient (dh_conn_state dh) = true) by (rewrite Hcs; reflexivity).
    pose proof (device_state_recv_schema_list_outcome dh xmsg (xml_name xmsg)
                  CS_SCHEMA_LIST) as Ho.
    destruct (device_state_recv_schema_list dh xmsg (xml_name xmsg) CS_SCHEMA_LIST)
      as [r d1].
    destruct Ho as [(-> & (msg & Hc) & Hlib) | (-> & Hsame)].
    + (* closed, and the exchange goes on *)
      change (0 <? 0) with false. cbv iota.
      destruct (closed_from_facts _ _ _ Hc) as (Hc1 & _ & _ & _ & Hs1 & _ & Hi1).
      specialize (Hi1 (device_inv_is_weak dh Hinv)).
      apply (@schema_exchange_after_close h now d1 s 0 Hc1 Hs1 Hlib Hi1
               (entry_outcome h now)).
      * intros d2 _. left. reflexivity.
      * intros d2 H2. right. split; [reflexivity|left].
        apply (closed_from_facts _ _ _ H2).
    + change (1 <? 0) with false. cbv iota.
      pose proof (device_send_get_schema_next_same h d1 s 0) as Hn.
      destruct (device_send_get_schema_next E h d1 s 0) as [[r nr] d2].
      cbn [snd] in Hn.
      assert (H2 : same_conn dh d2) by (eapply same_conn_trans; eauto).
      destruct (r <? 0); [left; reflexivity|].
      destruct (r =? 0); [apply (@schemas_ready_sync_entry h h now dh d2 s); auto|].
      set (d3 := device_handle_nr_schemas_set d2 nr).
      assert (H3 : same_conn dh d3).
      { eapply same_conn_trans; [exact H2|subst d3; same_conn_cbn]. }
      cbv zeta. apply (@entry_with_restart h h h now dh d3 _ CS_SCHEMA_ONE
               Hinv Htr H3 (or_introl eq_refl) eq_refl).
  - (* CS_SCHEMA_ONE *)
    assert (Htr : transient (dh_conn_state dh) = true) by (rewrite Hcs; reflexivity).
    pose proof (device_state_recv_get_schema_outcome h dh xmsg (xml_name xmsg)
                  CS_SCHEMA_ONE) as Ho.
    destruct (device_state_recv_get_schema E h dh xmsg (xml_name xmsg) CS_SCHEMA_ONE)
      as [[r h1] d1].
    destruct Ho as ([(-> & msg & Hc) | ([-> | ->] & Hsame)] & Hsecs).
    + right. split; [reflexivity|left]. apply (closed_from_facts _ _ _ Hc).
    + change (1 <? 0) with false. change (1 =? 0) with false. cbv iota.
      pose proof (device_send_get_schema_next_same h1 d1 s (dh_nr_schemas d1)) as Hn.
      destruct (device_send_get_schema_next E h1 d1 s (dh_nr_schemas d1))
        as [[r nr] d2].
      cbn [snd] in Hn.
      assert (H2 : same_conn dh d2) by (eapply same_conn_trans; eauto).
      destruct (r <? 0); [left; reflexivity|].
      destruct (r =? 0); [apply (@schemas_ready_sync_entry h h1 now dh d2 s); auto|].
      set (d3 := device_handle_nr_schemas_set d2 nr).
      assert (H3 : same_conn dh d3).
      { eapply same_conn_trans; [exact H2|subst d3; same_conn_cbn]. }
      cbv zeta. apply (@entry_with_restart h h1 h1 now dh d3 d3 CS_SCHEMA_ONE
               Hinv Htr H3 (or_intror eq_refl) Hsecs).
    + left. reflexivity.
  - (* CS_DEVICE_SYNC *)
    pose proof (device_state_recv_config_outcome h now dh xmsg (xml_name xmsg)
                  CS_DEVICE_SYNC) as Ho.
    destruct (device_state_recv_config E h now dh xmsg (xml_name xmsg) CS_DEVICE_SYNC)
      as [[r h1] d1].
    destruct Ho as ([(-> & msg & Hc) | ([-> | ->] & Hsame)] & Hsecs).
    + right. split; [reflexivity|left]. apply (closed_from_facts _ _ _ Hc).
    + change (1 <? 0) with false. change (1 =? 0) with false. cbv iota.
      unfold device_state_timeout_unregister, clixon_event_unreg_timeout.
      right. split; [destruct (dh_timers _); reflexivity|].
      right; left. cbn. destruct (dh_timers d1); reflexivity.
    + left. reflexivity.
Qed.

(** The same for device_input_cb: a read that is not the last of a
    message leaves the registrations alone. *)
Lemma device_input_cb_entry h now dh s inp :
  device_inv dh ->
  entry_outcome h now (device_input_cb E h now dh s inp)
  \/ ((in_eom inp = false \/ in_frame_msg inp = None)
      /\ same_loop dh (snd (device_input_cb E h now dh s inp))).
Proof.
  intros Hinv. unfold device_input_cb.
  set (d0 := device_handle_frame_buf_set dh _).
  destruct (in_ret inp <? 0); [left; left; reflexivity|].
  destruct (in_eof inp); [left; entry_closed|].
  destruct (in_eom inp); cbn [negb].
  2:{ right. split; [auto|]. cbn. unfold same_loop. auto. }
  destruct (in_frame_ret inp <? 0); [left; left; reflexivity|].
  set (d2 := device_handle_frame_buf_set _ "").
  assert (Hl2 : same_loop dh d2) by (subst d2 d0; unfold same_loop; cbn; auto).
  assert (Hi2 : device_inv d2) by (eapply device_inv_same_loop; eauto).
  destruct (in_frame_ret inp =? 0); [left; entry_closed|].
  destruct (in_frame_msg inp) as [xmsg|].
  2:{ right. split; [auto|exact Hl2]. }
  left. pose proof (@device_state_handler_entry h now d2 s xmsg Hi2) as Ho.
  destruct (device_state_handler E h now d2 s xmsg) as [[r h1] d3].
  unfold entry_outcome in *. cbn [fst snd] in *.
  destruct Ho as [-> | (-> & Ho)]; [left; reflexivity|right].
  split; [reflexivity|exact Ho].
Qed.

End RecvLemmas.

(** ** What the state machine never writes *)

Lemma keeps_refl dh : keeps dh dh.
Proof. unfold keeps. auto. Qed.

Lemma keeps_trans d1 d2 d3 : keeps d1 d2 -> keeps d2 d3 -> keeps d1 d3.
Proof.
  unfold keeps. intros (a1 & a2 & a3) (b1 & b2 & b3).
  split; [congruence|]. split; [congruence|].
  destruct b3 as [b3|b3]; [|right; exact b3].
  destruct a3 as [a3|a3]; [left|right]; congruence.
Qed.

Lemma same_conn_keeps dh dh1 : same_conn dh dh1 -> keeps dh dh1.
Proof. unfold same_conn, keeps. intuition. Qed.

Lemma closed_from_keeps dh dh1 msg : closed_from dh dh1 msg -> keeps dh dh1.
Proof.
  intros H. destruct (closed_from_facts _ _ _ H) as (_ & _ & Hb & Hx & _ & Hn & _).
  unfold keeps. auto.
Qed.

Lemma recv_outcome_keeps dh r dh1 : recv_outcome dh r dh1 -> keeps dh dh1.
Proof.
  intros [(_ & msg & Hc) | (_ & Hs)];
    [eapply closed_from_keeps; eauto|apply same_conn_keeps, Hs].
Qed.

Lemma device_state_timeout_restart_keeps h now dh :
  keeps dh (snd (device_state_timeout_restart h now dh)).
Proof.
  unfold device_state_timeout_restart, device_state_timeout_unregister,
    clixon_event_unreg_timeout.
  destruct (dh_timers dh); cbn; unfold keeps; auto.
Qed.

Section KeepsLemmas.

Variable E : clixon_env.

Lemma schemas_ready_sync_keeps h now d0 s :
  keeps d0
    (snd (let '(ret, dh) := device_state_schemas_ready E h d0 in
          if ret <? 0 then (-1, h, dh)
          else if ret =? 0 then
            let '(_, dh) := device_close_connection dh (Some "YANG parse error") in
            (0, h, dh)
          else
            let '(ret, dh) := device_send_sync E h dh s in
            if ret <? 0 then (-1, h, dh)
            else
              let dh := device_handle_conn_state_set dh CS_DEVICE_SYNC in
              let '(_, dh) := device_state_timeout_restart h now dh in
              (0, h, dh))).
Proof.
  pose proof (device_state_schemas_ready_same E h d0) as Hsr.
  destruct (device_state_schemas_ready E h d0) as [ret d1]. cbn [snd] in Hsr.
  apply same_conn_keeps in Hsr.
  destruct (ret <? 0); [exact Hsr|].
  destruct (ret =? 0).
  { destr_close. cbn [snd]. eapply keeps_trans; [exact Hsr|].
    eapply closed_from_keeps; eauto. }
  pose proof (device_send_sync_same E h d1 s) as Hss.
  destruct (device_send_sync E h d1 s) as [r d2]. cbn [snd] in Hss.
  apply same_conn_keeps in Hss.
  assert (H2 : keeps d0 d2) by (eapply keeps_trans; eauto).
  destruct (r <? 0); [exact H2|]. cbv zeta.
  pose proof (device_state_timeout_restart_keeps h now
                (device_handle_conn_state_set d2 CS_DEVICE_SYNC)) as HR.
  destruct (device_state_timeout_restart h now _) as [r3 d3]. cbn [snd] in *.
  eapply keeps_trans; [exact H2|]. exact HR.
Qed.

Lemma device_state_handler_keeps h now dh s xmsg :
  keeps dh (snd (device_state_handler E h now dh s xmsg)).
Proof.
  unfold device_state_handler.
  destruct (dh_conn_state dh) eqn:Hcs;
    try (destr_close; cbn [snd]; eapply closed_from_keeps; eauto).
  - (* CS_CONNECTING *)
    pose proof (device_state_recv_hello_outcome E h dh s xmsg (xml_name xmsg)
                  CS_CONNECTING) as Ho.
    destruct (device_state_recv_hello E h dh s xmsg (xml_name xmsg) CS_CONNECTING)
      as [[r h1] d1].
    destruct Ho as (Ho & _). apply recv_outcome_keeps in Ho.
    destruct (r <? 0); [exact Ho|]. destruct (r =? 0); [exact Ho|].
    set (d2 := device_handle_yspec_set d1 (Some yspec_new)).
    assert (H2 : keeps dh d2).
    { eapply keeps_trans; [exact Ho|subst d2; unfold keeps; cbn; auto]. }
    destruct (negb (device_handle_capabilities_find d2 NETCONF_MONITORING_NAMESPACE)).
    { destr_close. cbn [snd]. eapply keeps_trans; [exact H2|].
      eapply closed_from_keeps; eauto. }
    pose proof (device_send_get_schema_list_same E h1 d2 s) as Hl.
    destruct (device_send_get_schema_list E h1 d2 s) as [r2 d3]. cbn [snd] in Hl.
    apply same_conn_keeps in Hl.
    assert (H3 : keeps dh d3) by (eapply keeps_trans; eauto).
    destruct (r2 <? 0); [exact H3|]. cbv zeta.
    pose proof (device_state_timeout_restart_keeps h1 now
                  (device_handle_conn_state_set d3 CS_SCHEMA_LIST)) as HR.
    destruct (device_state_timeout_restart h1 now _) as [r4 d4]. cbn [snd] in *.
    eapply keeps_trans; [exact H3|exact HR].
  - (* CS_SCHEMA_LIST *)
    pose proof (device_state_recv_schema_list_outcome dh xmsg (xml_name xmsg)
                  CS_SCHEMA_LIST) as Ho.
    destruct (device_state_recv_schema_list dh xmsg (xml_name xmsg) CS_SCHEMA_LIST)
      as [r d1].
    assert (H1 : keeps dh d1).
    { destruct Ho as [(_ & (msg & Hc) & _) | (_ & Hs)];
        [eapply closed_from_keeps; eauto|apply same_conn_keeps, Hs]. }
    destruct (r <? 0); [exact H1|]. cbv zeta.
    pose proof (device_send_get_schema_next_same E h d1 s 0) as Hn.
    destruct (device_send_get_schema_next E h d1 s 0) as [[r2 nr] d2].
    cbn [snd] in Hn. apply same_conn_keeps in Hn.
    assert (H2 : keeps dh d2) by (eapply keeps_trans; eauto).
    destruct (r2 <? 0); [exact H2|].
    destruct (r2 =? 0).
    { eapply keeps_trans; [exact H2|apply schemas_ready_sync_keeps]. }
    pose proof (device_state_timeout_restart_keeps h now
                  (device_handle_conn_state_set
                     (device_handle_nr_schemas_set d2 nr) CS_SCHEMA_ONE)) as HR.
    destruct (device_state_timeout_restart h now _) as [r4 d4]. cbn [snd] in *.
    eapply keeps_trans; [exact H2|exact HR].
  - (* CS_SCHEMA_ONE *)
    pose proof (device_state_recv_get_schema_outcome E h dh xmsg (xml_name xmsg)
                  CS_SCHEMA_ONE) as Ho.
    destruct (device_state_recv_get_schema E h dh xmsg (xml_name xmsg) CS_SCHEMA_ONE)
      as [[r h1] d1].
    destruct Ho as (Ho & _). apply recv_outcome_keeps in Ho.
    destruct (r <? 0); [exact Ho|]. destruct (r =? 0); [exact Ho|]. cbv zeta.
    pose proof (device_send_get_schema_next_same E h1 d1 s (dh_nr_schemas d1)) as Hn.
    destruct (device_send_get_schema_next E h1 d1 s (dh_nr_schemas d1))
      as [[r2 nr] d2].
    cbn [snd] in Hn. apply same_conn_keeps in Hn.
    assert (H2 : keeps dh d2) by (eapply keeps_trans; eauto).
    destruct (r2 <? 0); [exact H2|].
    destruct (r2 =? 0).
    { eapply keeps_trans; [exact H2|apply schemas_ready_sync_keeps]. }
    pose proof (device_state_timeout_restart_keeps h1 now
                  (device_handle_nr_schemas_set d2 nr)) as HR.
    destruct (device_state_timeout_restart h1 now _) as [r4 d4]. cbn [snd] in *.
    eapply keeps_trans; [exact H2|exact HR].
  - (* CS_DEVICE_SYNC *)
    pose proof (device_state_recv_config_outcome E h now dh xmsg (xml_name xmsg)
                  CS_DEVICE_SYNC) as Ho.
    destruct (device_state_recv_config E h now dh xmsg (xml_name xmsg) CS_DEVICE_SYNC)
      as [[r h1] d1].
    destruct Ho as (Ho & _). apply recv_outcome_keeps in Ho.
    destruct (r <? 0); [exact Ho|]. destruct (r =? 0); [exact Ho|]. cbv zeta.
    eapply keeps_trans; [exact Ho|].
    unfold device_state_timeout_unregister, clixon_event_unreg_timeout.
    cbn. destruct (dh_timers d1); cbn; unfold keeps; auto.
Qed.

Lemma connect_netconf_ssh_keeps h now dh user addr :
  keeps dh (snd (connect_netconf_ssh E h now dh user addr)).
Proof.
  unfold connect_netconf_ssh.
  destruct addr as [addr|]; [|apply keeps_refl].
  destruct (negb _); [apply keeps_refl|].
  destruct (_ <? 0); [apply keeps_refl|].
  cbn. unfold keeps. cbn. auto.
Qed.

Lemma pull_device_keeps h now dh cbret :
  keeps dh (snd (fst (pull_device E h now dh cbret))).
Proof.
  unfold pull_device.
  pose proof (device_send_sync_same E h dh (device_handle_socket_get dh)) as Hs.
  destruct (device_send_sync E h dh (device_handle_socket_get dh)) as [r d1].
  cbn [snd] in Hs. apply same_conn_keeps in Hs.
  destruct (r <? 0); cbn; [exact Hs|].
  destruct Hs as (H1 & H2 & H3). unfold keeps. cbn. auto.
Qed.

Lemma push_device_keeps h now dh cbret :
  keeps dh (snd (fst (push_device E h now dh cbret))).
Proof.
  unfold push_device.
  destruct (dh_sync_xml dh); [|apply keeps_refl].
  destruct (running_device_root h (dh_name dh)); [|apply keeps_refl].
  destruct (dh_yspec dh); [|apply keeps_refl].
  destruct (env_xml_diff E _ _ _) as [r [[dvec avec] chvec]].
  destruct (r <? 0); [apply keeps_refl|].
  destruct (_ || _); [|apply keeps_refl].
  pose proof (device_send_edit_config_diff_same E h dh dvec avec chvec) as Hs.
  destruct (device_send_edit_config_diff E h dh dvec avec chvec) as [r1 d1].
  cbn [snd] in Hs. apply same_conn_keeps in Hs.
  destruct (r1 <? 0); cbn; [exact Hs|].
  destruct Hs as (H1 & H2 & H3). unfold keeps. cbn. auto.
Qed.

Lemma device_input_cb_name_sync h now dh s inp :
  let dh1 := snd (device_input_cb E h now dh s inp) in
  dh_name dh1 = dh_name dh /\ dh_sync_xml dh1 = dh_sync_xml dh.
Proof.
  unfold device_input_cb.
  destruct (in_ret inp <? 0); [cbn; auto|].
  destruct (in_eof inp).
  { destr_close. cbn [snd].
    destruct (closed_from_keeps _ _ _ Hc) as (H1 & H2 & _). cbn in *. auto. }
  destruct (negb (in_eom inp)); [cbn; auto|].
  destruct (in_frame_ret inp <? 0); [cbn; auto|].
  destruct (in_frame_ret inp =? 0).
  { destr_close. cbn [snd].
    destruct (closed_from_keeps _ _ _ Hc) as (H1 & H2 & _). cbn in *. auto. }
  destruct (in_frame_msg inp) as [xmsg|]; [|cbn; auto].
  match goal with
  | |- context [device_state_handler E h now ?d s xmsg] =>
      pose proof (device_state_handler_keeps h now d s xmsg) as Hk;
      destruct (device_state_handler E h now d s xmsg) as [[r h1] d3]
  end.
  cbn [snd] in Hk. destruct Hk as (H1 & H2 & _). cbn in H1, H2.
  destruct (r <? 0); cbn; auto.
Qed.


(** A pull or a push leaves the connection state as it is or enters the
    state of the request. *)
Lemma pull_device_state h now dh cbret :
  let dh1 := snd (fst (pull_device E h now dh cbret)) in
  dh_conn_state dh1 = dh_conn_state dh \/ dh_conn_state dh1 = CS_DEVICE_SYNC.
Proof.
  unfold pull_device.
  pose proof (device_send_sync_same E h dh (device_handle_socket_get dh)) as Hs.
  destruct (device_send_sync E h dh (device_handle_socket_get dh)) as [r d1].
  cbn [snd] in Hs. destruct Hs as (_ & Hc & _).
  destruct (r <? 0); cbn; auto.
Qed.

Lemma push_device_state h now dh cbret :
  let dh1 := snd (fst (push_device E h now dh cbret)) in
  dh_conn_state dh1 = dh_conn_state dh \/ dh_conn_state dh1 = CS_PUSH_EDIT.
Proof.
  unfold push_device.
  destruct (dh_sync_xml dh); [|cbn; auto].
  destruct (running_device_root h (dh_name dh)); [|cbn; auto].
  destruct (dh_yspec dh); [|cbn; auto].
  destruct (env_xml_diff E _ _ _) as [r [[dvec avec] chvec]].
  destruct (r <? 0); [cbn; auto|].
  destruct (_ || _); [|cbn; auto].
  pose proof (device_send_edit_config_diff_same E h dh dvec avec chvec) as Hs.
  destruct (device_send_edit_config_diff E h dh dvec avec chvec) as [r1 d1].
  cbn [snd] in Hs. destruct Hs as (_ & Hc & _).
  destruct (r1 <? 0); cbn; auto.
Qed.

(** A step that ends in CLOSED ends with an empty frame buffer: the
    device was closed by the step, or it was CLOSED before and the step
    did not change it. *)
Lemma device_step_closed_frame_buf h now ev dh dh1 :
  device_inv dh ->
  (dh_conn_state dh = CS_CLOSED -> dh_frame_buf dh = "") ->
  device_step E h now ev dh = Some dh1 ->
  dh_conn_state dh1 = CS_CLOSED -> dh_frame_buf dh1 = "".
Proof.
  intros Hinv Hbuf Hstep.
  destruct ev as [yf user addr|s inp| |cbret|cbret]; cbn [device_step] in Hstep.
  - injection Hstep as <-. unfold connect_netconf_ssh.
    set (d0 := match yf with Some y => _ | None => dh end).
    assert (Hc0 : dh_conn_state d0 = dh_conn_state dh)
      by (subst d0; destruct yf; reflexivity).
    assert (Hb0 : dh_frame_buf d0 = dh_frame_buf dh)
      by (subst d0; destruct yf; reflexivity).
    destruct addr as [addr|]; [|cbn; rewrite Hc0, Hb0; exact Hbuf].
    destruct (negb _); [cbn; rewrite Hc0, Hb0; exact Hbuf|].
    destruct (_ <? 0); [cbn; rewrite Hc0, Hb0; exact Hbuf|].
    cbn. discriminate.
  - destruct (existsb (Z.eqb s) (dh_fd_events dh)) eqn:Hreg; [|discriminate].
    injection Hstep as <-.
    assert (Hnc : dh_conn_state dh <> CS_CLOSED).
    { intros Hc. unfold device_inv in Hinv. rewrite Hc in Hinv.
      destruct Hinv as (_ & Hf & _). rewrite Hf in Hreg. discriminate. }
    unfold device_input_cb.
    destruct (in_ret inp <? 0); [cbn; intros Hc; contradiction|].
    destruct (in_eof inp).
    { destr_close. cbn [snd]. intros _. apply (closed_from_facts _ _ _ Hc). }
    destruct (negb (in_eom inp)); [cbn; intros Hc; contradiction|].
    destruct (in_frame_ret inp <? 0); [cbn; intros Hc; contradiction|].
    destruct (in_frame_ret inp =? 0).
    { destr_close. cbn [snd]. intros _. apply (closed_from_facts _ _ _ Hc). }
    destruct (in_frame_msg inp) as [xmsg|]; [|cbn; intros Hc; contradiction].
    match goal with
    | |- context [device_state_handler E h now ?d s xmsg] =>
        pose proof (device_state_handler_keeps h now d s xmsg) as Hk;
        destruct (device_state_handler E h now d s xmsg) as [[r h1] d3]
    end.
    cbn [snd] in Hk. destruct Hk as (_ & _ & H3). cbn in H3.
    destruct (r <? 0); cbn; intros _; destruct H3; assumption.
  - destruct (dh_timers dh) as [|t rest]; [discriminate|].
    destruct (t <=? now); [|discriminate]. injection Hstep as <-. intros _.
    apply (device_close_connection_fields (device_handle_timers_set dh rest)
             (Some "Timeout waiting for remote peer")).
  - destruct (dh_conn_state dh) eqn:Hcs; try discriminate.
    injection Hstep as <-.
    destruct (pull_device_state h now dh cbret) as [Hc | Hc];
      rewrite Hc, ?Hcs; discriminate.
  - destruct (dh_conn_state dh) eqn:Hcs; try discriminate.
    injection Hstep as <-.
    destruct (push_device_state h now dh cbret) as [Hc | Hc];
      rewrite Hc, ?Hcs; discriminate.
Qed.

(** A CLOSED device has an empty frame buffer. *)
Lemma reachable_closed_frame_buf dh :
  reachable E dh -> dh_conn_state dh = CS_CLOSED -> dh_frame_buf dh = "".
Proof.
  induction 1 as [name|name|h now ev dh dh1 Hr IH Hstep]; try reflexivity.
  eapply device_step_closed_frame_buf; eauto.
  apply (reachable_device_inv E), Hr.
Qed.

End KeepsLemmas.

(** * The claims *)

(** ** C1: the snapshot and a failed commit *)

(** The synced tree is the same before and after
    device_state_recv_config, on every path. *)
Lemma device_state_recv_config_sync_xml E h now dh xmsg rpcname cs :
  dh_sync_xml (snd (device_state_recv_config E h now dh xmsg rpcname cs))
  = dh_sync_xml dh.
Proof.
  pose proof (device_state_recv_config_outcome E h now dh xmsg rpcname cs) as H.
  destruct (device_state_recv_config E h now dh xmsg rpcname cs) as [[r h1] dh1].
  cbn [snd]. destruct H as ([(_ & msg & Hc) | (_ & Hs)] & _).
  - apply (closed_from_facts _ _ _ Hc).
  - apply Hs.
Qed.

(** C1 does not hold as stated: when candidate_commit ends with an error
    (-1) for the pulled configuration, device_state_recv_config returns -1
    at once.  The candidate is not restored from running (it holds the
    pulled configuration), the session is not closed (the device stays in
    DEVICE_SYNC with its socket and its timer) and no log message is
    set.  Nor is the snapshot replaced when the commit succeeds: the
    function returns 1 and the snapshot is the tree it was, not the one
    that was pulled. *)
Lemma device_state_recv_config_commit_error :
  let dh := dev_in_state "d1" CS_DEVICE_SYNC (Some synced_tree) in
  (let res := device_state_recv_config env_commit_error h_one_device 200 dh
                pulled_config "rpc-reply" CS_DEVICE_SYNC in
   env_candidate_commit env_commit_error (h_candidate (snd (fst res)))
                        (commit_validate_level dh) = -1
   /\ fst (fst res) = -1
   /\ h_candidate (snd (fst res))
      = device_entry "d1" [] [xml_leaf "mtu" "9999999"] :: h_running h_one_device
   /\ h_candidate (snd (fst res)) <> h_running h_one_device
   /\ snd res = dh
   /\ dh_conn_state (snd res) = CS_DEVICE_SYNC
   /\ dh_logmsg (snd res) = None
   /\ dh_logmsg (snd res) <> Some "Failed to commit")
  /\ (let res := device_state_recv_config env_ok h_one_device 200 dh
                   pulled_config "rpc-reply" CS_DEVICE_SYNC in
      fst (fst res) = 1
      /\ dh_sync_xml (snd res) = Some synced_tree
      /\ xml_children (reply_data pulled_config) = [xml_leaf "mtu" "9999999"]
      /\ xml_children synced_tree = [xml_leaf "mtu" "1500"]).
Proof. vm_compute. repeat split; discriminate. Qed.

(** C1, amended. For a device receiving pulled configuration data in
    device_state_recv_config: whenever the function does not return 1 the
    synced snapshot is what it was, and it returns 1 only if
    candidate_commit returned a positive code.  For a reply that carries
    data that binds to the YANG of the device, with [pret] the result of
    the write to candidate and the commit called on the datastore [db]
    that write gives: (1) if the write or the commit is rejected (returns
    0), the function returns 0, candidate is restored from running with
    its dirty bit reset, running is what it was, the session is closed
    with the log message "Failed to commit", and the snapshot is
    unchanged; (2) if the commit ends with an error (a negative code), the
    function returns -1 with the device handle untouched and candidate
    left as written: no discard, no close, no log message; (3) if the
    commit returns a positive code, the function returns 1. *)
Theorem device_state_recv_config_commit
        E h now dh xmsg rpcname cs r h1 dh1 :
  device_state_recv_config E h now dh xmsg rpcname cs = (r, h1, dh1) ->
  (r <> 1 -> dh_sync_xml dh1 = dh_sync_xml dh)
  /\ (r = 1 ->
      exists db, 0 < env_candidate_commit E db (commit_validate_level dh)
                 /\ h_running h1 = db)
  /\ (forall yspec1 pret db,
         rpcname = "rpc-reply" ->
         namespace_is_base (xml_nsctx_get (xml_nsctx_node xmsg) (xml_prefix xmsg))
         = true ->
         0 <= env_mount_point_parse E (dh_name dh) ->
         0 < env_yang_schema_mount_point E (dh_name dh) ->
         dh_yspec dh = Some yspec1 ->
         0 < fst (env_xml_bind_yang E yspec1 (reply_data xmsg)) ->
         env_xmldb_put E (h_candidate h) (dh_name dh)
                       (xml_children (reply_data xmsg)) = (pret, db) ->
         (pret = 0
          \/ (0 < pret /\ env_candidate_commit E db (commit_validate_level dh) = 0) ->
          r = 0
          /\ h_candidate h1 = h_running h
          /\ h_running h1 = h_running h
          /\ h_candidate_modified h1 = false
          /\ dh_conn_state dh1 = CS_CLOSED
          /\ dh_logmsg dh1 = Some "Failed to commit"
          /\ dh_sync_xml dh1 = dh_sync_xml dh)
         /\ (0 < pret ->
             env_candidate_commit E db (commit_validate_level dh) < 0 ->
             r = -1 /\ h1 = xmldb_candidate_set h db /\ dh1 = dh)
         /\ (0 < pret ->
             0 < env_candidate_commit E db (commit_validate_level dh) ->
             r = 1)).
Proof.
  intros Heq.
  pose proof (device_state_recv_config_sync_xml E h now dh xmsg rpcname cs) as Hx.
  rewrite Heq in Hx. cbn [snd] in Hx.
  split; [intros _; exact Hx|]. split.
  - (* return 1 means a successful commit *)
    intros ->. revert Heq. unfold device_state_recv_config.
    destruct (negb (rpcname =? "rpc-reply")%string).
    { destr_close. discriminate. }
    destruct (negb (namespace_is_base _)).
    { destr_close. discriminate. }
    destruct (device_state_mount_point_get E (dh_name dh) <? 0); [discriminate|].
    destruct (env_yang_schema_mount_point E (dh_name dh) <? 0); [discriminate|].
    destruct (env_yang_schema_mount_point E (dh_name dh) =? 0); [discriminate|].
    destruct (dh_yspec dh) as [yspec1|]; [|destr_close; discriminate].
    destruct (env_xml_bind_yang E yspec1 _) as [ret errmsg].
    destruct (ret <? 0); [discriminate|].
    destruct (ret =? 0); [destr_close; discriminate|].
    destruct (env_xmldb_put E _ _ _) as [ret1 db].
    destruct (ret1 <? 0); [discriminate|].
    destruct (Z.eqb_spec ret1 0) as [Hz|Hnz].
    { subst ret1. cbv zeta. cbv iota. change (0 <? 0) with false.
      change (0 =? 0) with true. cbv iota. destr_close. discriminate. }
    cbn [h_candidate xmldb_candidate_set].
    destruct (Z.ltb_spec (env_candidate_commit E db (commit_validate_level dh)) 0);
      [discriminate|].
    destruct (Z.eqb_spec (env_candidate_commit E db (commit_validate_level dh)) 0).
    { destr_close. discriminate. }
    intros Heq. injection Heq as <- <-. exists db. split; [lia|reflexivity].
  - (* a reply with data *)
    intros yspec1 pret db -> Hns Hmp Hsm Hy Hb Hput.
    revert Heq. unfold device_state_recv_config.
    cbn [String.eqb Ascii.eqb Bool.eqb negb]. rewrite Hns. cbn [negb].
    unfold device_state_mount_point_get.
    destruct (Z.ltb_spec (env_mount_point_parse E (dh_name dh)) 0); [lia|].
    change (0 <? 0) with false. cbv iota.
    destruct (Z.ltb_spec (env_yang_schema_mount_point E (dh_name dh)) 0); [lia|].
    destruct (Z.eqb_spec (env_yang_schema_mount_point E (dh_name dh)) 0); [lia|].
    rewrite Hy.
    destruct (env_xml_bind_yang E yspec1 (reply_data xmsg)) as [retb errmsg].
    cbn [fst] in Hb.
    destruct (Z.ltb_spec retb 0); [lia|].
    destruct (Z.eqb_spec retb 0); [lia|].
    rewrite Hput. cbn [h_candidate xmldb_candidate_set].
    set (c := env_candidate_commit E db (commit_validate_level dh)).
    destruct (Z.ltb_spec pret 0) as [Hneg|Hpos].
    { intros _. split; [intros [Hz | (Hp & _)]; lia|]. split; intros; lia. }
    destruct (Z.eqb_spec pret 0) as [Hz|Hnz].
    { (* the write to candidate is rejected *)
      subst pret. change (0 <? 0) with false. change (0 =? 0) with true.
      cbv iota. destr_close. intros Heq. injection Heq as <- <- <-.
      destruct (closed_from_facts _ _ _ Hc) as (Hc1 & Hl & _ & Hsx & _).
      split; [intros _; cbn; repeat split; assumption|].
      split; intros; lia. }
    destruct (Z.ltb_spec c 0) as [Hcneg|Hcpos].
    { (* the commit ends with an error *)
      intros Heq. injection Heq as <- <- <-.
      split; [intros [Hz | (_ & Hc0)]; lia|].
      split; [intros _ _; repeat split|intros; lia]. }
    destruct (Z.eqb_spec c 0) as [Hcz|Hcnz].
    { (* the commit is rejected *)
      destr_close. intros Heq. injection Heq as <- <- <-.
      destruct (closed_from_facts _ _ _ Hc) as (Hc1 & Hl & _ & Hsx & _).
      split; [intros _; cbn; repeat split; assumption|].
      split; intros; lia. }
    intros Heq. injection Heq as <- <- <-.
    split; [intros [Hz | (_ & Hc0)]; lia|].
    split; [intros; lia|intros _ _; reflexivity].
Qed.

(** A commit that is rejected, at a device with a snapshot. *)
Lemma device_state_recv_config_commit_witness :
  let res := device_state_recv_config env_commit_fails h_one_device 200
               (dev_in_state "d1" CS_DEVICE_SYNC (Some synced_tree))
               pulled_config "rpc-reply" CS_DEVICE_SYNC in
  fst (fst res) = 0
  /\ h_candidate (snd (fst res)) = h_running h_one_device
  /\ h_running (snd (fst res)) = h_running h_one_device
  /\ h_candidate_modified (snd (fst res)) = false
  /\ dh_conn_state (snd res) = CS_CLOSED
  /\ dh_logmsg (snd res) = Some "Failed to commit"
  /\ dh_sync_xml (snd res) = Some synced_tree.
Proof.
  intros res.
  assert (Heq : device_state_recv_config env_commit_fails h_one_device 200
                  (dev_in_state "d1" CS_DEVICE_SYNC (Some synced_tree))
                  pulled_config "rpc-reply" CS_DEVICE_SYNC
                = (fst (fst res), snd (fst res), snd res))
    by (vm_compute; reflexivity).
  destruct (device_state_recv_config_commit _ _ _ _ _ _ _ _ _ _ Heq)
    as (_ & _ & H).
  destruct (H yspec_new 1
              (device_entry "d1" [] [xml_leaf "mtu" "9999999"]
                 :: h_candidate h_one_device)) as (Hrej & _);
    try reflexivity; try (cbn; lia).
  apply Hrej. right. split; [lia|reflexivity].
Defined.

(** ** C2: framing after the hello exchange *)

(** C2 (as the code has it). Whenever device_state_recv_hello accepts
    the hello of a peer, the framing option of the session is the
    end-of-message sentinel and the controller's own hello is sent with
    version 0: also for a peer that advertises base:1.1, for which the
    claim asks for chunked framing. *)
Theorem device_state_recv_hello_framing E h dh s xmsg rpcname cs r h1 dh1 :
  device_state_recv_hello E h dh s xmsg rpcname cs = (r, h1, dh1) ->
  r = 1 ->
  h_netconf_framing h1 = NETCONF_SSH_EOM
  /\ h_netconf_framing h1 <> NETCONF_SSH_CHUNKED
  /\ dh_sent dh1 = (dh_sent dh ++ [mkFrame NETCONF_SSH_EOM (OutHello 0)])%list.
Proof.
  intros Heq ->. revert Heq. unfold device_state_recv_hello.
  destruct (negb (rpcname =? "hello")%string); [destr_close; discriminate|].
  destruct (negb (namespace_is_base _)); [destr_close; discriminate|].
  destruct (xml_find_type xmsg "capabilities") as [xcaps|]; [|discriminate].
  set (dh0 := device_handle_capabilities_set dh _).
  assert (Hversion :
    forall v : option Z,
      match v with
      | Some _ =>
          let '(r, d) := clixon_client_hello E dh0 s 0 in
          if r <? 0 then (-1, clicon_option_netconf_framing_set h 0, d)
          else (1, clicon_option_netconf_framing_set h 0, d)
      | None =>
          let '(_, d) := device_close_connection dh0
                           (Some "No base netconf capability found") in
          (0, h, d)
      end = (1, h1, dh1) ->
      h_netconf_framing h1 = NETCONF_SSH_EOM
      /\ h_netconf_framing h1 <> NETCONF_SSH_CHUNKED
      /\ dh_sent dh1 = (dh_sent dh ++ [mkFrame NETCONF_SSH_EOM (OutHello 0)])%list).
  { intros [v|]; [|destr_close; discriminate].
    unfold clixon_client_hello, clicon_msg_send1.
    destruct (dh_socket dh0) as [s1|]; [|discriminate].
    destruct (s1 =? s); [|discriminate].
    destruct (env_msg_send1 E s _ <? 0); [discriminate|].
    cbn. intros Heq. injection Heq as <- <-. cbn.
    repeat split. discriminate. }
  apply Hversion.
Qed.

(** At the failing input: a peer that advertises base:1.0 and
    base:1.1. *)
Lemma device_state_recv_hello_framing_witness :
  let res := device_state_recv_hello env_ok h0 (dev_connecting "d1") 5
               (hello_msg [NETCONF_BASE_CAPABILITY_1_0;
                           NETCONF_BASE_CAPABILITY_1_1;
                           NETCONF_MONITORING_NAMESPACE])
               "hello" CS_CONNECTING in
  device_handle_capabilities_find (snd res) NETCONF_BASE_CAPABILITY_1_1 = true
  /\ fst (fst res) = 1
  /\ h_netconf_framing (snd (fst res)) = NETCONF_SSH_EOM
  /\ h_netconf_framing (snd (fst res)) <> NETCONF_SSH_CHUNKED.
Proof.
  intros res.
  assert (Heq : device_state_recv_hello env_ok h0 (dev_connecting "d1") 5
                  (hello_msg [NETCONF_BASE_CAPABILITY_1_0;
                              NETCONF_BASE_CAPABILITY_1_1;
                              NETCONF_MONITORING_NAMESPACE])
                  "hello" CS_CONNECTING
                = (fst (fst res), snd (fst res), snd res))
    by (vm_compute; reflexivity).
  assert (Hr : fst (fst res) = 1) by (vm_compute; reflexivity).
  split; [vm_compute; reflexivity|]. split; [exact Hr|].
  destruct (device_state_recv_hello_framing _ _ _ _ _ _ _ _ _ _ Heq Hr)
    as (H1 & H2 & _).
  split; assumption.
Defined.

(** ** C3: timeouts of transient states *)

(** C3 (as the code has it). The timeout of a transient state is the
    option controller_device_timeout read into a uint32_t, and 60 seconds
    when that is zero: a configured value of 1 to 4294967295 seconds is
    used as it is, and an option that is not set, which reads -1, gives
    4294967295 seconds and not the default.  Every transient state a
    device can get into has exactly one timer pending; while its deadline
    has not come the timer does not fire, and once it has, the timeout
    callback closes the device with the log message "Timeout waiting for
    remote peer" and leaves no timer and no descriptor registered.  The
    timer is fresh, at the time of day plus the timeout, whenever a step
    takes the device into another transient state, and whenever a handled
    message leaves it in a transient state, also the one it was in. *)
Theorem device_state_timeout_closes E dh :
  reachable E dh ->
  (forall h,
      device_timeout_secs h
      = (if h_controller_device_timeout h mod 2 ^ 32 =? 0 then 60
         else h_controller_device_timeout h mod 2 ^ 32))
  /\ (forall h, h_controller_device_timeout h = 0 -> device_timeout_secs h = 60)
  /\ (forall h, 0 < h_controller_device_timeout h < 2 ^ 32 ->
                device_timeout_secs h = h_controller_device_timeout h)
  /\ (forall h, h_controller_device_timeout h = -1 ->
                device_timeout_secs h = 4294967295)
  /\ (transient (dh_conn_state dh) = true ->
      exists t,
        dh_timers dh = [t]
        /\ (forall h2 now2, now2 < t ->
              device_step E h2 now2 EvTimeout dh = None)
        /\ (forall h2 now2, t <= now2 ->
              exists dh2,
                device_step E h2 now2 EvTimeout dh = Some dh2
                /\ dh_conn_state dh2 = CS_CLOSED
                /\ dh_logmsg dh2 = Some "Timeout waiting for remote peer"
                /\ dh_timers dh2 = []
                /\ dh_fd_events dh2 = []))
  /\ (forall h now ev dh1,
         device_step E h now ev dh = Some dh1 ->
         transient (dh_conn_state dh1) = true ->
         dh_conn_state dh1 <> dh_conn_state dh ->
         dh_timers dh1 = [now + device_timeout_secs h])
  /\ (forall h now s inp h1 dh1,
         device_input_cb E h now dh s inp = (0, h1, dh1) ->
         in_eom inp = true -> in_frame_msg inp <> None ->
         transient (dh_conn_state dh1) = true ->
         dh_timers dh1 = [now + device_timeout_secs h]).
Proof.
  intros Hreach.
  pose proof (reachable_device_inv _ _ Hreach) as Hinv.
  split; [reflexivity|].
  split; [apply device_timeout_secs_default|].
  split; [apply device_timeout_secs_configured|].
  split; [intros h Hu; unfold device_timeout_secs; rewrite Hu; reflexivity|].
  split; [|split].
  - intros Htr. destruct (device_inv_transient_timer dh Hinv Htr) as (t & Ht).
    exists t. split; [exact Ht|]. split.
    + intros h2 now2 Hlt. cbn [device_step]. rewrite Ht.
      destruct (Z.leb_spec t now2); [lia|reflexivity].
    + intros h2 now2 Hle. cbn [device_step]. rewrite Ht.
      destruct (Z.leb_spec t now2); [|lia].
      eexists. split; [reflexivity|].
      destruct (device_state_timeout_outcome h2 now2 dh t [] Hinv Ht)
        as (_ & Hc & Hl & Htm & Hfd & _).
      repeat split; assumption.
  - intros h now ev dh1 Hstep Htr Hne.
    pose proof (device_step_outcome E h now ev _ _ Hinv Hstep) as Hout.
    destruct (step_outcome_inv _ _ _ _ Hinv Hout) as (_ & Hfresh).
    apply Hfresh; assumption.
  - intros h now s inp h1 dh1 Heq Heom Hmsg Htr.
    pose proof (device_input_cb_entry E h now dh s inp Hinv) as Ho.
    rewrite Heq in Ho. unfold entry_outcome in Ho. cbn [fst snd] in Ho.
    destruct Ho as [[Hr | (_ & [Hc | [Hc | Ht]])] | ([He | Hm] & _)].
    + discriminate Hr.
    + rewrite Hc in Htr. discriminate.
    + rewrite Hc in Htr. discriminate.
    + exact Ht.
    + congruence.
    + contradiction.
Qed.

(** With the option not set, a device that is connected at time 100 gets
    its timer 4294967295 seconds later; with the option at 0 the timer
    is at 160, and when that time has come the device is closed. *)
Lemma device_state_timeout_closes_witness :
  (exists dh1,
      device_step env_ok h_timeout_unset 100
                  (EvConnect None None (Some "10.0.0.1"))
                  (device_handle_new "d1") = Some dh1
      /\ dh_conn_state dh1 = CS_CONNECTING
      /\ dh_timers dh1 = [100 + 4294967295])
  /\ transient (dh_conn_state (dev_connecting "d1")) = true
  /\ exists t,
      dh_timers (dev_connecting "d1") = [t]
      /\ t = 100 + 60
      /\ exists dh2,
          device_step env_ok h0 160 EvTimeout (dev_connecting "d1") = Some dh2
          /\ dh_conn_state dh2 = CS_CLOSED
          /\ dh_logmsg dh2 = Some "Timeout waiting for remote peer".
Proof.
  split.
  - destruct (device_state_timeout_closes env_ok (device_handle_new "d1")
                (reach_new env_ok "d1"))
      as (_ & _ & _ & Hunset & _ & Hentry & _).
    eexists. split; [vm_compute; reflexivity|]. split; [reflexivity|].
    rewrite <- (Hunset h_timeout_unset eq_refl).
    apply (Hentry h_timeout_unset 100 (EvConnect None None (Some "10.0.0.1")));
      [vm_compute; reflexivity|reflexivity|discriminate].
  - split; [reflexivity|].
    assert (Hreach : reachable env_ok (dev_connecting "d1")).
    { apply reach_step with (h := h0) (now := 100)
                            (ev := EvConnect None None (Some "10.0.0.1"))
                            (dh := device_handle_new "d1");
        [apply reach_new|vm_compute; reflexivity]. }
    destruct (device_state_timeout_closes env_ok (dev_connecting "d1") Hreach)
      as (_ & _ & _ & _ & Htimer & _).
    destruct (Htimer eq_refl) as (t & Ht & _ & Hfire).
    assert (Et : t = 160).
    { assert (Hd : dh_timers (dev_connecting "d1") = [160])
        by (vm_compute; reflexivity).
      congruence. }
    exists t. split; [exact Ht|]. split; [rewrite Et; reflexivity|].
    destruct (Hfire h0 160 ltac:(lia)) as (dh2 & H1 & H2 & H3 & _).
    exists dh2. repeat split; assumption.
Defined.

(** ** C4: unexpected messages *)

(** In the states CONNECTING, SCHEMA_ONE and DEVICE_SYNC and in the states
    without a handler of their own, a message with an unexpected name
    closes the session with the log message naming the message and the
    state, and the handler returns 0.  (In DEVICE_SYNC that is the return
    the code asks for; the C function gets there past an xml_free of a
    pointer that is not set, see device_state_recv_config.) *)
Lemma device_state_handler_unexpected E h now dh s xmsg :
  dh_conn_state dh <> CS_SCHEMA_LIST ->
  (dh_conn_state dh = CS_CONNECTING -> xml_name xmsg <> "hello") ->
  (dh_conn_state dh = CS_SCHEMA_ONE \/ dh_conn_state dh = CS_DEVICE_SYNC ->
   xml_name xmsg <> "rpc-reply") ->
  device_state_handler E h now dh s xmsg
  = (0, h, snd (device_close_connection dh
                  (Some (unexpected_msg (xml_name xmsg) (dh_conn_state dh))))).
Proof.
  intros Hsl Hhello Hreply. unfold device_state_handler.
  destruct (dh_conn_state dh) eqn:Hcs; try reflexivity; try congruence.
  - unfold device_state_recv_hello.
    destruct (String.eqb_spec (xml_name xmsg) "hello") as [He|_];
      [exfalso; apply Hhello; auto|].
    reflexivity.
  - unfold device_state_recv_get_schema.
    destruct (String.eqb_spec (xml_name xmsg) "rpc-reply") as [He|_];
      [exfalso; apply Hreply; auto|].
    reflexivity.
  - unfold device_state_recv_config.
    destruct (String.eqb_spec (xml_name xmsg) "rpc-reply") as [He|_];
      [exfalso; apply Hreply; auto|].
    reflexivity.
Qed.

(** C4 (as the code has it). In state SCHEMA_LIST the handler does not
    stop after a message with an unexpected name closed the session: it
    goes on with the schema exchange on the closed device.  It then either
    returns -1, the fatal error of the event loop, or has closed the device
    a second time with the log message "YANG parse error"; it never
    ends as in the other states, with return 0 and the log message
    "Unexpected msg X in state Y" standing. *)
Theorem device_state_handler_schema_list_unexpected
        E h now dh s xmsg r h1 dh1 :
  dh_conn_state dh = CS_SCHEMA_LIST ->
  xml_name xmsg <> "rpc-reply" ->
  device_state_handler E h now dh s xmsg = (r, h1, dh1) ->
  dh_conn_state dh1 = CS_CLOSED
  /\ ((r = -1
       /\ dh_logmsg dh1
          = Some (unexpected_msg (xml_name xmsg) CS_SCHEMA_LIST))
      \/ (r = 0 /\ dh_logmsg dh1 = Some "YANG parse error")).
Proof.
  intros Hcs Hname. unfold device_state_handler. rewrite Hcs.
  unfold device_state_recv_schema_list.
  destruct (String.eqb_spec (xml_name xmsg) "rpc-reply") as [He|_];
    [congruence|].
  cbn [negb]. destr_close. change (0 <? 0) with false. cbv iota.
  destruct (closed_from_facts _ _ _ Hc) as (Hc1 & Hl1 & _ & _ & Hs1 & _ & _).
  assert (Hlib : dh_yang_lib dc = None).
  { destruct Hc as (d0 & _ & ->). reflexivity. }
  assert (Hinv : device_inv dc -> True) by auto.
  intros Heq. revert Heq.
  destruct (device_send_get_schema_next_no_lib E h dc s 0 Hlib) as [-> | ->];
    cbv beta iota.
  { change (-1 <? 0) with true. cbv iota. intros Heq. injection Heq as <- <- <-.
    split; [exact Hc1|]. left. split; [reflexivity|exact Hl1]. }
  change (0 <? 0) with false. change (0 =? 0) with true. cbv iota.
  pose proof (device_state_schemas_ready_same E h dc) as Hsr.
  destruct (device_state_schemas_ready E h dc) as [ret d1]. cbn [snd] in Hsr.
  pose proof Hsr as (_ & Ec & _ & _ & Es & _ & _ & El).
  destruct (ret <? 0).
  { intros Heq. injection Heq as <- <- <-.
    split; [congruence|]. left. split; [reflexivity|congruence]. }
  destruct (ret =? 0).
  { destr_close. intros Heq. injection Heq as <- <- <-.
    destruct (closed_from_facts _ _ _ Hc0) as (Hc2 & Hl2 & _).
    split; [exact Hc2|]. right. split; [reflexivity|exact Hl2]. }
  assert (Hs2 : dh_socket d1 = None) by congruence.
  pose proof (device_send_sync_closed E h d1 s Hs2) as Hf.
  pose proof (device_send_sync_same E h d1 s) as Hss.
  destruct (device_send_sync E h d1 s) as [r2 d2]. cbn [fst snd] in *.
  subst r2. change (-1 <? 0) with true. cbv iota.
  intros Heq. injection Heq as <- <- <-.
  destruct Hss as (_ & Ec2 & _ & _ & _ & _ & _ & El2).
  split; [congruence|]. left. split; [reflexivity|congruence].
Qed.

(** At the failing input: a hello arrives in state SCHEMA_LIST.  With
    a library that parses, the handler returns -1; with one that does not,
    the log message is overwritten. *)
Lemma device_state_handler_schema_list_unexpected_witness :
  let dh := dev_in_state "d1" CS_SCHEMA_LIST None in
  let xmsg := hello_msg [NETCONF_BASE_CAPABILITY_1_0] in
  let res := device_state_handler env_ok h0 200 dh 5 xmsg in
  let res2 := device_state_handler env_parse_fails h0 200 dh 5 xmsg in
  (dh_conn_state (snd res) = CS_CLOSED
   /\ ((fst (fst res) = -1
        /\ dh_logmsg (snd res)
           = Some (unexpected_msg "hello" CS_SCHEMA_LIST))
       \/ (fst (fst res) = 0 /\ dh_logmsg (snd res) = Some "YANG parse error")))
  /\ fst (fst res) = -1
  /\ fst (fst res2) = 0
  /\ dh_logmsg (snd res2) = Some "YANG parse error".
Proof.
  intros dh xmsg res res2. split.
  - assert (Heq : device_state_handler env_ok h0 200 dh 5 xmsg
                  = (fst (fst res), snd (fst res), snd res))
      by (vm_compute; reflexivity).
    assert (Hcs : dh_conn_state dh = CS_SCHEMA_LIST) by reflexivity.
    assert (Hname : xml_name xmsg <> "rpc-reply") by (vm_compute; discriminate).
    exact (device_state_handler_schema_list_unexpected
             _ _ _ _ _ _ _ _ _ Hcs Hname Heq).
  - repeat split; vm_compute; reflexivity.
Defined.

(** ** C5: a push without differences *)

(** C5. When the diff of the synced tree and the device tree of running
    yields empty delete, add and change vectors, push_device returns 1
    and leaves the device handle and the reply as they were: no
    edit-config is sent, no timer is registered, and the connection state
    stays what it was, OPEN for a device driven by rpc_sync. *)
Theorem push_device_no_diff E h now dh cbret x0 x1 yspec r :
  dh_sync_xml dh = Some x0 ->
  running_device_root h (dh_name dh) = Some x1 ->
  dh_yspec dh = Some yspec ->
  env_xml_diff E yspec x0 x1 = (r, ([], [], [])) ->
  0 <= r ->
  push_device E h now dh cbret = (1, dh, cbret)
  /\ dh_sent (snd (fst (push_device E h now dh cbret))) = dh_sent dh
  /\ dh_conn_state (snd (fst (push_device E h now dh cbret))) = dh_conn_state dh.
Proof.
  intros Hx Hr Hy Hd Hpos.
  assert (Heq : push_device E h now dh cbret = (1, dh, cbret)).
  { unfold push_device. rewrite Hx, Hr, Hy, Hd.
    destruct (Z.ltb_spec r 0); [lia|]. reflexivity. }
  rewrite Heq. cbn. auto.
Qed.

Lemma push_device_no_diff_witness :
  let dh := dev_in_state "d1" CS_OPEN (Some synced_tree) in
  running_device_root h_one_device "d1" = Some synced_tree
  /\ push_device env_ok h_one_device 200 dh [] = (1, dh, [])
  /\ dh_sent (snd (fst (push_device env_ok h_one_device 200 dh []))) = []
  /\ dh_conn_state (snd (fst (push_device env_ok h_one_device 200 dh []))) = CS_OPEN.
Proof.
  intros dh. split; [reflexivity|].
  apply (@push_device_no_diff env_ok h_one_device 200 dh [] synced_tree
           synced_tree yspec_new 0);
    try reflexivity; lia.
Defined.

(** ** C6: the transaction-error RPC *)

(** C6 (as the code has it). rpc_transaction_error returns 0 and does
    nothing else: the clixon handle with its transactions, every device
    handle and the reply buffer are what they were.  A running
    transaction named by the request stays running and none of its
    participants is aborted. *)
Theorem rpc_transaction_error_no_effect h devs xe cbret :
  rpc_transaction_error h devs xe cbret = (0, h, devs, cbret)
  /\ h_transactions (snd (fst (fst (rpc_transaction_error h devs xe cbret))))
     = h_transactions h.
Proof. split; reflexivity. Qed.

(** At the failing input: transaction 42 is running, its participant d1
    waits for a reply in DEVICE_SYNC. *)
Lemma rpc_transaction_error_running :
  let devs := [dev_in_state "d1" CS_DEVICE_SYNC (Some synced_tree)] in
  let res := rpc_transaction_error h_running_transaction devs
               (transaction_error_request "42") [] in
  map ct_state (h_transactions (snd (fst (fst res)))) = [TS_RUNNING]
  /\ map dh_conn_state (snd (fst res)) = [CS_DEVICE_SYNC]
  /\ snd res = [].
Proof. repeat split; reflexivity. Qed.

(** ** The device loop of rpc_sync *)

Lemma device_handle_find_name devs name dh :
  device_handle_find devs name = Some dh -> dh_name dh = name.
Proof.
  unfold device_handle_find. intros H. apply find_some in H.
  destruct H as (_ & H). apply String.eqb_eq, H.
Qed.

Lemma device_handle_find_store_ne devs dh name :
  dh_name dh <> name ->
  device_handle_find (device_handle_store devs dh) name
  = device_handle_find devs name.
Proof.
  intros Hne. induction devs as [|d rest IH]; cbn; [reflexivity|].
  destruct (String.eqb_spec (dh_name d) (dh_name dh)) as [He|Hn]; cbn.
  - destruct (String.eqb_spec (dh_name dh) name); [contradiction|].
    destruct (String.eqb_spec (dh_name d) name); [congruence|reflexivity].
  - destruct (String.eqb_spec (dh_name d) name); [reflexivity|exact IH].
Qed.

Lemma device_handle_find_store_none devs dh name :
  device_handle_find devs name = None ->
  device_handle_find (device_handle_store devs dh) name = None
  \/ dh_name dh = name /\ device_handle_find devs (dh_name dh) = None.
Proof.
  intros Hn. destruct (String.eqb_spec (dh_name dh) name) as [He|Hne].
  - right. split; [exact He|congruence].
  - left. rewrite device_handle_find_store_ne; assumption.
Qed.


Section RpcLemmas.

Variable E : clixon_env.

Lemma pull_device_name h now dh cbret :
  dh_name (snd (fst (pull_device E h now dh cbret))) = dh_name dh.
Proof.
  unfold pull_device.
  pose proof (device_send_sync_same E h dh (device_handle_socket_get dh)) as Hs.
  destruct (device_send_sync E h dh (device_handle_socket_get dh)) as [r d1].
  cbn [snd] in Hs. destruct Hs as (Hn & _).
  destruct (r <? 0); cbn; exact Hn.
Qed.

Lemma push_device_name h now dh cbret :
  dh_name (snd (fst (push_device E h now dh cbret))) = dh_name dh.
Proof.
  unfold push_device.
  destruct (dh_sync_xml dh); [|reflexivity].
  destruct (running_device_root h (dh_name dh)); [|reflexivity].
  destruct (dh_yspec dh); [|reflexivity].
  destruct (env_xml_diff E _ _ _) as [r [[dvec avec] chvec]].
  destruct (r <? 0); [reflexivity|].
  destruct (_ || _); [|reflexivity].
  pose proof (device_send_edit_config_diff_same E h dh dvec avec chvec) as Hs.
  destruct (device_send_edit_config_diff E h dh dvec avec chvec) as [r1 d1].
  cbn [snd] in Hs. destruct Hs as (Hn & _).
  destruct (r1 <? 0); cbn; exact Hn.
Qed.

Lemma device_sync_op_name h now push dh cbret :
  dh_name (snd (fst (device_sync_op E h now push dh cbret))) = dh_name dh.
Proof.
  unfold device_sync_op. destruct (push =? 1);
    [apply push_device_name|apply pull_device_name].
Qed.

(** The reply buffer after a push or pull: an rpc-error of the device when
    it failed (return 0), untouched otherwise. *)
Lemma device_sync_op_reply h now push dh cbret :
  let '(ret, _, cbret1) := device_sync_op E h now push dh cbret in
  (ret = 0 /\ exists msg,
      cbret1 = (cbret ++ [ReplyOperationFailed "application" msg])%list)
  \/ (ret <> 0 /\ cbret1 = cbret).
Proof.
  unfold device_sync_op. destruct (push =? 1).
  - unfold push_device, netconf_operation_failed.
    destruct (dh_sync_xml dh); [|left; eauto].
    destruct (running_device_root h (dh_name dh)); [|left; eauto].
    destruct (dh_yspec dh); [|left; eauto].
    destruct (env_xml_diff E _ _ _) as [r [[dvec avec] chvec]].
    destruct (r <? 0); [right; split; [discriminate|reflexivity]|].
    destruct (_ || _); [|right; split; [discriminate|reflexivity]].
    destruct (device_send_edit_config_diff E h dh dvec avec chvec) as [r1 d1].
    destruct (r1 <? 0); [right; split; [discriminate|reflexivity]|].
    cbn. right; split; [discriminate|reflexivity].
  - unfold pull_device.
    destruct (device_send_sync E h dh (device_handle_socket_get dh)) as [r d1].
    destruct (r <? 0); right; (split; [discriminate|reflexivity]).
Qed.

(** One turn of the loop of rpc_sync, in terms of [device_sync_op]. *)
Lemma rpc_sync_loop_cons h now pattern push xn rest devs cbret :
  rpc_sync_loop E h now pattern push (xn :: rest) devs cbret
  = match xml_find_body xn "devname" with
    | None => rpc_sync_loop E h now pattern push rest devs cbret
    | Some devname =>
        match device_handle_find devs devname with
        | None => rpc_sync_loop E h now pattern push rest devs cbret
        | Some dh =>
            if negb (conn_state_eqb (dh_conn_state dh) CS_OPEN) then
              rpc_sync_loop E h now pattern push rest devs cbret
            else if match pattern with
                    | Some p => negb (fnmatch p devname =? 0)
                    | None => false
                    end then
              rpc_sync_loop E h now pattern push rest devs cbret
            else
              let '(ret, dh, cbret) := device_sync_op E h now push dh cbret in
              let devs := device_handle_store devs dh in
              if ret <? 0 then (LoopError, devs, cbret)
              else if ret =? 0 then (LoopFail, devs, cbret)
              else rpc_sync_loop E h now pattern push rest devs cbret
        end
    end.
Proof. reflexivity. Qed.

Lemma rpc_sync_loop_skip h now pattern push xn rest devs cbret :
  rpc_sync_skips devs xn = true ->
  rpc_sync_loop E h now pattern push (xn :: rest) devs cbret
  = rpc_sync_loop E h now pattern push rest devs cbret.
Proof.
  unfold rpc_sync_skips. intros Hs. rewrite rpc_sync_loop_cons.
  destruct (xml_find_body xn "devname") as [devname|]; [|reflexivity].
  destruct (device_handle_find devs devname) as [dh|]; [|reflexivity].
  rewrite Hs. reflexivity.
Qed.

(** The loop over a configuration in two parts. *)
Lemma rpc_sync_loop_app h now pattern push pre post :
  forall devs cbret,
    rpc_sync_loop E h now pattern push (pre ++ post)%list devs cbret
    = match rpc_sync_loop E h now pattern push pre devs cbret with
      | (LoopEnd, devs1, cbret1) =>
          rpc_sync_loop E h now pattern push post devs1 cbret1
      | res => res
      end.
Proof.
  induction pre as [|xn rest IH]; intros devs cbret; [reflexivity|].
  rewrite <- app_comm_cons. rewrite !rpc_sync_loop_cons.
  destruct (xml_find_body xn "devname") as [devname|]; [|apply IH].
  destruct (device_handle_find devs devname) as [dh|]; [|apply IH].
  destruct (negb (conn_state_eqb (dh_conn_state dh) CS_OPEN)); [apply IH|].
  destruct (match pattern with Some p => _ | None => false end); [apply IH|].
  destruct (device_sync_op E h now push dh cbret) as [[ret dh1] cbret1].
  cbv zeta. destruct (ret <? 0); [reflexivity|].
  destruct (ret =? 0); [reflexivity|apply IH].
Qed.

(** What the loop leaves alone and what it replies. *)
Lemma rpc_sync_loop_frame h now pattern push vec :
  forall devs cbret ex devs1 cbret1,
    rpc_sync_loop E h now pattern push vec devs cbret = (ex, devs1, cbret1) ->
    (forall name, device_handle_find devs name = None ->
                  device_handle_find devs1 name = None)
    /\ (forall name dh, device_handle_find devs name = Some dh ->
                        dh_conn_state dh <> CS_OPEN ->
                        device_handle_find devs1 name = Some dh)
    /\ match ex with
       | LoopEnd => cbret1 = cbret
       | LoopFail => exists msg,
           cbret1 = (cbret ++ [ReplyOperationFailed "application" msg])%list
       | LoopError => True
       end.
Proof.
  induction vec as [|xn rest IH]; intros devs cbret ex devs1 cbret1.
  { cbn. intros Heq. injection Heq as <- <- <-. auto. }
  rewrite rpc_sync_loop_cons.
  destruct (xml_find_body xn "devname") as [devname|]; [|apply IH].
  destruct (device_handle_find devs devname) as [dh|] eqn:Hfind; [|apply IH].
  destruct (conn_state_eqb (dh_conn_state dh) CS_OPEN) eqn:Hopen;
    cbn [negb]; [|apply IH].
  destruct (match pattern with Some p => _ | None => false end); [apply IH|].
  pose proof (device_sync_op_name h now push dh cbret) as Hname.
  pose proof (device_sync_op_reply h now push dh cbret) as Hreply.
  destruct (device_sync_op E h now push dh cbret) as [[ret dh1] cbret2].
  cbn [fst snd] in Hname. cbv zeta.
  pose proof (device_handle_find_name _ _ _ Hfind) as Hn.
  assert (Hopen' : dh_conn_state dh = CS_OPEN).
  { destruct (dh_conn_state dh); try discriminate; reflexivity. }
  assert (Hnone : forall name, device_handle_find devs name = None ->
            device_handle_find (device_handle_store devs dh1) name = None).
  { intros name Hnm. rewrite device_handle_find_store_ne; [exact Hnm|].
    intros He. rewrite Hname, Hn in He. subst name. congruence. }
  assert (Hsome : forall name d, device_handle_find devs name = Some d ->
            dh_conn_state d <> CS_OPEN ->
            device_handle_find (device_handle_store devs dh1) name = Some d).
  { intros name d Hnm Hst. rewrite device_handle_find_store_ne; [exact Hnm|].
    intros He. rewrite Hname, Hn in He. subst name. congruence. }
  destruct (ret <? 0).
  { intros Heq. injection Heq as <- <- <-. auto. }
  destruct (Z.eqb_spec ret 0) as [Hz|Hnz].
  { intros Heq. injection Heq as <- <- <-.
    destruct Hreply as [(_ & msg & ->) | (Hr & _)]; [|contradiction].
    split; [exact Hnone|]. split; [exact Hsome|]. eauto. }
  intros Heq. destruct (IH _ _ _ _ _ Heq) as (H1 & H2 & H3).
  destruct Hreply as [(Hr & _) | (_ & ->)]; [contradiction|].
  split; [|split].
  - intros name Hnm. apply H1, Hnone, Hnm.
  - intros name d Hnm Hst. apply H2; [apply Hsome; assumption|exact Hst].
  - exact H3.
Qed.

Lemma rpc_sync_loop_all_skipped h now pattern push vec devs cbret :
  forallb (rpc_sync_skips devs) vec = true ->
  rpc_sync_loop E h now pattern push vec devs cbret = (LoopEnd, devs, cbret).
Proof.
  induction vec as [|xn rest IH]; [reflexivity|].
  cbn [forallb]. intros H. apply andb_prop in H. destruct H as (Hx & Hr).
  rewrite rpc_sync_loop_skip by exact Hx. apply IH, Hr.
Qed.

(** Writing back a driven device leaves the other handles alone. *)
Lemma device_handle_store_frame devs devname dh dh1 :
  device_handle_find devs devname = Some dh ->
  dh_conn_state dh = CS_OPEN ->
  dh_name dh1 = dh_name dh ->
  (forall name, device_handle_find devs name = None ->
                device_handle_find (device_handle_store devs dh1) name = None)
  /\ (forall name d, device_handle_find devs name = Some d ->
                     dh_conn_state d <> CS_OPEN ->
                     device_handle_find (device_handle_store devs dh1) name = Some d).
Proof.
  intros Hfind Hopen Hname.
  pose proof (device_handle_find_name _ _ _ Hfind) as Hn.
  split.
  - intros name Hnm. rewrite device_handle_find_store_ne; [exact Hnm|].
    intros He. rewrite Hname, Hn in He. subst name. congruence.
  - intros name d Hnm Hst. rewrite device_handle_find_store_ne; [exact Hnm|].
    intros He. rewrite Hname, Hn in He. subst name. congruence.
Qed.

(** An entry that is passed over stays passed over while other devices
    are driven. *)
Lemma rpc_sync_skips_mono devs devs1 :
  (forall name, device_handle_find devs name = None ->
                device_handle_find devs1 name = None) ->
  (forall name d, device_handle_find devs name = Some d ->
                  dh_conn_state d <> CS_OPEN ->
                  device_handle_find devs1 name = Some d) ->
  forall xn, rpc_sync_skips devs xn = true -> rpc_sync_skips devs1 xn = true.
Proof.
  intros Hnone Hsome xn. unfold rpc_sync_skips.
  destruct (xml_find_body xn "devname") as [devname|]; [|reflexivity].
  destruct (device_handle_find devs devname) as [d|] eqn:Hf.
  - intros Hst.
    assert (Hno : dh_conn_state d <> CS_OPEN).
    { intros Ho. rewrite Ho in Hst. discriminate. }
    rewrite (Hsome _ _ Hf Hno). exact Hst.
  - intros _. rewrite (Hnone _ Hf). reflexivity.
Qed.

(** The entries that are passed over play no part in the loop. *)
Lemma rpc_sync_loop_filter h now pattern push devs0 vec :
  forall devs cbret,
    (forall xn, rpc_sync_skips devs0 xn = true -> rpc_sync_skips devs xn = true) ->
    rpc_sync_loop E h now pattern push vec devs cbret
    = rpc_sync_loop E h now pattern push
        (filter (fun xn => negb (rpc_sync_skips devs0 xn)) vec) devs cbret.
Proof.
  induction vec as [|xn rest IH]; intros devs cbret Hmono; [reflexivity|].
  cbn [filter]. destruct (rpc_sync_skips devs0 xn) eqn:Hs0; cbn [negb].
  { rewrite rpc_sync_loop_skip by (apply Hmono, Hs0). apply IH, Hmono. }
  rewrite !rpc_sync_loop_cons.
  destruct (xml_find_body xn "devname") as [devname|]; [|apply IH, Hmono].
  destruct (device_handle_find devs devname) as [dh|] eqn:Hfind;
    [|apply IH, Hmono].
  destruct (conn_state_eqb (dh_conn_state dh) CS_OPEN) eqn:Hopen;
    cbn [negb]; [|apply IH, Hmono].
  destruct (match pattern with Some p => _ | None => false end);
    [apply IH, Hmono|].
  pose proof (device_sync_op_name h now push dh cbret) as Hname.
  destruct (device_sync_op E h now push dh cbret) as [[ret dh1] cbret2].
  cbn [fst snd] in Hname. cbv zeta.
  destruct (ret <? 0); [reflexivity|].
  destruct (ret =? 0); [reflexivity|].
  apply IH. intros x Hx.
  assert (Hopen' : dh_conn_state dh = CS_OPEN).
  { destruct (dh_conn_state dh); try discriminate; reflexivity. }
  destruct (device_handle_store_frame devs devname dh dh1 Hfind Hopen' Hname)
    as (Hnone & Hsome).
  eapply rpc_sync_skips_mono; [exact Hnone|exact Hsome|]. apply Hmono, Hx.
Qed.

(** How the loop ends: after the last entry with the reply untouched, or
    at the first device whose push or pull does not return 1. *)
Lemma rpc_sync_loop_exit h now pattern push vec :
  forall devs cbret ex devs1 cbret1,
    rpc_sync_loop E h now pattern push vec devs cbret = (ex, devs1, cbret1) ->
    match ex with
    | LoopEnd => cbret1 = cbret
    | _ =>
        exists pre xn post devs2 devname dh,
          vec = (pre ++ xn :: post)%list
          /\ rpc_sync_loop E h now pattern push pre devs cbret
             = (LoopEnd, devs2, cbret)
          /\ xml_find_body xn "devname" = Some devname
          /\ device_handle_find devs2 devname = Some dh
          /\ dh_conn_state dh = CS_OPEN
          /\ cbret1 = snd (device_sync_op E h now push dh cbret)
          /\ (ex = LoopFail -> fst (fst (device_sync_op E h now push dh cbret)) = 0)
          /\ (ex = LoopError -> fst (fst (device_sync_op E h now push dh cbret)) < 0)
    end.
Proof.
  induction vec as [|xn rest IH]; intros devs cbret ex devs1 cbret1.
  { cbn. intros Heq. injection Heq as <- <- <-. reflexivity. }
  assert (Hskip :
    (forall l, rpc_sync_loop E h now pattern push (xn :: l) devs cbret
               = rpc_sync_loop E h now pattern push l devs cbret) ->
    rpc_sync_loop E h now pattern push rest devs cbret = (ex, devs1, cbret1) ->
    match ex with
    | LoopEnd => cbret1 = cbret
    | _ =>
        exists pre x post devs2 devname dh,
          (xn :: rest)%list = (pre ++ x :: post)%list
          /\ rpc_sync_loop E h now pattern push pre devs cbret
             = (LoopEnd, devs2, cbret)
          /\ xml_find_body x "devname" = Some devname
          /\ device_handle_find devs2 devname = Some dh
          /\ dh_conn_state dh = CS_OPEN
          /\ cbret1 = snd (device_sync_op E h now push dh cbret)
          /\ (ex = LoopFail -> fst (fst (device_sync_op E h now push dh cbret)) = 0)
          /\ (ex = LoopError -> fst (fst (device_sync_op E h now push dh cbret)) < 0)
    end).
  { intros Hone Heq. specialize (IH _ _ _ _ _ Heq).
    destruct ex; [| |exact IH];
      destruct IH as (pre & x & post & devs2 & devname & dh & Hv & Hp & Hrest);
      exists (xn :: pre), x, post, devs2, devname, dh;
      (split; [rewrite Hv; reflexivity|]);
      (split; [|exact Hrest]);
      rewrite Hone; exact Hp. }
  rewrite rpc_sync_loop_cons.
  destruct (xml_find_body xn "devname") as [devname|] eqn:Hdev;
    [|apply Hskip; intros l; rewrite rpc_sync_loop_cons, Hdev; reflexivity].
  destruct (device_handle_find devs devname) as [dh|] eqn:Hfind;
    [|apply Hskip; intros l; rewrite rpc_sync_loop_cons, Hdev, Hfind;
      reflexivity].
  destruct (conn_state_eqb (dh_conn_state dh) CS_OPEN) eqn:Hopen; cbn [negb];
    [|apply Hskip; intros l; rewrite rpc_sync_loop_cons, Hdev, Hfind, Hopen;
      reflexivity].
  destruct (match pattern with Some p => _ | None => false end) eqn:Hpat;
    [apply Hskip; intros l; rewrite rpc_sync_loop_cons, Hdev, Hfind, Hopen, Hpat;
     reflexivity|].
  assert (Hopen' : dh_conn_state dh = CS_OPEN).
  { destruct (dh_conn_state dh); try discriminate; reflexivity. }
  pose proof (device_sync_op_reply h now push dh cbret) as Hreply.
  destruct (device_sync_op E h now push dh cbret) as [[ret dh1] cbret2] eqn:Hop.
  cbv zeta.
  destruct (Z.ltb_spec ret 0) as [Hneg|Hnn].
  { intros Heq. injection Heq as <- <- <-.
    exists [], xn, rest, devs, devname, dh. rewrite Hop. cbn [fst snd].
    repeat split; auto. discriminate. }
  destruct (Z.eqb_spec ret 0) as [Hz|Hnz].
  { intros Heq. injection Heq as <- <- <-.
    exists [], xn, rest, devs, devname, dh. rewrite Hop. cbn [fst snd].
    repeat split; auto. discriminate. }
  destruct Hreply as [(Hr & _) | (_ & ->)]; [contradiction|].
  intros Heq. specialize (IH _ _ _ _ _ Heq).
  destruct ex; [| |exact IH];
    destruct IH as (pre & x & post & devs2 & dn & d & Hv & Hp & Hrest);
    exists (xn :: pre), x, post, devs2, dn, d;
    (split; [rewrite Hv; reflexivity|]);
    (split; [|exact Hrest]);
    rewrite rpc_sync_loop_cons, Hdev, Hfind, Hopen, Hpat; cbn [negb];
    rewrite Hop; cbv zeta;
    (destruct (Z.ltb_spec ret 0); [lia|];
     destruct (Z.eqb_spec ret 0); [lia|exact Hp]).
Qed.

(** A pull does not return 0. *)
Lemma device_sync_op_pull h now push dh cbret :
  push <> 1 -> fst (fst (device_sync_op E h now push dh cbret)) <> 0.
Proof.
  intros Hp. unfold device_sync_op.
  destruct (Z.eqb_spec push 1); [contradiction|].
  unfold pull_device.
  destruct (device_send_sync E h dh (device_handle_socket_get dh)) as [r d1].
  destruct (r <? 0); cbn; discriminate.
Qed.






End RpcLemmas.

(** ** C7: a failing device in a multi-device sync *)




(** ** C8: the devname pattern *)

(** C8 (as the code has it). The pattern of the request is never read:
    rpc_sync and rpc_reconnect keep their pattern at NULL.  With the
    pattern a-star in the request, the open device b1, which the pattern
    does not match, is sent a get-config and put into DEVICE_SYNC, and the
    closed device b1 is connected.  A device that is configured under its
    key name only is not driven at all, whether the pattern matches it or
    not, because the loops look for a devname leaf in the configuration
    entry. *)
Theorem rpc_devname_pattern_ignored :
  fnmatch "a*" "a1" = 0
  /\ fnmatch "a*" "b1" = 1
  /\ (let res := rpc_sync_pull env_ok h_glob 200 devs_glob
                   (rpc_request "sync-pull" "a*") [] in
      option_map dh_conn_state (device_handle_find (snd (fst res)) "b1")
      = Some CS_DEVICE_SYNC
      /\ option_map dh_sent (device_handle_find (snd (fst res)) "b1")
         = Some [mkFrame NETCONF_SSH_EOM (OutGetConfig 3)]
      /\ snd res = [ReplyOk])
  /\ (let res := rpc_reconnect env_ok h_reconnect 200 [device_handle_new "b1"]
                   (rpc_request "reconnect" "a*") [] in
      option_map dh_conn_state (device_handle_find (snd (fst res)) "b1")
      = Some CS_CONNECTING)
  /\ (let devs := [dev_in_state "a1" CS_OPEN (Some synced_tree)] in
      rpc_sync_pull env_ok h_by_name 200 devs (rpc_request "sync-pull" "a*") []
      = (0, devs, [ReplyOk]))
  /\ (forall E h now devs xe1 xe2 cbret push,
         rpc_sync E h now devs xe1 cbret push
         = rpc_sync E h now devs xe2 cbret push).
Proof. repeat split; reflexivity. Qed.

(** ** C9: what is left of a closed connection *)

Lemma dev_timed_out_reachable : reachable env_ok dev_timed_out.
Proof.
  apply reach_step with (h := h0) (now := 160) (ev := EvTimeout)
                        (dh := dev_partial_hello); [|vm_compute; reflexivity].
  apply reach_step with (h := h0) (now := 110)
                        (ev := EvInput 5 (partial_input "<hello"))
                        (dh := dev_connecting "d1"); [|vm_compute; reflexivity].
  apply reach_step with (h := h0) (now := 100)
                        (ev := EvConnect None None (Some "10.0.0.1"))
                        (dh := device_handle_new "d1"); [|vm_compute; reflexivity].
  apply reach_new.
Qed.

(** C9. Whenever a device is CLOSED it has no registered descriptor, no
    pending timer and an empty frame buffer; and a close of the
    connection of a device, for whatever reason, leaves it so.  The
    descriptor and the timer are unregistered by device_close_connection
    itself; the frame buffer is emptied by device_handle_disconnect,
    which it calls and which is modelled from the specification. *)
Theorem device_closed_no_events E dh :
  reachable E dh ->
  (dh_conn_state dh = CS_CLOSED ->
   dh_fd_events dh = [] /\ dh_timers dh = [] /\ dh_frame_buf dh = "")
  /\ (forall msg,
         let dh1 := snd (device_close_connection dh msg) in
         dh_conn_state dh1 = CS_CLOSED
         /\ dh_fd_events dh1 = [] /\ dh_timers dh1 = []
         /\ dh_frame_buf dh1 = "").
Proof.
  intros Hreach. pose proof (reachable_device_inv _ _ Hreach) as Hinv.
  split.
  - intros Hc. pose proof (reachable_closed_frame_buf _ _ Hreach Hc) as Hb.
    unfold device_inv in Hinv. rewrite Hc in Hinv.
    destruct Hinv as (Ht & Hf & Hs). auto.
  - intros msg dh1.
    pose proof (device_close_connection_inv dh msg (device_inv_is_weak dh Hinv))
      as Hi.
    destruct (device_close_connection_fields dh msg)
      as (Hc & _ & _ & _ & _ & Hb & _).
    fold dh1 in Hi, Hc, Hb.
    unfold device_inv in Hi. rewrite Hc in Hi. destruct Hi as (Ht & Hf & _).
    repeat split; assumption.
Qed.

(** A device that had read part of a frame when its timeout expired. *)
Lemma device_closed_no_events_witness :
  dh_frame_buf dev_partial_hello = "<hello"
  /\ dh_conn_state dev_timed_out = CS_CLOSED
  /\ dh_fd_events dev_timed_out = []
  /\ dh_timers dev_timed_out = []
  /\ dh_frame_buf dev_timed_out = "".
Proof.
  split; [vm_compute; reflexivity|]. split; [vm_compute; reflexivity|].
  destruct (device_closed_no_events env_ok dev_timed_out
              dev_timed_out_reachable) as (H & _).
  apply H. vm_compute. reflexivity.
Defined.

(** ** C10: devices that are not open *)

(** C10. rpc_sync passes over the configured devices that have no
    device handle or are not OPEN.  (1) No handle is made for a name
    without one, and the handle of a device that is not OPEN is after the
    RPC what it was before: nothing was sent to it, and its state and its
    log message are unchanged.  (2) The entries passed over play no part
    in the result: the loop gives the same exit, the same device handles
    and the same reply as the loop over the other entries alone.  (3)
    The RPC returns 0 with an ok appended to the reply, unless a device
    that the loop found OPEN did not return 1: then the RPC returns 0
    with the rpc-error of that device as reply when its push returned 0,
    and -1 with the reply untouched when its push or pull returned an
    error.  (4) A pull never returns 0, so a sync-pull that returns 0
    replies ok.  (5) When every configured device is passed over, the
    RPC returns 0, leaves all handles alone and replies ok. *)
Theorem rpc_sync_skips_not_open E h now devs xe cbret push r devs1 cbret1 :
  rpc_sync E h now devs xe cbret push = (r, devs1, cbret1) ->
  (forall name, device_handle_find devs name = None ->
                device_handle_find devs1 name = None)
  /\ (forall name dh, device_handle_find devs name = Some dh ->
                      dh_conn_state dh <> CS_OPEN ->
                      device_handle_find devs1 name = Some dh)
  /\ rpc_sync_loop E h now None push (h_running h) devs cbret
     = rpc_sync_loop E h now None push
         (filter (fun xn => negb (rpc_sync_skips devs xn)) (h_running h))
         devs cbret
  /\ ((r = 0 /\ cbret1 = (cbret ++ [ReplyOk])%list)
      \/ exists pre xn post devs2 devname dh,
          h_running h = (pre ++ xn :: post)%list
          /\ rpc_sync_loop E h now None push pre devs cbret
             = (LoopEnd, devs2, cbret)
          /\ xml_find_body xn "devname" = Some devname
          /\ device_handle_find devs2 devname = Some dh
          /\ dh_conn_state dh = CS_OPEN
          /\ ((r = 0
               /\ fst (fst (device_sync_op E h now push dh cbret)) = 0
               /\ exists msg,
                   cbret1
                   = (cbret ++ [ReplyOperationFailed "application" msg])%list)
              \/ (r = -1
                  /\ fst (fst (device_sync_op E h now push dh cbret)) < 0
                  /\ cbret1 = cbret)))
  /\ (push <> 1 -> r = 0 -> cbret1 = (cbret ++ [ReplyOk])%list)
  /\ (forallb (rpc_sync_skips devs) (h_running h) = true ->
      r = 0 /\ devs1 = devs /\ cbret1 = (cbret ++ [ReplyOk])%list).
Proof.
  unfold rpc_sync. intros Heq.
  destruct (rpc_sync_loop E h now None push (h_running h) devs cbret)
    as [[ex devs2] cbret2] eqn:Hloop.
  destruct (rpc_sync_loop_frame E h now None push (h_running h) _ _ _ _ _ Hloop)
    as (H1 & H2 & H3).
  pose proof (rpc_sync_loop_exit E h now None push (h_running h) _ _ _ _ _ Hloop)
    as Hexit.
  assert (Hd : devs1 = devs2) by (destruct ex; injection Heq; auto).
  subst devs2. split; [exact H1|]. split; [exact H2|].
  split.
  { rewrite <- Hloop. apply rpc_sync_loop_filter. auto. }
  assert (Hres :
    (r = 0 /\ cbret1 = (cbret ++ [ReplyOk])%list)
    \/ exists pre xn post devs2 devname dh,
        h_running h = (pre ++ xn :: post)%list
        /\ rpc_sync_loop E h now None push pre devs cbret
           = (LoopEnd, devs2, cbret)
        /\ xml_find_body xn "devname" = Some devname
        /\ device_handle_find devs2 devname = Some dh
        /\ dh_conn_state dh = CS_OPEN
        /\ ((r = 0
             /\ fst (fst (device_sync_op E h now push dh cbret)) = 0
             /\ exists msg,
                 cbret1
                 = (cbret ++ [ReplyOperationFailed "application" msg])%list)
            \/ (r = -1
                /\ fst (fst (device_sync_op E h now push dh cbret)) < 0
                /\ cbret1 = cbret))).
  { destruct ex.
    - (* an error *)
      injection Heq as <- <-. right.
      destruct Hexit as (pre & xn & post & d2 & dn & dh & Hv & Hp & Hdn & Hf
                         & Ho & Hc & _ & Herr).
      exists pre, xn, post, d2, dn, dh. do 5 (split; [assumption|]).
      right. split; [reflexivity|]. split; [apply Herr; reflexivity|].
      pose proof (device_sync_op_reply E h now push dh cbret) as Hr.
      specialize (Herr eq_refl).
      destruct (device_sync_op E h now push dh cbret) as [[ret d1] c1].
      cbn [fst snd] in *. destruct Hr as [(Hz & _) | (_ & Hr)]; [lia|].
      congruence.
    - (* a device failed *)
      injection Heq as <- <-. right.
      destruct Hexit as (pre & xn & post & d2 & dn & dh & Hv & Hp & Hdn & Hf
                         & Ho & Hc & Hfail & _).
      exists pre, xn, post, d2, dn, dh. do 5 (split; [assumption|]).
      left. split; [reflexivity|]. split; [apply Hfail; reflexivity|].
      exact H3.
    - injection Heq as <- <-. left. rewrite Hexit. auto. }
  split; [exact Hres|]. split.
  - intros Hpull ->.
    destruct Hres as [(_ & Hok) | (pre & xn & post & d2 & dn & dh & _ & _ & _ & _
                                   & _ & [(_ & Hz & _) | (Hm & _)])].
    + exact Hok.
    + exfalso. revert Hz. apply device_sync_op_pull, Hpull.
    + discriminate Hm.
  - intros Hall.
    rewrite (rpc_sync_loop_all_skipped E h now None push _ devs cbret Hall) in Hloop.
    injection Hloop as <- <- <-. injection Heq as <- <-. auto.
Qed.

(** A sync-pull with d1 closed and d2 open: d1 is left alone, d2 is sent
    a get-config, and the reply is ok. *)
Lemma rpc_sync_skips_not_open_witness :
  let res := rpc_sync env_ok h_two_devices 200 devs_closed_open
               (rpc_request "sync-pull" "*") [] 0 in
  fst (fst res) = 0
  /\ snd res = [ReplyOk]
  /\ device_handle_find (snd (fst res)) "d1" = Some (device_handle_new "d1")
  /\ option_map dh_conn_state (device_handle_find (snd (fst res)) "d2")
     = Some CS_DEVICE_SYNC.
Proof.
  intros res.
  assert (Heq : rpc_sync env_ok h_two_devices 200 devs_closed_open
                  (rpc_request "sync-pull" "*") [] 0
                = (fst (fst res), snd (fst res), snd res))
    by (vm_compute; reflexivity).
  assert (Hr : fst (fst res) = 0) by (vm_compute; reflexivity).
  destruct (rpc_sync_skips_not_open _ _ _ _ _ _ _ _ _ _ Heq)
    as (_ & Hkeep & _ & _ & Hpull & _).
  split; [exact Hr|]. split; [apply Hpull; [discriminate|exact Hr]|].
  split; [|vm_compute; reflexivity].
  apply Hkeep; [vm_compute; reflexivity|discriminate].
Defined.

(** * Further properties of the code *)

(** ** The schema list *)

Lemma schema_check_location_netconf_spec xd :
  schema_check_location_netconf xd = 1
  <-> exists x, In x (xml_children xd) /\ xml_name x = "location"
                /\ xml_body x = Some "NETCONF".
Proof.
  unfold schema_check_location_netconf.
  destruct (existsb _ (xml_children xd)) eqn:Hex; split.
  - intros _. apply existsb_exists in Hex. destruct Hex as (x & Hin & Hx).
    apply andb_prop in Hx. destruct Hx as (Hn & Hb).
    exists x. split; [exact Hin|]. split.
    + symmetry. apply String.eqb_eq, Hn.
    + destruct (xml_body x) as [b|]; [|discriminate].
      cbn in Hb. apply String.eqb_eq in Hb. congruence.
  - reflexivity.
  - discriminate.
  - intros (x & Hin & Hn & Hb). exfalso.
    assert (Ht : existsb
              (fun x => String.eqb "location" (xml_name x)
                        && option_string_eqb (xml_body x) (Some "NETCONF"))
              (xml_children xd) = true).
    { apply existsb_exists. exists x. split; [exact Hin|].
      rewrite Hn, Hb. reflexivity. }
    congruence.
Qed.

(** X1. The yang library made of a schema list holds exactly the
    modules of the entries named schema that have an identifier, a
    version, a namespace and the format yang, and among whose children
    there is a location with body NETCONF; every other entry is left
    out. *)
Theorem schema_list2yang_library_spec xschemas m :
  In m (schema_list2yang_library xschemas)
  <-> exists x,
      In x xschemas
      /\ xml_name x = "schema"
      /\ xml_find_body x "identifier" = Some (m_name m)
      /\ xml_find_body x "version" = Some (m_revision m)
      /\ xml_find_body x "namespace" = Some (m_namespace m)
      /\ xml_find_body x "format" = Some "yang"
      /\ exists l, In l (xml_children x) /\ xml_name l = "location"
                   /\ xml_body l = Some "NETCONF".
Proof.
  induction xschemas as [|x rest IH]; cbn [schema_list2yang_library].
  { split; [intros []|intros (x & [] & _)]. }
  assert (Hrest :
    In m (schema_list2yang_library rest) ->
    exists x0, In x0 (x :: rest) /\ xml_name x0 = "schema"
      /\ xml_find_body x0 "identifier" = Some (m_name m)
      /\ xml_find_body x0 "version" = Some (m_revision m)
      /\ xml_find_body x0 "namespace" = Some (m_namespace m)
      /\ xml_find_body x0 "format" = Some "yang"
      /\ exists l, In l (xml_children x0) /\ xml_name l = "location"
                   /\ xml_body l = Some "NETCONF").
  { intros H. apply IH in H. destruct H as (x0 & Hin & H).
    exists x0. split; [right; exact Hin|exact H]. }
  destruct (String.eqb_spec (xml_name x) "schema") as [Hn|Hn]; cbn [negb].
  2:{ split; [exact Hrest|].
      intros (x0 & [<-|Hin] & Hs & H1 & H2 & H3 & H4 & H); [contradiction|].
      apply IH. exists x0. repeat split; auto. }
  destruct (xml_find_body x "identifier") as [i|] eqn:Hi.
  2:{ split; [exact Hrest|].
      intros (x0 & [<-|Hin] & Hs & H1 & H2 & H3 & H4 & H); [congruence|].
      apply IH. exists x0. repeat split; auto. }
  destruct (xml_find_body x "version") as [v|] eqn:Hv.
  2:{ split; [exact Hrest|].
      intros (x0 & [<-|Hin] & Hs & H1 & H2 & H3 & H4 & H); [congruence|].
      apply IH. exists x0. repeat split; auto. }
  destruct (xml_find_body x "namespace") as [ns|] eqn:Hns.
  2:{ split; [exact Hrest|].
      intros (x0 & [<-|Hin] & Hs & H1 & H2 & H3 & H4 & H); [congruence|].
      apply IH. exists x0. repeat split; auto. }
  destruct (xml_find_body x "format") as [f|] eqn:Hf.
  2:{ split; [exact Hrest|].
      intros (x0 & [<-|Hin] & Hs & H1 & H2 & H3 & H4 & H); [congruence|].
      apply IH. exists x0. repeat split; auto. }
  destruct (String.eqb_spec f "yang") as [Hy|Hy]; cbn [negb].
  2:{ split; [exact Hrest|].
      intros (x0 & [<-|Hin] & Hs & H1 & H2 & H3 & H4 & H); [congruence|].
      apply IH. exists x0. repeat split; auto. }
  destruct (Z.eqb_spec (schema_check_location_netconf x) 0) as [Hl|Hl].
  { split; [exact Hrest|].
    intros (x0 & [<-|Hin] & Hs & H1 & H2 & H3 & H4 & H).
    - apply schema_check_location_netconf_spec in H. congruence.
    - apply IH. exists x0. repeat split; auto. }
  assert (Hl1 : schema_check_location_netconf x = 1).
  { unfold schema_check_location_netconf in *. destruct (existsb _ _); congruence. }
  split.
  - intros [<-|H]; [|exact (Hrest H)].
    exists x. cbn. split; [left; reflexivity|]. subst f.
    repeat (split; [assumption|]).
    apply schema_check_location_netconf_spec, Hl1.
  - intros (x0 & [<-|Hin] & Hs & H1 & H2 & H3 & H4 & H).
    + left. destruct m as [mn mr mns]. cbn in *. congruence.
    + right. apply IH. exists x0. repeat split; auto.
Qed.

(** ** Requests and message-ids *)

Section RequestLemmas.

Variable E : clixon_env.

Lemma clicon_msg_send1_result dh s f :
  let '(r, dh1) := clicon_msg_send1 E dh s f in
  (r = 0 /\ dh_socket dh = Some s
   /\ dh1 = device_handle_sent_set dh (dh_sent dh ++ [f])%list)
  \/ (r = -1 /\ dh1 = dh).
Proof.
  unfold clicon_msg_send1.
  destruct (dh_socket dh) as [s1|]; [|right; auto].
  destruct (Z.eqb_spec s1 s); [|right; auto]. subst s1.
  destruct (env_msg_send1 E s f <? 0); [right; auto|left; auto].
Qed.

Lemma device_get_schema_sendit_request h dh s identifier version :
  let '(r, dh1) := device_get_schema_sendit E h dh s identifier version in
  request_sent dh s
    (mkFrame (h_netconf_framing h)
             (OutGetSchema (dh_msg_id dh) identifier version)) r dh1
  /\ same_conn dh dh1
  /\ dh_schema_name dh1 = dh_schema_name dh
  /\ dh_schema_rev dh1 = dh_schema_rev dh.
Proof.
  unfold device_get_schema_sendit, device_handle_msg_id_getinc, request_sent.
  match goal with |- context [clicon_msg_send1 E ?d ?s ?f] =>
    pose proof (clicon_msg_send1_result d s f) as H;
    destruct (clicon_msg_send1 E d s f) as [r d1] end.
  destruct H as [(-> & Hs & ->) | (-> & ->)]; cbn in *.
  - repeat split; auto.
  - repeat split; auto.
Qed.

Lemma device_send_get_schema_list_request h dh s :
  let '(r, dh1) := device_send_get_schema_list E h dh s in
  request_sent dh s
    (mkFrame (h_netconf_framing h) (OutGetSchemaList (dh_msg_id dh))) r dh1.
Proof.
  unfold device_send_get_schema_list, device_handle_msg_id_getinc, request_sent.
  match goal with |- context [clicon_msg_send1 E ?d ?s ?f] =>
    pose proof (clicon_msg_send1_result d s f) as H;
    destruct (clicon_msg_send1 E d s f) as [r d1] end.
  destruct H as [(-> & Hs & ->) | (-> & ->)]; cbn in *; auto.
Qed.

Lemma device_send_sync_request h dh s :
  let '(r, dh1) := device_send_sync E h dh s in
  request_sent dh (device_handle_socket_get dh)
    (mkFrame (h_netconf_framing h) (OutGetConfig (dh_msg_id dh))) r dh1.
Proof.
  unfold device_send_sync, device_handle_msg_id_getinc, request_sent.
  match goal with |- context [clicon_msg_send1 E ?d ?s ?f] =>
    pose proof (clicon_msg_send1_result d s f) as H;
    destruct (clicon_msg_send1 E d s f) as [r d1] end.
  destruct H as [(-> & Hs & ->) | (-> & ->)]; cbn in *; auto.
Qed.

(** X2. Each of the three requests of the state machine (the schema
    list, one schema, the configuration) uses up one message-id, also
    when the write fails; when it returns 0 exactly one frame was
    written, to the open socket, with the framing of the session and the
    message-id the handle had before; when it returns -1 nothing was
    written. *)
Theorem device_requests_message_id h dh s identifier version :
  request_sent dh s
    (mkFrame (h_netconf_framing h) (OutGetSchemaList (dh_msg_id dh)))
    (fst (device_send_get_schema_list E h dh s))
    (snd (device_send_get_schema_list E h dh s))
  /\ request_sent dh s
       (mkFrame (h_netconf_framing h)
                (OutGetSchema (dh_msg_id dh) identifier version))
       (fst (device_get_schema_sendit E h dh s identifier version))
       (snd (device_get_schema_sendit E h dh s identifier version))
  /\ request_sent dh (device_handle_socket_get dh)
       (mkFrame (h_netconf_framing h) (OutGetConfig (dh_msg_id dh)))
       (fst (device_send_sync E h dh s))
       (snd (device_send_sync E h dh s)).
Proof.
  pose proof (device_send_get_schema_list_request h dh s) as H1.
  pose proof (device_get_schema_sendit_request h dh s identifier version) as H2.
  pose proof (device_send_sync_request h dh s) as H3.
  destruct (device_send_get_schema_list E h dh s).
  destruct (device_get_schema_sendit E h dh s identifier version).
  destruct (device_send_sync E h dh s).
  cbn [fst snd]. destruct H2 as (H2 & _). auto.
Qed.

(** ** Asking for the next schema *)

Lemma device_send_get_schema_next_loop_spec h yspec s vec :
  forall i nr dh ret nr1 dh1,
    i <= nr ->
    device_send_get_schema_next_loop E h yspec s vec i nr dh = (ret, nr1, dh1) ->
    (ret = 0 /\ dh1 = dh
     /\ nr1 = Z.max nr (i + Z.of_nat (List.length vec))
     /\ (forall k m, nth_error vec k = Some m -> nr <= i + Z.of_nat k ->
                     schema_is_local E yspec m = true))
    \/ (ret = 1
        /\ exists k m,
            nth_error vec k = Some m
            /\ nr <= i + Z.of_nat k
            /\ nr1 = i + Z.of_nat k + 1
            /\ schema_is_local E yspec m = false
            /\ (forall j m1, nth_error vec j = Some m1 ->
                             nr <= i + Z.of_nat j -> (j < k)%nat ->
                             schema_is_local E yspec m1 = true)
            /\ dh_socket dh = Some s
            /\ dh_sent dh1
               = (dh_sent dh
                    ++ [mkFrame (h_netconf_framing h)
                                (OutGetSchema (dh_msg_id dh) (m_name m)
                                              (m_revision m))])%list
            /\ dh_schema_name dh1 = Some (m_name m)
            /\ dh_schema_rev dh1 = Some (m_revision m))
    \/ (ret = -1 /\ dh_sent dh1 = dh_sent dh).
Proof.
  induction vec as [|x rest IH]; intros i nr dh ret nr1 dh1 Hle;
    cbn [device_send_get_schema_next_loop].
  { intros Heq. injection Heq as <- <- <-. left.
    repeat split; [cbn; lia|]. intros [|k] m; discriminate. }
  destruct (Z.eqb_spec i nr) as [Hi|Hi]; cbn [negb].
  2:{ (* not yet at index nr *)
    intros Heq. apply IH in Heq; [|lia].
    destruct Heq as [(-> & -> & -> & Hall) | [(-> & k & m & Hk) | Herr]].
    - left. repeat split; [cbn [List.length]; lia|].
      intros [|k] m Hn Hge; [cbn in Hge; lia|].
      apply (Hall k m Hn). lia.
    - right; left. split; [reflexivity|].
      destruct Hk as (Hn & Hge & -> & Hloc & Hbefore & Hrest).
      exists (S k), m. split; [exact Hn|]. split; [lia|]. split; [lia|].
      split; [exact Hloc|]. split; [|exact Hrest].
      intros [|j] m1 Hj Hgej Hlt; [cbn in Hgej; lia|].
      apply (Hbefore j m1 Hj); lia.
    - right; right. exact Herr. }
  subst i.
  assert (Hlocal :
    schema_is_local E yspec x = true ->
    device_send_get_schema_next_loop E h yspec s rest (nr + 1) (nr + 1) dh
    = (ret, nr1, dh1) ->
    (ret = 0 /\ dh1 = dh
     /\ nr1 = Z.max nr (nr + Z.of_nat (List.length (x :: rest)))
     /\ (forall k m, nth_error (x :: rest) k = Some m -> nr <= nr + Z.of_nat k ->
                     schema_is_local E yspec m = true))
    \/ (ret = 1
        /\ exists k m,
            nth_error (x :: rest) k = Some m
            /\ nr <= nr + Z.of_nat k
            /\ nr1 = nr + Z.of_nat k + 1
            /\ schema_is_local E yspec m = false
            /\ (forall j m1, nth_error (x :: rest) j = Some m1 ->
                             nr <= nr + Z.of_nat j -> (j < k)%nat ->
                             schema_is_local E yspec m1 = true)
            /\ dh_socket dh = Some s
            /\ dh_sent dh1
               = (dh_sent dh
                    ++ [mkFrame (h_netconf_framing h)
                                (OutGetSchema (dh_msg_id dh) (m_name m)
                                              (m_revision m))])%list
            /\ dh_schema_name dh1 = Some (m_name m)
            /\ dh_schema_rev dh1 = Some (m_revision m))
    \/ (ret = -1 /\ dh_sent dh1 = dh_sent dh)).
  { intros Hx Heq. apply IH in Heq; [|lia].
    destruct Heq as [(-> & -> & -> & Hall) | [(-> & k & m & Hk) | Herr]].
    - left. repeat split; [cbn [List.length]; lia|].
      intros [|k] m Hn Hge.
      + cbn in Hn. injection Hn as <-. exact Hx.
      + apply (Hall k m Hn). lia.
    - right; left. split; [reflexivity|].
      destruct Hk as (Hn & Hge & -> & Hloc & Hbefore & Hrest).
      exists (S k), m. split; [exact Hn|]. split; [lia|]. split; [lia|].
      split; [exact Hloc|]. split; [|exact Hrest].
      intros [|j] m1 Hj Hgej Hlt.
      + cbn in Hj. injection Hj as <-. exact Hx.
      + apply (Hbefore j m1 Hj); lia.
    - right; right. exact Herr. }
  unfold schema_is_local in Hlocal.
  destruct (yang_find_module_by_name_revision yspec (m_name x) (m_revision x))
    eqn:Hloaded.
  { apply Hlocal. reflexivity. }
  destruct (Z.ltb_spec (env_yang_file_find_match E (m_name x) (m_revision x)) 0).
  { intros Heq. injection Heq as <- <- <-. right; right. auto. }
  destruct (Z.eqb_spec (env_yang_file_find_match E (m_name x) (m_revision x)) 1)
    as [Hf|Hf].
  { apply Hlocal. cbn. reflexivity. }
  pose proof (device_get_schema_sendit_request h dh s (m_name x) (m_revision x))
    as Hreq.
  destruct (device_get_schema_sendit E h dh s (m_name x) (m_revision x))
    as [r d1].
  destruct Hreq as ((_ & [(-> & Hsock & Hsent) | (-> & Hsent)]) & _ & _).
  - change (0 <? 0) with false. cbv iota.
    intros Heq. injection Heq as <- <- <-. right; left.
    split; [reflexivity|]. exists 0%nat, x.
    split; [reflexivity|]. split; [cbn; lia|]. split; [cbn; lia|].
    split.
    { unfold schema_is_local. rewrite Hloaded. cbn.
      destruct (Z.eqb_spec (env_yang_file_find_match E (m_name x) (m_revision x)) 1);
        [contradiction|reflexivity]. }
    split; [intros j m1 _ _ Hlt; lia|].
    split; [exact Hsock|]. cbn. auto.
  - change (-1 <? 0) with true. cbv iota.
    intros Heq. injection Heq as <- <- <-. right; right. auto.
Qed.

(** X3. device_send_get_schema_next with index nr asks for the first
    module at or after nr that is neither parsed into the yang spec nor
    a local file: it returns 1, has written exactly the get-schema
    request of that module, remembers its name and revision, and the new
    index is one past it.  When every module from nr on is parsed or
    local it returns 0 and leaves the handle as it is, the index at the
    end of the list; modules before the one asked for get no request. *)
Theorem device_send_get_schema_next_spec h dh s nr yspec vec ret nr1 dh1 :
  dh_yspec dh = Some yspec ->
  dh_yang_lib dh = Some vec ->
  0 <= nr ->
  device_send_get_schema_next E h dh s nr = (ret, nr1, dh1) ->
  (ret = 0 /\ dh1 = dh
   /\ nr1 = Z.max nr (Z.of_nat (List.length vec))
   /\ (forall k m, nth_error vec k = Some m -> nr <= Z.of_nat k ->
                   schema_is_local E yspec m = true))
  \/ (ret = 1
      /\ exists k m,
          nth_error vec k = Some m
          /\ nr <= Z.of_nat k
          /\ nr1 = Z.of_nat k + 1
          /\ schema_is_local E yspec m = false
          /\ (forall j m1, nth_error vec j = Some m1 ->
                           nr <= Z.of_nat j -> (j < k)%nat ->
                           schema_is_local E yspec m1 = true)
          /\ dh_sent dh1
             = (dh_sent dh
                  ++ [mkFrame (h_netconf_framing h)
                              (OutGetSchema (dh_msg_id dh) (m_name m)
                                            (m_revision m))])%list
          /\ dh_schema_name dh1 = Some (m_name m)
          /\ dh_schema_rev dh1 = Some (m_revision m))
  \/ (ret = -1 /\ dh_sent dh1 = dh_sent dh).
Proof.
  intros Hy Hl Hnr. unfold device_send_get_schema_next. rewrite Hy, Hl.
  intros Heq.
  apply device_send_get_schema_next_loop_spec in Heq; [|exact Hnr].
  destruct Heq as [(-> & -> & -> & Hall) | [(-> & k & m & Hk) | Herr]].
  - left. repeat split; auto.
  - right; left. split; [reflexivity|].
    destruct Hk as (Hn & Hge & -> & Hloc & Hbefore & _ & Hrest).
    exists k, m. repeat split; auto; apply Hrest.
  - right; right. exact Herr.
Qed.

End RequestLemmas.

(** With the second of three modules a local file and index 1: the third
    module is asked for. *)
Lemma device_send_get_schema_next_spec_witness :
  let res := device_send_get_schema_next env_one_local h0 dev_schema_one 5 1 in
  fst (fst res) = 1
  /\ snd (fst res) = 3
  /\ dh_sent (snd res)
     = [mkFrame NETCONF_SSH_EOM (OutGetSchema 3 "acme-sys" "2024-02-02")]
  /\ dh_schema_name (snd res) = Some "acme-sys".
Proof.
  intros res.
  assert (Heq : device_send_get_schema_next env_one_local h0 dev_schema_one 5 1
                = (fst (fst res), snd (fst res), snd res))
    by (vm_compute; reflexivity).
  assert (Hy : dh_yspec dev_schema_one = Some yspec_new) by reflexivity.
  assert (Hl : dh_yang_lib dev_schema_one = Some example_modules) by reflexivity.
  assert (Hnr : 0 <= 1) by lia.
  destruct (device_send_get_schema_next_spec env_one_local h0 dev_schema_one 5 1
              yspec_new example_modules _ _ _ Hy Hl Hnr Heq)
    as [(H0 & _) | [(H1 & k & m & Hk) | (H2 & _)]].
  - exfalso. revert H0. vm_compute. discriminate.
  - split; [exact H1|]. repeat split; vm_compute; reflexivity.
  - exfalso. revert H2. vm_compute. discriminate.
Defined.

(** ** Names of connection states *)

(** X4. The names of csmap and the connection states that have one
    translate back and forth: device_state_str2int finds the state of a
    name exactly when device_state_int2str gives that name for the
    state.  The states without a name are PUSH_EDIT, PUSH_VALIDATE and
    PUSH_COMMIT. *)
Theorem device_state_str2int_int2str st s :
  (device_state_int2str st = Some s <-> device_state_str2int s = Some st)
  /\ (device_state_int2str st = None
      <-> st = CS_PUSH_EDIT \/ st = CS_PUSH_VALIDATE \/ st = CS_PUSH_COMMIT).
Proof.
  split; split.
  - destruct st; cbn; intros H; try discriminate; injection H as <-; reflexivity.
  - unfold device_state_str2int, csmap, clicon_str2int.
    repeat match goal with
           | |- context [String.eqb ?a s] =>
               destruct (String.eqb_spec a s) as [<-|?];
               [intros H; injection H as <-; reflexivity|]
           end.
    discriminate.
  - destruct st; cbn; intros H; try discriminate; auto.
  - intros [-> | [-> | ->]]; reflexivity.
Qed.

(** ** The hello exchange *)

Section HelloLemmas.

Variable E : clixon_env.

(** X5. A device in CONNECTING receives a hello in the base namespace
    whose capabilities hold a base capability and the monitoring
    capability, and the writes to its socket succeed: the handler
    stores the capabilities, sets the framing option to 0, answers with
    its own hello of version 0, resets the yang spec, sends the request
    for the schema list with the message-id of the handle, enters
    SCHEMA_LIST and replaces a pending timer by a fresh one.  The log
    message is left as it was. *)
Theorem device_state_handler_hello h now dh s xmsg xcaps :
  dh_conn_state dh = CS_CONNECTING ->
  xml_name xmsg = "hello" ->
  namespace_is_base (xml2ns xmsg (xml_prefix xmsg)) = true ->
  xml_find_type xmsg "capabilities" = Some xcaps ->
  existsb (String.eqb NETCONF_BASE_CAPABILITY_1_1)
          (xml_bodies (xml_children xcaps))
  || existsb (String.eqb NETCONF_BASE_CAPABILITY_1_0)
             (xml_bodies (xml_children xcaps)) = true ->
  existsb (String.eqb NETCONF_MONITORING_NAMESPACE)
          (xml_bodies (xml_children xcaps)) = true ->
  dh_socket dh = Some s ->
  (forall f, 0 <= env_msg_send1 E s f) ->
  exists dh1,
    device_state_handler E h now dh s xmsg
    = (0, clicon_option_netconf_framing_set h 0, dh1)
    /\ dh_conn_state dh1 = CS_SCHEMA_LIST
    /\ dh_sent dh1
       = (dh_sent dh
            ++ [mkFrame NETCONF_SSH_EOM (OutHello 0);
                mkFrame 0 (OutGetSchemaList (dh_msg_id dh))])%list
    /\ dh_msg_id dh1 = (dh_msg_id dh + 1) mod 2 ^ 64
    /\ dh_capabilities dh1 = Some (xml_bodies (xml_children xcaps))
    /\ dh_yspec dh1 = Some yspec_new
    /\ (forall t, dh_timers dh = [t] ->
                  dh_timers dh1 = [now + device_timeout_secs h])
    /\ dh_logmsg dh1 = dh_logmsg dh.
Proof.
  intros Hcs Hname Hns Hcaps Hbase Hmon Hsock Hsend.
  unfold device_state_handler. rewrite Hcs.
  unfold device_state_recv_hello. rewrite Hname, Hns, Hcaps.
  cbn [String.eqb Ascii.eqb Bool.eqb negb].
  unfold device_handle_capabilities_find.
  cbn [dh_capabilities device_handle_capabilities_set].
  set (caps := xml_bodies (xml_children xcaps)) in *.
  assert (Hversion :
    (if existsb (String.eqb NETCONF_BASE_CAPABILITY_1_1) caps then Some 1
     else if existsb (String.eqb NETCONF_BASE_CAPABILITY_1_0) caps then Some 0
          else None) <> None).
  { destruct (existsb (String.eqb NETCONF_BASE_CAPABILITY_1_1) caps);
      [discriminate|].
    destruct (existsb (String.eqb NETCONF_BASE_CAPABILITY_1_0) caps);
      [discriminate|]. discriminate Hbase. }
  destruct (if existsb (String.eqb NETCONF_BASE_CAPABILITY_1_1) caps then Some 1
            else if existsb (String.eqb NETCONF_BASE_CAPABILITY_1_0) caps
                 then Some 0 else None) as [v|]; [|congruence].
  unfold clixon_client_hello, clicon_msg_send1.
  cbn [dh_socket device_handle_capabilities_set]. rewrite Hsock, Z.eqb_refl.
  destruct (Z.ltb_spec (env_msg_send1 E s (mkFrame NETCONF_SSH_EOM (OutHello 0))) 0)
    as [Hlt|_]; [specialize (Hsend (mkFrame NETCONF_SSH_EOM (OutHello 0))); lia|].
  change (0 <? 0) with false. change (1 <? 0) with false.
  change (1 =? 0) with false. cbv iota.
  cbn [dh_capabilities device_handle_yspec_set device_handle_sent_set
       device_handle_capabilities_set].
  rewrite Hmon. cbn [negb].
  unfold device_send_get_schema_list, device_handle_msg_id_getinc, clicon_msg_send1.
  cbn [dh_socket device_handle_msg_id_set device_handle_yspec_set
       device_handle_sent_set device_handle_capabilities_set dh_msg_id
       h_netconf_framing clicon_option_netconf_framing_set].
  rewrite Hsock, Z.eqb_refl.
  destruct (Z.ltb_spec (env_msg_send1 E s (mkFrame 0 (OutGetSchemaList (dh_msg_id dh)))) 0)
    as [Hlt|_];
    [specialize (Hsend (mkFrame 0 (OutGetSchemaList (dh_msg_id dh)))); lia|].
  change (0 <? 0) with false. cbv iota.
  match goal with
  | |- context [device_state_timeout_restart ?hh ?nn ?dd] =>
      set (d3 := dd);
      assert (Hrestart :
        forall t, dh_timers dh = [t] ->
          dh_timers (snd (device_state_timeout_restart hh nn d3))
          = [now + device_timeout_secs h]);
      [intros t Ht;
       rewrite (device_state_timeout_restart_one hh nn d3 t) by exact Ht;
       reflexivity|];
      assert (Hkeep :
        let d4 := snd (device_state_timeout_restart hh nn d3) in
        dh_conn_state d4 = CS_SCHEMA_LIST
        /\ dh_sent d4 = dh_sent d3 /\ dh_msg_id d4 = dh_msg_id d3
        /\ dh_capabilities d4 = dh_capabilities d3
        /\ dh_yspec d4 = dh_yspec d3 /\ dh_logmsg d4 = dh_logmsg d3);
      [unfold device_state_timeout_restart, device_state_timeout_unregister,
         clixon_event_unreg_timeout;
       destruct (dh_timers d3); cbn; repeat split|];
      destruct (device_state_timeout_restart hh nn d3) as [r4 d4]
  end.
  cbn [snd] in Hrestart, Hkeep.
  destruct Hkeep as (K1 & K2 & K3 & K4 & K5 & K6).
  exists d4. split; [reflexivity|]. split; [exact K1|].
  split; [rewrite K2; subst d3; cbn; rewrite <- app_assoc; reflexivity|].
  split; [rewrite K3; reflexivity|]. split; [rewrite K4; reflexivity|].
  split; [rewrite K5; reflexivity|]. split; [exact Hrestart|].
  rewrite K6. reflexivity.
Qed.

(** X6. A hello whose capabilities hold neither base:1.0 nor base:1.1
    closes the session with the log message "No base netconf capability
    found": the handler returns 0, nothing is written to the device and
    the framing option is not touched. *)
Theorem device_state_handler_hello_no_base h now dh s xmsg xcaps :
  dh_conn_state dh = CS_CONNECTING ->
  xml_name xmsg = "hello" ->
  namespace_is_base (xml2ns xmsg (xml_prefix xmsg)) = true ->
  xml_find_type xmsg "capabilities" = Some xcaps ->
  existsb (String.eqb NETCONF_BASE_CAPABILITY_1_1)
          (xml_bodies (xml_children xcaps)) = false ->
  existsb (String.eqb NETCONF_BASE_CAPABILITY_1_0)
          (xml_bodies (xml_children xcaps)) = false ->
  exists dh1,
    device_state_handler E h now dh s xmsg = (0, h, dh1)
    /\ dh_conn_state dh1 = CS_CLOSED
    /\ dh_logmsg dh1 = Some "No base netconf capability found"
    /\ dh_sent dh1 = dh_sent dh
    /\ dh_socket dh1 = None.
Proof.
  intros Hcs Hname Hns Hcaps H11 H10.
  unfold device_state_handler. rewrite Hcs.
  unfold device_state_recv_hello. rewrite Hname, Hns, Hcaps.
  cbn [String.eqb Ascii.eqb Bool.eqb negb].
  unfold device_handle_capabilities_find.
  cbn [dh_capabilities device_handle_capabilities_set].
  rewrite H11, H10.
  match goal with
  | |- context [device_close_connection ?d ?m] =>
      rewrite (device_close_connection_eq d m);
      destruct (device_close_connection_fields d m)
        as (F1 & F2 & F3 & _);
      assert (F4 : dh_sent (snd (device_close_connection d m)) = dh_sent dh)
        by (unfold device_close_connection, device_state_timeout_unregister,
              clixon_event_unreg_timeout; cbn;
            destruct (dh_timers dh); reflexivity);
      set (dc := snd (device_close_connection d m)) in *
  end.
  cbv beta iota. change (0 <? 0) with false. change (0 =? 0) with true.
  cbv iota. exists dc. repeat split; assumption.
Qed.

(** X7. A hello with a base capability but without the monitoring
    capability is answered with the controller's hello and then closes
    the session with the log message "No method to get schemas"; no
    request for schemas is sent. *)
Theorem device_state_handler_hello_no_monitoring h now dh s xmsg xcaps :
  dh_conn_state dh = CS_CONNECTING ->
  xml_name xmsg = "hello" ->
  namespace_is_base (xml2ns xmsg (xml_prefix xmsg)) = true ->
  xml_find_type xmsg "capabilities" = Some xcaps ->
  existsb (String.eqb NETCONF_BASE_CAPABILITY_1_1)
          (xml_bodies (xml_children xcaps))
  || existsb (String.eqb NETCONF_BASE_CAPABILITY_1_0)
             (xml_bodies (xml_children xcaps)) = true ->
  existsb (String.eqb NETCONF_MONITORING_NAMESPACE)
          (xml_bodies (xml_children xcaps)) = false ->
  dh_socket dh = Some s ->
  (forall f, 0 <= env_msg_send1 E s f) ->
  exists dh1,
    device_state_handler E h now dh s xmsg
    = (0, clicon_option_netconf_framing_set h 0, dh1)
    /\ dh_conn_state dh1 = CS_CLOSED
    /\ dh_logmsg dh1 = Some "No method to get schemas"
    /\ dh_sent dh1 = (dh_sent dh ++ [mkFrame NETCONF_SSH_EOM (OutHello 0)])%list
    /\ dh_msg_id dh1 = dh_msg_id dh.
Proof.
  intros Hcs Hname Hns Hcaps Hbase Hmon Hsock Hsend.
  unfold device_state_handler. rewrite Hcs.
  unfold device_state_recv_hello. rewrite Hname, Hns, Hcaps.
  cbn [String.eqb Ascii.eqb Bool.eqb negb].
  unfold device_handle_capabilities_find.
  cbn [dh_capabilities device_handle_capabilities_set].
  set (caps := xml_bodies (xml_children xcaps)) in *.
  assert (Hversion :
    (if existsb (String.eqb NETCONF_BASE_CAPABILITY_1_1) caps then Some 1
     else if existsb (String.eqb NETCONF_BASE_CAPABILITY_1_0) caps then Some 0
          else None) <> None).
  { destruct (existsb (String.eqb NETCONF_BASE_CAPABILITY_1_1) caps);
      [discriminate|].
    destruct (existsb (String.eqb NETCONF_BASE_CAPABILITY_1_0) caps);
      [discriminate|]. discriminate Hbase. }
  destruct (if existsb (String.eqb NETCONF_BASE_CAPABILITY_1_1) caps then Some 1
            else if existsb (String.eqb NETCONF_BASE_CAPABILITY_1_0) caps
                 then Some 0 else None) as [v|]; [|congruence].
  unfold clixon_client_hello, clicon_msg_send1.
  cbn [dh_socket device_handle_capabilities_set]. rewrite Hsock, Z.eqb_refl.
  destruct (Z.ltb_spec (env_msg_send1 E s (mkFrame NETCONF_SSH_EOM (OutHello 0))) 0)
    as [Hlt|_]; [specialize (Hsend (mkFrame NETCONF_SSH_EOM (OutHello 0))); lia|].
  change (0 <? 0) with false. change (1 <? 0) with false.
  change (1 =? 0) with false. cbv iota.
  cbn [dh_capabilities device_handle_yspec_set device_handle_sent_set
       device_handle_capabilities_set].
  rewrite Hmon. cbn [negb].
  match goal with
  | |- context [device_close_connection ?d ?m] =>
      rewrite (device_close_connection_eq d m);
      destruct (device_close_connection_fields d m)
        as (F1 & F2 & F3 & _);
      assert (F4 : dh_sent (snd (device_close_connection d m))
                   = (dh_sent dh ++ [mkFrame NETCONF_SSH_EOM (OutHello 0)])%list)
        by (unfold device_close_connection, device_state_timeout_unregister,
              clixon_event_unreg_timeout; cbn;
            destruct (dh_timers dh); reflexivity);
      assert (F5 : dh_msg_id (snd (device_close_connection d m)) = dh_msg_id dh)
        by (unfold device_close_connection, device_state_timeout_unregister,
              clixon_event_unreg_timeout; cbn;
            destruct (dh_timers dh); reflexivity);
      set (dc := snd (device_close_connection d m)) in *
  end.
  cbv beta iota. exists dc. repeat split; assumption.
Qed.

End HelloLemmas.

Lemma device_state_handler_hello_witness :
  exists dh1,
    device_state_handler env_ok h0 200 (dev_connecting "d1") 5 hello_full
    = (0, clicon_option_netconf_framing_set h0 0, dh1)
    /\ dh_conn_state dh1 = CS_SCHEMA_LIST
    /\ dh_sent dh1 = [mkFrame NETCONF_SSH_EOM (OutHello 0);
                      mkFrame 0 (OutGetSchemaList 1)]
    /\ dh_timers dh1 = [260].
Proof.
  destruct (device_state_handler_hello env_ok h0 200 (dev_connecting "d1") 5
              hello_full
              (capabilities_of [NETCONF_BASE_CAPABILITY_1_0;
                                NETCONF_BASE_CAPABILITY_1_1;
                                NETCONF_MONITORING_NAMESPACE]))
    as (dh1 & Heq & Hcs & Hsent & _ & _ & _ & Htimer & _);
    try (vm_compute; reflexivity).
  - intros f. cbn. lia.
  - exists dh1. split; [exact Heq|]. split; [exact Hcs|].
    split; [exact Hsent|]. apply (Htimer 160). vm_compute. reflexivity.
Defined.

Lemma device_state_handler_hello_no_base_witness :
  exists dh1,
    device_state_handler env_ok h0 200 (dev_connecting "d1") 5 hello_no_base
    = (0, h0, dh1)
    /\ dh_conn_state dh1 = CS_CLOSED
    /\ dh_logmsg dh1 = Some "No base netconf capability found"
    /\ dh_sent dh1 = [].
Proof.
  destruct (device_state_handler_hello_no_base env_ok h0 200
              (dev_connecting "d1") 5 hello_no_base
              (capabilities_of [NETCONF_MONITORING_NAMESPACE]))
    as (dh1 & Heq & Hcs & Hlog & Hsent & _);
    try (vm_compute; reflexivity).
  exists dh1. repeat split; assumption.
Defined.

Lemma device_state_handler_hello_no_monitoring_witness :
  exists dh1,
    device_state_handler env_ok h0 200 (dev_connecting "d1") 5
                         hello_no_monitoring
    = (0, clicon_option_netconf_framing_set h0 0, dh1)
    /\ dh_conn_state dh1 = CS_CLOSED
    /\ dh_logmsg dh1 = Some "No method to get schemas"
    /\ dh_sent dh1 = [mkFrame NETCONF_SSH_EOM (OutHello 0)].
Proof.
  destruct (device_state_handler_hello_no_monitoring env_ok h0 200
              (dev_connecting "d1") 5 hello_no_monitoring
              (capabilities_of [NETCONF_BASE_CAPABILITY_1_0]))
    as (dh1 & Heq & Hcs & Hlog & Hsent & _);
    try (vm_compute; reflexivity).
  - intros f. cbn. lia.
  - exists dh1. repeat split; assumption.
Defined.


Lemma string_append_nil_r (a : string) : a ++ "" = a.
Proof. induction a; cbn; congruence. Qed.

Lemma string_append_assoc (a b c : string) : (a ++ b) ++ c = a ++ (b ++ c).
Proof. induction a; cbn; congruence. Qed.

Section EventLemmas.

Variable E : clixon_env.

(** X8. No event of a device handle (a connect, input from the
    device, a timeout, a pull or a push) changes its name or its synced
    tree: the state machine and the sync RPCs only read the snapshot. *)
Theorem device_step_keeps_snapshot h now ev dh dh1 :
  device_step E h now ev dh = Some dh1 ->
  dh_name dh1 = dh_name dh /\ dh_sync_xml dh1 = dh_sync_xml dh.
Proof.
  destruct ev as [yf user addr|s inp| |cbret|cbret]; cbn [device_step].
  - intros H. injection H as <-.
    match goal with
    | |- context [connect_netconf_ssh E h now ?d user addr] =>
        destruct (connect_netconf_ssh_keeps E h now d user addr) as (H1 & H2 & _);
        rewrite H1, H2
    end.
    destruct yf; cbn; auto.
  - destruct (existsb _ _); [|discriminate]. intros H. injection H as <-.
    apply (device_input_cb_name_sync E).
  - destruct (dh_timers dh) as [|t rest]; [discriminate|].
    destruct (t <=? now); [|discriminate]. intros H. injection H as <-.
    destruct (device_close_connection_fields
                (device_handle_timers_set dh rest)
                (Some "Timeout waiting for remote peer"))
      as (_ & _ & _ & _ & _ & _ & Hx & Hn).
    split; [exact Hn|exact Hx].
  - destruct (conn_state_eqb _ _); [|discriminate]. intros H. injection H as <-.
    destruct (pull_device_keeps E h now dh cbret) as (H1 & H2 & _). auto.
  - destruct (conn_state_eqb _ _); [|discriminate]. intros H. injection H as <-.
    destruct (push_device_keeps E h now dh cbret) as (H1 & H2 & _). auto.
Qed.

(** X9. When device_input_cb has read a frame to its end and the frame
    was parsed (netconf_input_frame did not return an error), the frame
    buffer is empty afterwards, whatever the state machine made of the
    message; a frame that is not valid also closes the session with the
    log message "Invalid frame". *)
Theorem device_input_cb_complete_frame h now dh s inp :
  0 <= in_ret inp ->
  in_eof inp = false ->
  in_eom inp = true ->
  0 <= in_frame_ret inp ->
  let dh1 := snd (device_input_cb E h now dh s inp) in
  dh_frame_buf dh1 = ""
  /\ (in_frame_ret inp = 0 ->
      dh_conn_state dh1 = CS_CLOSED /\ dh_logmsg dh1 = Some "Invalid frame").
Proof.
  intros Hret Heof Heom Hframe. unfold device_input_cb.
  destruct (Z.ltb_spec (in_ret inp) 0); [lia|]. rewrite Heof, Heom.
  cbn [negb]. destruct (Z.ltb_spec (in_frame_ret inp) 0); [lia|].
  destruct (Z.eqb_spec (in_frame_ret inp) 0) as [Hz|Hnz].
  { destr_close. cbn [snd].
    destruct (closed_from_facts _ _ _ Hc) as (H1 & H2 & H3 & _).
    cbn in H3. auto. }
  destruct (in_frame_msg inp) as [xmsg|]; [|cbn; split; [reflexivity|lia]].
  match goal with
  | |- context [device_state_handler E h now ?d s xmsg] =>
      pose proof (device_state_handler_keeps E h now d s xmsg) as Hk;
      destruct (device_state_handler E h now d s xmsg) as [[r h1] d3]
  end.
  cbn [snd] in Hk. destruct Hk as (_ & _ & H3). cbn in H3.
  assert (H4 : dh_frame_buf d3 = "") by (destruct H3; assumption).
  destruct (r <? 0); cbn; (split; [exact H4|lia]).
Qed.

(** X10. When the peer closes the stream, device_input_cb closes the
    session with the log message "Remote socket endpoint closed" and
    returns 0, in every connection state and whether or not a frame was
    complete; the clixon handle is not touched and nothing is written to
    the device. *)
Theorem device_input_cb_eof h now dh s inp :
  0 <= in_ret inp ->
  in_eof inp = true ->
  exists dh1,
    device_input_cb E h now dh s inp = (0, h, dh1)
    /\ dh_conn_state dh1 = CS_CLOSED
    /\ dh_logmsg dh1 = Some "Remote socket endpoint closed"
    /\ dh_socket dh1 = None
    /\ dh_sent dh1 = dh_sent dh.
Proof.
  intros Hret Heof. unfold device_input_cb.
  destruct (Z.ltb_spec (in_ret inp) 0); [lia|]. rewrite Heof.
  match goal with
  | |- context [device_close_connection ?d ?m] =>
      destruct (device_close_connection_fields d m) as (H1 & H2 & H3 & _);
      assert (H4 : dh_sent (snd (device_close_connection d m)) = dh_sent dh)
  end.
  { unfold device_close_connection, device_state_timeout_unregister,
      clixon_event_unreg_timeout.
    cbn. destruct (dh_timers dh); reflexivity. }
  destr_close. exists dc. auto.
Qed.

(** X11. Reads that bring neither the end of a frame nor the end of the
    stream only accumulate: after any number of them the frame buffer is
    what it was followed by the bytes of each read in order, and the
    connection state, the timers, the registered descriptors, the log
    message and the frames written are unchanged. *)
Theorem device_input_seq_partial h now s inps :
  forall dh,
    forallb input_is_partial inps = true ->
    let dh1 := device_input_seq E h now dh s inps in
    dh_frame_buf dh1
    = dh_frame_buf dh ++ fold_right String.append "" (map in_data inps)
    /\ same_loop dh dh1
    /\ dh_logmsg dh1 = dh_logmsg dh
    /\ dh_sent dh1 = dh_sent dh.
Proof.
  induction inps as [|inp rest IH]; intros dh Hall.
  { cbn. unfold same_loop. repeat split; auto.
    symmetry. apply string_append_nil_r. }
  cbn [forallb] in Hall. apply andb_prop in Hall. destruct Hall as (Hp & Hrest).
  unfold input_is_partial in Hp.
  apply andb_prop in Hp. destruct Hp as (Hp & Heom).
  apply andb_prop in Hp. destruct Hp as (Hret & Heof).
  cbn [device_input_seq]. unfold device_input_cb.
  destruct (Z.ltb_spec (in_ret inp) 0); [apply Z.leb_le in Hret; lia|].
  destruct (in_eof inp); [discriminate|]. rewrite Heom.
  match goal with
  | |- context [device_input_seq E h now ?d s rest] =>
      destruct (IH d Hrest) as (Hb & Hl & Hlog & Hsent);
      set (d1 := d) in *
  end.
  cbv zeta. rewrite Hb, Hlog, Hsent. subst d1.
  cbn [dh_frame_buf dh_logmsg dh_sent device_handle_frame_size_set
       device_handle_frame_state_set device_handle_frame_buf_set
       map fold_right].
  split; [apply string_append_assoc|]. split; [|auto].
  destruct Hl as (L1 & L2 & L3 & L4). cbn in *. unfold same_loop. auto.
Qed.

End EventLemmas.

Lemma device_step_keeps_snapshot_witness :
  exists dh1,
    device_step env_ok h_two_devices 200 (EvPush []) dev_with_diff = Some dh1
    /\ dh_conn_state dh1 = CS_PUSH_EDIT
    /\ dh_name dh1 = "d2"
    /\ dh_sync_xml dh1 = Some synced_tree.
Proof.
  eexists. split; [vm_compute; reflexivity|]. split; [reflexivity|].
  apply (device_step_keeps_snapshot env_ok h_two_devices 200 (EvPush [])
           dev_with_diff).
  vm_compute. reflexivity.
Defined.

Lemma device_input_cb_complete_frame_witness :
  let dh1 := snd (device_input_cb env_ok h0 120 dev_partial_hello 5
                    (complete_input " xmlns=..." hello_full)) in
  dh_frame_buf dev_partial_hello = "<hello"
  /\ dh_frame_buf dh1 = ""
  /\ dh_conn_state dh1 = CS_SCHEMA_LIST.
Proof.
  intros dh1. split; [vm_compute; reflexivity|]. split.
  - apply (device_input_cb_complete_frame env_ok h0 120 dev_partial_hello 5
             (complete_input " xmlns=..." hello_full));
      cbn; try reflexivity; lia.
  - vm_compute. reflexivity.
Defined.

Lemma device_input_cb_eof_witness :
  exists dh1,
    device_input_cb env_ok h0 120 dev_partial_hello 5 eof_input = (0, h0, dh1)
    /\ dh_conn_state dh1 = CS_CLOSED
    /\ dh_logmsg dh1 = Some "Remote socket endpoint closed"
    /\ dh_sent dh1 = [].
Proof.
  destruct (device_input_cb_eof env_ok h0 120 dev_partial_hello 5 eof_input)
    as (dh1 & Heq & Hcs & Hlog & _ & Hsent).
  - cbn. lia.
  - reflexivity.
  - exists dh1. split; [exact Heq|]. split; [exact Hcs|]. split; [exact Hlog|].
    rewrite Hsent. vm_compute. reflexivity.
Defined.

Lemma device_input_seq_partial_witness :
  let dh1 := device_input_seq env_ok h0 120 (dev_connecting "d1") 5
               [partial_input "<hel"; partial_input "lo xmlns="] in
  dh_frame_buf dh1 = "<hello xmlns="
  /\ dh_conn_state dh1 = CS_CONNECTING
  /\ dh_timers dh1 = [160].
Proof.
  intros dh1.
  destruct (device_input_seq_partial env_ok h0 120 5
              [partial_input "<hel"; partial_input "lo xmlns="]
              (dev_connecting "d1") eq_refl)
    as (Hbuf & (Hcs & Ht & _) & _).
  fold dh1 in Hbuf, Hcs, Ht.
  split; [rewrite Hbuf; vm_compute; reflexivity|].
  split; [rewrite Hcs; vm_compute; reflexivity|].
  rewrite Ht. vm_compute. reflexivity.
Defined.

(** ** Connecting and reconnecting *)

Lemma device_handle_find_app devs l name dh :
  device_handle_find devs name = Some dh ->
  device_handle_find (devs ++ l) name = Some dh.
Proof.
  unfold device_handle_find. induction devs as [|d rest IH]; cbn; [discriminate|].
  destruct (String.eqb (dh_name d) name); [auto|exact IH].
Qed.

Section ConnectLemmas.

Variable E : clixon_env.

Lemma controller_connect_untouched_aux h now devs xn :
  forall n dh,
    device_handle_find devs n = Some dh ->
    dh_conn_state dh <> CS_CLOSED \/ xml_find_body xn "name" <> Some n ->
    device_handle_find (snd (controller_connect E h now devs xn)) n = Some dh.
Proof.
  intros n dh Hfind Hcase. unfold controller_connect.
  destruct (xml_find_body xn "name") as [name|] eqn:Hname; [|exact Hfind].
  destruct (xml_find_body xn "enabled") as [enablestr|]; [|exact Hfind].
  destruct (String.eqb enablestr "false").
  { cbn [snd]. apply device_handle_find_app, Hfind. }
  destruct (device_handle_find devs name) as [d|] eqn:Hd.
  - destruct (conn_state_eqb (dh_conn_state d) CS_CLOSED) eqn:Hclosed;
      cbn [negb]; [|exact Hfind].
    destruct (negb (option_string_eqb _ _)); [exact Hfind|].
    destruct (xml_find_body xn "addr") as [addr|]; [|exact Hfind].
    match goal with
    | |- context [connect_netconf_ssh E h now ?d0 ?u ?a] =>
        pose proof (connect_netconf_ssh_keeps E h now d0 u a) as (Hn & _);
        assert (Hn0 : dh_name d0 = name)
          by (destruct (xml_find_body xn "yang-config"); cbn;
              apply (device_handle_find_name _ _ _ Hd));
        destruct (connect_netconf_ssh E h now d0 u a) as [[r h1] d1]
    end.
    cbn [snd] in Hn.
    assert (Hne : dh_name d1 <> n).
    { rewrite Hn, Hn0. intros ->.
      destruct Hcase as [Hc|Hc]; [|congruence].
      rewrite Hd in Hfind. injection Hfind as <-.
      destruct (dh_conn_state d); try discriminate. congruence. }
    destruct (r <? 0); cbn [snd];
      rewrite device_handle_find_store_ne by exact Hne; exact Hfind.
  - cbn [negb].
    destruct (negb (option_string_eqb _ _)); [exact Hfind|].
    destruct (xml_find_body xn "addr") as [addr|]; [|exact Hfind].
    match goal with
    | |- context [connect_netconf_ssh E h now ?d0 ?u ?a] =>
        pose proof (connect_netconf_ssh_keeps E h now d0 u a) as (Hn & _);
        assert (Hn0 : dh_name d0 = name)
          by (destruct (xml_find_body xn "yang-config"); reflexivity);
        destruct (connect_netconf_ssh E h now d0 u a) as [[r h1] d1]
    end.
    cbn [snd] in Hn.
    assert (Hne : dh_name d1 <> n).
    { rewrite Hn, Hn0. intros ->. congruence. }
    destruct (r <? 0); cbn [snd];
      rewrite device_handle_find_store_ne by exact Hne;
      apply device_handle_find_app, Hfind.
Qed.

(** X12. controller_connect, given the configuration of one device,
    leaves every other device handle as it is, and also the handle of
    that device when its connection is not CLOSED: a device with a
    session is never connected a second time. *)
Theorem controller_connect_untouched h now devs xn r h1 devs1 n dh :
  controller_connect E h now devs xn = (r, h1, devs1) ->
  device_handle_find devs n = Some dh ->
  dh_conn_state dh <> CS_CLOSED \/ xml_find_body xn "name" <> Some n ->
  device_handle_find devs1 n = Some dh.
Proof.
  intros Heq Hfind Hcase.
  pose proof (controller_connect_untouched_aux h now devs xn n dh Hfind Hcase) as H.
  rewrite Heq in H. exact H.
Qed.

(** X13. controller_connect does nothing at all (it returns 0 with the
    clixon handle and the device handles as they were) for a
    configuration entry without a name or without the leaf enabled; and
    for a device that is not configured down, when the conn-type is not
    NETCONF_SSH or there is no address.  For a device that is configured
    down (enabled false) it makes a new handle with the log message
    "Configured down" and connects nothing. *)
Theorem controller_connect_ignored h now devs xn :
  (xml_find_body xn "name" = None \/ xml_find_body xn "enabled" = None ->
   controller_connect E h now devs xn = (0, h, devs))
  /\ (forall name enablestr,
         xml_find_body xn "name" = Some name ->
         xml_find_body xn "enabled" = Some enablestr ->
         enablestr <> "false" ->
         xml_find_body xn "conn-type" <> Some "NETCONF_SSH"
         \/ xml_find_body xn "addr" = None ->
         controller_connect E h now devs xn = (0, h, devs))
  /\ (forall name,
         xml_find_body xn "name" = Some name ->
         xml_find_body xn "enabled" = Some "false" ->
         controller_connect E h now devs xn
         = (0, h, (devs ++ [device_handle_logmsg_set (device_handle_new name)
                                (Some "Configured down")])%list)).
Proof.
  split; [|split].
  - unfold controller_connect. intros [-> | Hen]; [reflexivity|].
    destruct (xml_find_body xn "name"); [|reflexivity]. rewrite Hen. reflexivity.
  - intros name enablestr Hname Hen Hne Hcase. unfold controller_connect.
    rewrite Hname, Hen.
    destruct (String.eqb_spec enablestr "false"); [contradiction|].
    destruct (match device_handle_find devs name with
              | Some d => negb (conn_state_eqb (dh_conn_state d) CS_CLOSED)
              | None => false
              end); [reflexivity|].
    destruct (xml_find_body xn "conn-type") as [ct|] eqn:Hct; cbn [option_string_eqb].
    + destruct (String.eqb_spec ct "NETCONF_SSH") as [->|Hn]; cbn [negb];
        [|reflexivity].
      destruct Hcase as [Hc| ->]; [congruence|reflexivity].
    + reflexivity.
  - intros name Hname Hen. unfold controller_connect. rewrite Hname, Hen.
    reflexivity.
Qed.

Lemma rpc_reconnect_loop_untouched now pattern vec :
  forall h devs n dh,
    device_handle_find devs n = Some dh ->
    dh_conn_state dh <> CS_CLOSED ->
    device_handle_find
      (snd (rpc_reconnect_loop E h now pattern vec devs)) n = Some dh.
Proof.
  induction vec as [|xn rest IH]; intros h devs n dh Hfind Hst;
    cbn [rpc_reconnect_loop]; [exact Hfind|].
  destruct (xml_find_body xn "devname") as [devname|]; [|apply IH; assumption].
  destruct (device_handle_find devs devname) as [d|]; [|apply IH; assumption].
  destruct (negb (conn_state_eqb (dh_conn_state d) CS_CLOSED));
    [apply IH; assumption|].
  destruct (match pattern with Some p => _ | None => false end);
    [apply IH; assumption|].
  pose proof (controller_connect_untouched_aux h now devs xn n dh Hfind
                (or_introl Hst)) as Hc.
  destruct (controller_connect E h now devs xn) as [[r h1] devs1].
  cbn [snd] in Hc. destruct (r <? 0); [exact Hc|].
  apply IH; assumption.
Qed.

(** X14. rpc_reconnect leaves the handle of every device that is not
    CLOSED as it was.  It returns 0 with an ok appended to the reply, or
    -1 with the reply untouched. *)
Theorem rpc_reconnect_not_closed h now devs xe cbret r h1 devs1 cbret1 :
  rpc_reconnect E h now devs xe cbret = (r, h1, devs1, cbret1) ->
  (forall n dh, device_handle_find devs n = Some dh ->
                dh_conn_state dh <> CS_CLOSED ->
                device_handle_find devs1 n = Some dh)
  /\ ((r = 0 /\ cbret1 = (cbret ++ [ReplyOk])%list)
      \/ (r = -1 /\ cbret1 = cbret)).
Proof.
  unfold rpc_reconnect. intros Heq.
  pose proof (rpc_reconnect_loop_untouched now None (h_running h) h devs) as Hu.
  destruct (rpc_reconnect_loop E h now None (h_running h) devs)
    as [[r0 h2] devs2].
  cbn [snd] in Hu.
  destruct (r0 <? 0); injection Heq as <- <- <- <-; (split; [exact Hu|auto]).
Qed.

End ConnectLemmas.

Lemma controller_connect_untouched_witness :
  let devs := [dev_in_state "b1" CS_OPEN None] in
  device_handle_find
    (snd (controller_connect env_ok h0 200 devs (reconnect_entry "b1" "NETCONF_SSH")))
    "b1"
  = Some (dev_in_state "b1" CS_OPEN None).
Proof.
  intros devs.
  apply (controller_connect_untouched env_ok h0 200 devs
           (reconnect_entry "b1" "NETCONF_SSH")
           (fst (fst (controller_connect env_ok h0 200 devs
                        (reconnect_entry "b1" "NETCONF_SSH"))))
           (snd (fst (controller_connect env_ok h0 200 devs
                        (reconnect_entry "b1" "NETCONF_SSH"))))
           _ "b1" (dev_in_state "b1" CS_OPEN None)).
  - vm_compute. reflexivity.
  - reflexivity.
  - left. discriminate.
Defined.

Lemma controller_connect_ignored_witness :
  controller_connect env_ok h0 200 [] (reconnect_entry "b1" "RESTCONF")
  = (0, h0, [])
  /\ controller_connect env_ok h0 200 []
       (device_entry "b2" [xml_leaf "enabled" "false"] [])
     = (0, h0, [device_handle_logmsg_set (device_handle_new "b2")
                  (Some "Configured down")]).
Proof.
  destruct (controller_connect_ignored env_ok h0 200 []
              (reconnect_entry "b1" "RESTCONF")) as (_ & H2 & _).
  destruct (controller_connect_ignored env_ok h0 200 []
              (device_entry "b2" [xml_leaf "enabled" "false"] []))
    as (_ & _ & H3).
  split.
  - apply (H2 "b1" "true"); try reflexivity; [discriminate|left; discriminate].
  - apply (H3 "b2"); reflexivity.
Defined.

Lemma rpc_reconnect_not_closed_witness :
  let devs := [dev_in_state "b1" CS_OPEN None] in
  let res := rpc_reconnect env_ok h_reconnect 200 devs
               (rpc_request "reconnect" "*") [] in
  device_handle_find (snd (fst res)) "b1" = Some (dev_in_state "b1" CS_OPEN None)
  /\ snd res = [ReplyOk].
Proof.
  intros devs res.
  destruct (rpc_reconnect_not_closed env_ok h_reconnect 200 devs
              (rpc_request "reconnect" "*") []
              (fst (fst (fst res))) (snd (fst (fst res))) (snd (fst res)) (snd res))
    as (Hu & Hr).
  - vm_compute. reflexivity.
  - split; [apply Hu; [reflexivity|discriminate]|].
    destruct Hr as [(_ & ->) | (Hr & _)]; [reflexivity|].
    exfalso. revert Hr. vm_compute. discriminate.
Defined.

(** ** Push and pull of one device *)

Section SyncLemmas.

Variable E : clixon_env.

(** X15. A push that fails (push_device returns 0) leaves the device
    handle exactly as it was and appends one rpc-error of type
    application to the reply: "No synced device tree" when the device
    has no synced tree, else "Device not configured" when running has
    no root for the device, else "No YANGs in device" when the device
    has no yang spec.  These are the only ways for it to return 0. *)
Theorem push_device_failure h now dh cbret dh1 cbret1 :
  push_device E h now dh cbret = (0, dh1, cbret1) ->
  dh1 = dh
  /\ ((dh_sync_xml dh = None
       /\ cbret1 = (cbret ++ [ReplyOperationFailed "application"
                                "No synced device tree"])%list)
      \/ (dh_sync_xml dh <> None
          /\ running_device_root h (dh_name dh) = None
          /\ cbret1 = (cbret ++ [ReplyOperationFailed "application"
                                   "Device not configured"])%list)
      \/ (dh_sync_xml dh <> None
          /\ running_device_root h (dh_name dh) <> None
          /\ dh_yspec dh = None
          /\ cbret1 = (cbret ++ [ReplyOperationFailed "application"
                                   "No YANGs in device"])%list)).
Proof.
  unfold push_device, netconf_operation_failed.
  destruct (dh_sync_xml dh) as [x0|].
  2:{ intros H. injection H as <- <-. auto. }
  destruct (running_device_root h (dh_name dh)) as [x1|].
  2:{ intros H. injection H as <- <-. split; [reflexivity|].
      right; left. repeat split; auto. discriminate. }
  destruct (dh_yspec dh) as [yspec|].
  2:{ intros H. injection H as <- <-. split; [reflexivity|].
      right; right. repeat split; auto; discriminate. }
  destruct (env_xml_diff E yspec x0 x1) as [r [[dvec avec] chvec]].
  destruct (r <? 0); [discriminate|].
  destruct (_ || _); [|discriminate].
  destruct (device_send_edit_config_diff E h dh dvec avec chvec) as [r1 d1].
  destruct (r1 <? 0); [discriminate|]. cbn. discriminate.
Qed.

(** X16. pull_device never touches the reply and never returns 0.  When
    it returns 1 it has written one get-config with the message-id of
    the handle to the open socket, registered a timer at the time of day
    plus the device timeout beside the ones pending, and set the state
    to DEVICE_SYNC; when it returns -1 nothing was written and the state
    and the timers are what they were. *)
Theorem pull_device_result h now dh cbret r dh1 cbret1 :
  pull_device E h now dh cbret = (r, dh1, cbret1) ->
  cbret1 = cbret
  /\ ((r = 1
       /\ dh_conn_state dh1 = CS_DEVICE_SYNC
       /\ dh_socket dh <> None
       /\ dh_sent dh1
          = (dh_sent dh ++ [mkFrame (h_netconf_framing h)
                                    (OutGetConfig (dh_msg_id dh))])%list
       /\ dh_timers dh1
          = clixon_event_reg_timeout (now + device_timeout_secs h) (dh_timers dh))
      \/ (r = -1
          /\ dh_conn_state dh1 = dh_conn_state dh
          /\ dh_sent dh1 = dh_sent dh
          /\ dh_timers dh1 = dh_timers dh)).
Proof.
  unfold pull_device.
  pose proof (device_send_sync_request E h dh (device_handle_socket_get dh)) as Hreq.
  pose proof (device_send_sync_same E h dh (device_handle_socket_get dh)) as Hsame.
  destruct (device_send_sync E h dh (device_handle_socket_get dh)) as [r0 d1].
  cbn [snd] in Hsame. destruct Hsame as (_ & Hc & Ht & _).
  destruct Hreq as (_ & [(-> & Hs & Hsent) | (-> & Hsent)]).
  - change (0 <? 0) with false. cbv iota.
    intros H. injection H as <- <- <-. split; [reflexivity|]. left.
    cbn. rewrite Ht. repeat split; auto. congruence.
  - change (-1 <? 0) with true. cbv iota.
    intros H. injection H as <- <- <-. split; [reflexivity|]. right. auto.
Qed.

(** X17. connect_netconf_ssh returns 0 or -1.  It returns 0 exactly for
    a handle in state CLOSED with an address for which the connect gives
    a socket: the handle then has that socket, its descriptor is
    registered, a timer is registered at the time of day plus the device
    timeout, the state is CONNECTING and the framing option is the
    end-of-message sentinel.  Otherwise (no address, a handle that is not
    CLOSED, or a failed connect) it returns -1 and changes nothing. *)
Theorem connect_netconf_ssh_result h now dh user addr r h1 dh1 :
  connect_netconf_ssh E h now dh user addr = (r, h1, dh1) ->
  (r = 0
   /\ exists a,
       addr = Some a
       /\ dh_conn_state dh = CS_CLOSED
       /\ let s := env_connect E
                     (match user with Some u => u ++ "@" | None => "" end ++ a) in
          0 <= s
          /\ dh_socket dh1 = Some s
          /\ dh_fd_events dh1 = s :: dh_fd_events dh
          /\ dh_timers dh1
             = clixon_event_reg_timeout (now + device_timeout_secs h)
                                        (dh_timers dh)
          /\ dh_conn_state dh1 = CS_CONNECTING
          /\ h_netconf_framing h1 = NETCONF_SSH_EOM)
  \/ (r = -1 /\ h1 = h /\ dh1 = dh
      /\ (addr = None \/ dh_conn_state dh <> CS_CLOSED
          \/ exists a, addr = Some a
                       /\ env_connect E
                            (match user with Some u => u ++ "@" | None => "" end
                             ++ a) < 0)).
Proof.
  unfold connect_netconf_ssh.
  destruct addr as [a|].
  2:{ intros H. injection H as <- <- <-. right. auto. }
  destruct (dh_conn_state dh) eqn:Hcs; cbn [conn_state_eqb negb];
    try (intros H; injection H as <- <- <-; right;
         repeat split; auto; right; left; discriminate).
  destruct (Z.ltb_spec (env_connect E
              (match user with Some u => u ++ "@" | None => "" end ++ a)) 0)
    as [Hlt|Hge].
  { intros H. injection H as <- <- <-. right. repeat split; auto.
    right; right. eauto. }
  intros H. injection H as <- <- <-. left. split; [reflexivity|].
  exists a. split; [reflexivity|]. split; [reflexivity|].
  cbn. repeat split; auto.
Qed.

Lemma device_state_recv_config_ok h now dh xmsg rpcname cs h1 dh1 :
  device_state_recv_config E h now dh xmsg rpcname cs = (1, h1, dh1) ->
  h_running h1 = h_candidate h1
  /\ 0 < env_candidate_commit E (h_candidate h1) (commit_validate_level dh)
  /\ dh1 = device_handle_sync_time_set dh (Some now).
Proof.
  unfold device_state_recv_config.
  destruct (negb (rpcname =? "rpc-reply")%string); [destr_close; discriminate|].
  destruct (negb (namespace_is_base _)); [destr_close; discriminate|].
  destruct (device_state_mount_point_get E (dh_name dh) <? 0); [discriminate|].
  destruct (env_yang_schema_mount_point E (dh_name dh) <? 0); [discriminate|].
  destruct (env_yang_schema_mount_point E (dh_name dh) =? 0); [discriminate|].
  destruct (dh_yspec dh) as [yspec1|]; [|destr_close; discriminate].
  destruct (env_xml_bind_yang E yspec1 _) as [ret errmsg].
  destruct (ret <? 0); [discriminate|].
  destruct (ret =? 0); [destr_close; discriminate|].
  destruct (env_xmldb_put E _ _ _) as [ret1 db].
  destruct (ret1 <? 0); [discriminate|].
  destruct (Z.eqb_spec ret1 0) as [Hz|Hnz].
  { subst ret1. cbv zeta. cbv iota. change (0 <? 0) with false.
    change (0 =? 0) with true. cbv iota. destr_close. discriminate. }
  cbn [h_candidate xmldb_candidate_set].
  destruct (Z.ltb_spec (env_candidate_commit E db (commit_validate_level dh)) 0);
    [discriminate|].
  destruct (Z.eqb_spec (env_candidate_commit E db (commit_validate_level dh)) 0).
  { destr_close. discriminate. }
  intros Heq. injection Heq as <- <-. cbn. repeat split. lia.
Qed.

(** X18. When the handler takes a device from DEVICE_SYNC to OPEN, it
    returns 0, the pulled configuration was committed (candidate_commit
    returned a positive code), the sync time of the device is the time
    of day, its first timer is cancelled, and nothing was written to the
    device; the log message is left as it was, it is not cleared. *)
Theorem device_state_handler_sync_open h now dh s xmsg r h1 dh1 :
  dh_conn_state dh = CS_DEVICE_SYNC ->
  device_state_handler E h now dh s xmsg = (r, h1, dh1) ->
  dh_conn_state dh1 = CS_OPEN ->
  r = 0
  /\ 0 < env_candidate_commit E (h_candidate h1) (commit_validate_level dh)
  /\ dh_sync_time dh1 = Some now
  /\ dh_timers dh1 = tl (dh_timers dh)
  /\ dh_sent dh1 = dh_sent dh
  /\ dh_logmsg dh1 = dh_logmsg dh.
Proof.
  intros Hcs. unfold device_state_handler. rewrite Hcs.
  pose proof (device_state_recv_config_outcome E h now dh xmsg (xml_name xmsg)
                CS_DEVICE_SYNC) as Ho.
  pose proof (device_state_recv_config_ok h now dh xmsg (xml_name xmsg)
                CS_DEVICE_SYNC) as Hok.
  destruct (device_state_recv_config E h now dh xmsg (xml_name xmsg) CS_DEVICE_SYNC)
    as [[r0 h2] d1].
  destruct Ho as ([(-> & msg & Hc) | ([-> | ->] & Hsame)] & _).
  - change (0 <? 0) with false. change (0 =? 0) with true. cbv iota.
    intros H. injection H as <- <- <-.
    destruct (closed_from_facts _ _ _ Hc) as (Hc1 & _). congruence.
  - change (1 <? 0) with false. change (1 =? 0) with false. cbv iota.
    destruct (Hok h2 d1 eq_refl) as (Hrun & Hcommit & ->).
    unfold device_state_timeout_unregister, clixon_event_unreg_timeout.
    cbn [dh_timers device_handle_conn_state_set device_handle_sync_time_set].
    destruct (dh_timers dh) as [|t rest] eqn:Ht; cbn;
      intros H; injection H as <- <- <-; cbn; rewrite ?Ht; repeat split; auto.
  - change (-1 <? 0) with true. cbv iota.
    intros H. injection H as <- <- <-.
    destruct Hsame as (_ & Hc1 & _). congruence.
Qed.

End SyncLemmas.

Lemma push_device_failure_witness :
  push_device env_ok h_two_devices 200 dev_no_sync []
  = (0, dev_no_sync,
     [ReplyOperationFailed "application" "No synced device tree"]).
Proof.
  destruct (push_device_failure env_ok h_two_devices 200 dev_no_sync []
              (snd (fst (push_device env_ok h_two_devices 200 dev_no_sync [])))
              (snd (push_device env_ok h_two_devices 200 dev_no_sync [])))
    as (Hd & Hcases).
  - vm_compute. reflexivity.
  - vm_compute. reflexivity.
Defined.

Lemma pull_device_result_witness :
  let res := pull_device env_ok h0 200 (dev_in_state "d1" CS_OPEN None) [] in
  fst (fst res) = 1
  /\ dh_conn_state (snd (fst res)) = CS_DEVICE_SYNC
  /\ dh_sent (snd (fst res)) = [mkFrame NETCONF_SSH_EOM (OutGetConfig 3)]
  /\ dh_timers (snd (fst res)) = [260].
Proof.
  intros res.
  destruct (pull_device_result env_ok h0 200 (dev_in_state "d1" CS_OPEN None) []
              (fst (fst res)) (snd (fst res)) (snd res))
    as (_ & [(H1 & H2 & _ & H4 & H5) | (Hr & _)]).
  - vm_compute. reflexivity.
  - repeat split; assumption.
  - exfalso. revert Hr. vm_compute. discriminate.
Defined.

Lemma connect_netconf_ssh_result_witness :
  let res := connect_netconf_ssh env_ok h0 100 (device_handle_new "d1")
               (Some "admin") (Some "10.0.0.1") in
  fst (fst res) = 0
  /\ dh_conn_state (snd res) = CS_CONNECTING
  /\ dh_socket (snd res) = Some 5
  /\ dh_fd_events (snd res) = [5]
  /\ dh_timers (snd res) = [160]
  /\ connect_netconf_ssh env_ok h0 100 (dev_connecting "d1")
                         (Some "admin") (Some "10.0.0.1")
     = (-1, h0, dev_connecting "d1").
Proof.
  intros res.
  destruct (connect_netconf_ssh_result env_ok h0 100 (device_handle_new "d1")
              (Some "admin") (Some "10.0.0.1")
              (fst (fst res)) (snd (fst res)) (snd res))
    as [(Hr & a & Ha & _ & _ & Hs & Hf & Ht & Hc & _) | (Hr & _)].
  - vm_compute. reflexivity.
  - injection Ha as <-. repeat split; assumption.
  - exfalso. revert Hr. vm_compute. discriminate.
Defined.

Lemma device_state_handler_sync_open_witness :
  let res := device_state_handler env_ok h_one_device 200 dev_syncing 5
               pulled_config in
  dh_conn_state (snd res) = CS_OPEN
  /\ fst (fst res) = 0
  /\ dh_sync_time (snd res) = Some 200
  /\ dh_timers (snd res) = []
  /\ dh_logmsg (snd res) = Some "Timeout waiting for remote peer".
Proof.
  intros res.
  assert (Hopen : dh_conn_state (snd res) = CS_OPEN) by (vm_compute; reflexivity).
  destruct (device_state_handler_sync_open env_ok h_one_device 200 dev_syncing 5
              pulled_config (fst (fst res)) (snd (fst res)) (snd res))
    as (H1 & _ & H3 & H4 & _ & H6).
  - reflexivity.
  - vm_compute. reflexivity.
  - exact Hopen.
  - repeat split; assumption.
Defined.

(** ** More on push, timers and reachable states *)

(** X19. When the diff of the synced tree and running is not empty and
    the write succeeds, push_device returns 1 without touching the
    reply: one edit-config with the three vectors of the diff and the
    message-id of the handle was written, the state is PUSH_EDIT, and a
    timer is registered at the time of day plus the device timeout. *)
Theorem push_device_with_diff E h now dh cbret x0 x1 yspec r dvec avec chvec s :
  dh_sync_xml dh = Some x0 ->
  running_device_root h (dh_name dh) = Some x1 ->
  dh_yspec dh = Some yspec ->
  env_xml_diff E yspec x0 x1 = (r, (dvec, avec, chvec)) ->
  0 <= r ->
  vec_nonempty dvec || vec_nonempty avec || vec_nonempty chvec = true ->
  dh_socket dh = Some s ->
  0 <= env_msg_send1 E s
         (mkFrame (h_netconf_framing h)
                  (OutEditConfig (dh_msg_id dh) dvec avec chvec)) ->
  exists dh1,
    push_device E h now dh cbret = (1, dh1, cbret)
    /\ dh_conn_state dh1 = CS_PUSH_EDIT
    /\ dh_sent dh1
       = (dh_sent dh ++ [mkFrame (h_netconf_framing h)
                                 (OutEditConfig (dh_msg_id dh) dvec avec chvec)])%list
    /\ dh_timers dh1
       = clixon_event_reg_timeout (now + device_timeout_secs h) (dh_timers dh)
    /\ dh_msg_id dh1 = (dh_msg_id dh + 1) mod 2 ^ 64.
Proof.
  intros Hx Hr Hy Hd Hpos Hne Hs Hsend.
  unfold push_device. rewrite Hx, Hr, Hy, Hd.
  destruct (Z.ltb_spec r 0); [lia|]. rewrite Hne.
  unfold device_send_edit_config_diff, device_handle_msg_id_getinc,
    clicon_msg_send1, device_handle_socket_get.
  cbn [dh_socket device_handle_msg_id_set]. rewrite Hs, Z.eqb_refl.
  destruct (Z.ltb_spec (env_msg_send1 E s
              (mkFrame (h_netconf_framing h)
                       (OutEditConfig (dh_msg_id dh) dvec avec chvec))) 0);
    [lia|].
  change (0 <? 0) with false. cbv iota. cbn.
  eexists. split; [reflexivity|]. cbn. auto.
Qed.

Lemma push_device_with_diff_witness :
  exists dh1,
    push_device env_ok h_two_devices 200 dev_with_diff [] = (1, dh1, [])
    /\ dh_conn_state dh1 = CS_PUSH_EDIT
    /\ dh_timers dh1 = [260].
Proof.
  destruct (push_device_with_diff env_ok h_two_devices 200 dev_with_diff []
              synced_tree
              (Cx "root" None [] None [xml_leaf "mtu" "1400"]) yspec_new 0
              [] [] [(synced_tree, Cx "root" None [] None [xml_leaf "mtu" "1400"])]
              5)
    as (dh1 & Heq & Hcs & _ & Ht & _);
    try (vm_compute; reflexivity).
  - lia.
  - cbn. lia.
  - exists dh1. split; [exact Heq|]. split; [exact Hcs|exact Ht].
Defined.

(** X20. device_state_timeout_restart replaces the first pending timer
    of the handle by one at the time of day plus the device timeout.
    When no timer is pending it returns -1 and registers nothing. *)
Theorem device_state_timeout_restart_spec h now dh :
  (dh_timers dh = [] -> device_state_timeout_restart h now dh = (-1, dh))
  /\ (forall t rest,
         dh_timers dh = t :: rest ->
         device_state_timeout_restart h now dh
         = (0, device_handle_timers_set dh
                 (clixon_event_reg_timeout (now + device_timeout_secs h) rest))).
Proof.
  unfold device_state_timeout_restart, device_state_timeout_unregister,
    device_state_timeout_register, clixon_event_unreg_timeout.
  split.
  - intros ->. reflexivity.
  - intros t rest ->. reflexivity.
Qed.

Lemma device_state_timeout_restart_spec_witness :
  device_state_timeout_restart h0 300 (device_handle_new "d1")
  = (-1, device_handle_new "d1")
  /\ dh_timers (snd (device_state_timeout_restart h0 300 (dev_connecting "d1")))
     = [360].
Proof.
  destruct (device_state_timeout_restart_spec h0 300 (device_handle_new "d1"))
    as (H1 & _).
  destruct (device_state_timeout_restart_spec h0 300 (dev_connecting "d1"))
    as (_ & H2).
  split; [apply H1; reflexivity|].
  rewrite (H2 160 []) by (vm_compute; reflexivity). reflexivity.
Defined.

(** X21. In every state a device handle can reach by connects, input,
    timeouts, pulls and pushes, at most one timer is pending; a device
    that is not CLOSED has an open socket whose descriptor is the only
    one registered for it; and a device that is OPEN has no timer. *)
Theorem reachable_registrations E dh :
  reachable E dh ->
  (List.length (dh_timers dh) <= 1)%nat
  /\ (dh_conn_state dh <> CS_CLOSED ->
      exists s, dh_socket dh = Some s /\ dh_fd_events dh = [s])
  /\ (dh_conn_state dh = CS_OPEN -> dh_timers dh = []).
Proof.
  intros Hreach. pose proof (reachable_device_inv _ _ Hreach) as Hinv.
  split; [apply (device_inv_is_weak dh Hinv)|]. split.
  - apply device_inv_open_socket, Hinv.
  - intros Hc. unfold device_inv in Hinv. rewrite Hc in Hinv. apply Hinv.
Qed.

Lemma reachable_registrations_witness :
  (List.length (dh_timers dev_partial_hello) <= 1)%nat
  /\ exists s, dh_socket dev_partial_hello = Some s
               /\ dh_fd_events dev_partial_hello = [s].
Proof.
  assert (Hreach : reachable env_ok dev_partial_hello).
  { apply reach_step with (h := h0) (now := 110)
                          (ev := EvInput 5 (partial_input "<hello"))
                          (dh := dev_connecting "d1");
      [|vm_compute; reflexivity].
    apply reach_step with (h := h0) (now := 100)
                          (ev := EvConnect None None (Some "10.0.0.1"))
                          (dh := device_handle_new "d1");
      [|vm_compute; reflexivity].
    apply reach_new. }
  destruct (reachable_registrations env_ok dev_partial_hello Hreach)
    as (H1 & H2 & _).
  split; [exact H1|]. apply H2. vm_compute. discriminate.
Defined.

(** X22. The handler has no case of its own for the states CLOSED,
    OPEN, PUSH_EDIT, PUSH_VALIDATE, PUSH_COMMIT and WRESP: there every
    message, also an rpc-reply, closes the session, with the log message
    "Unexpected msg" naming the message and the state, and the handler
    returns 0 with the clixon handle untouched.  So the answer of a
    device to an edit-config closes the device. *)
Theorem device_state_handler_default E h now dh s xmsg :
  dh_conn_state dh = CS_CLOSED \/ dh_conn_state dh = CS_OPEN
  \/ dh_conn_state dh = CS_PUSH_EDIT \/ dh_conn_state dh = CS_PUSH_VALIDATE
  \/ dh_conn_state dh = CS_PUSH_COMMIT \/ dh_conn_state dh = CS_WRESP ->
  exists dh1,
    device_state_handler E h now dh s xmsg = (0, h, dh1)
    /\ dh_conn_state dh1 = CS_CLOSED
    /\ dh_logmsg dh1
       = Some ("Unexpected msg " ++ xml_name xmsg ++ " in state "
               ++ fmt_s (device_state_int2str (dh_conn_state dh)))
    /\ dh_socket dh1 = None
    /\ dh_sent dh1 = dh_sent dh.
Proof.
  intros Hst.
  exists (snd (device_close_connection dh
                 (Some (unexpected_msg (xml_name xmsg) (dh_conn_state dh))))).
  destruct (device_close_connection_fields dh
              (Some (unexpected_msg (xml_name xmsg) (dh_conn_state dh))))
    as (F1 & F2 & F3 & _).
  split.
  - unfold device_state_handler.
    destruct Hst as [H|[H|[H|[H|[H|H]]]]]; rewrite H; reflexivity.
  - split; [exact F1|]. split; [exact F2|]. split; [exact F3|].
    unfold device_close_connection, device_state_timeout_unregister,
      clixon_event_unreg_timeout.
    destruct (dh_timers dh) eqn:Ht; cbn; rewrite ?Ht; reflexivity.
Qed.

Lemma device_state_handler_default_witness :
  exists dh1,
    device_state_handler env_ok h0 200
      (dev_in_state "d2" CS_PUSH_EDIT (Some synced_tree)) 5 (rpc_reply_data [])
    = (0, h0, dh1)
    /\ dh_conn_state dh1 = CS_CLOSED
    /\ dh_logmsg dh1 = Some "Unexpected msg rpc-reply in state (null)".
Proof.
  destruct (device_state_handler_default env_ok h0 200
              (dev_in_state "d2" CS_PUSH_EDIT (Some synced_tree)) 5
              (rpc_reply_data []))
    as (dh1 & Heq & Hcs & Hlog & _).
  - right; right; left. reflexivity.
  - exists dh1. split; [exact Heq|]. split; [exact Hcs|exact Hlog].
Defined.
